(** * AdvancePandas: the save protocol of [advance_pandas.py]

    A shallow embedding of [AdvancePandas.save], [AdvancePandas._save_to_file],
    [AdvancePandas._transfer_excel_format], the [_metadata]/[_constructor]
    hooks and the library calls they make.

    The source is glue around library calls, so the embedding has two layers:
    - the functions of [advance_pandas.py], translated line by line into a
      state-and-exception monad over a [World] (file system, SIGINT handler,
      poll clock, log of dialogs, launched files and spawned workers);
    - the library calls they make ([pathlib], [signal], [tempfile], [shutil],
      [os.rename], [openpyxl], pandas' writers and its [__finalize__] hook),
      each modelled by its documented behaviour.  What depends on the
      platform or on chance is a field of [Env]. *)

From Stdlib Require Import Ascii String QArith.
From stdpp Require Import gmap strings list fin_maps.

Local Open Scope string_scope.
Local Open Scope list_scope.
Local Open Scope nat_scope.

(** ** Strings *)

Module Str.

(** [name.rfind('.')], scanning from position [i]. *)
Fixpoint rfind_dot_from (i : nat) (s : string) : option nat :=
  match s with
  | EmptyString => None
  | String c s' =>
      match rfind_dot_from (S i) s' with
      | Some j => Some j
      | None => if Ascii.eqb c "."%char then Some i else None
      end
  end.

Definition rfind_dot (s : string) : option nat := rfind_dot_from 0 s.

(** [s[:i]] and [s[i:]]. *)
Fixpoint take (i : nat) (s : string) : string :=
  match i, s with
  | S i', String c s' => String c (take i' s')
  | _, _ => EmptyString
  end.

Fixpoint drop (i : nat) (s : string) : string :=
  match i, s with
  | S i', String _ s' => drop i' s'
  | _, _ => s
  end.

Definition lower_ascii (c : ascii) : ascii :=
  let n := nat_of_ascii c in
  if (65 <=? n) && (n <=? 90) then ascii_of_nat (n + 32) else c.

Definition upper_ascii (c : ascii) : ascii :=
  let n := nat_of_ascii c in
  if (97 <=? n) && (n <=? 122) then ascii_of_nat (n - 32) else c.

Fixpoint lower (s : string) : string :=
  match s with
  | EmptyString => EmptyString
  | String c s' => String (lower_ascii c) (lower s')
  end.

(** [s in l] for a list of strings. *)
Definition mem (s : string) (l : list string) : bool :=
  existsb (String.eqb s) l.

(** [str.split] on the two separators a Windows path accepts. *)
Fixpoint split_sep (acc : string) (s : string) : list string :=
  match s with
  | EmptyString => [acc]
  | String c s' =>
      if Ascii.eqb c "/"%char || Ascii.eqb c "\"%char
      then acc :: split_sep EmptyString s'
      else split_sep (acc +:+ String c EmptyString) s'
  end.

End Str.

(** ** [pathlib] *)

(** A [Path] is the list of its components; [Path('.')] is the empty list,
    and the root of an absolute path is the empty first component, as in
    ['/srv/x'.split('/')]. *)
Abbreviation Path := (list string).

Module PurePath.

Definition name (p : Path) : string := List.last p "".

(** [PurePath.parent]: the root is its own parent. *)
Definition parent (p : Path) : Path :=
  match p with
  | [""] => p
  | _ => removelast p
  end.

(** [p / s] *)
Definition joinpath (p : Path) (s : string) : Path := p ++ [s].

(** [PurePath.suffix]: [i = name.rfind('.')], and [name[i:]] when
    [0 < i < len(name) - 1], else the empty string. *)
Definition suffix_of_name (nm : string) : string :=
  match Str.rfind_dot nm with
  | Some i => if (0 <? i) && (i <? String.length nm - 1) then Str.drop i nm else ""
  | None => ""
  end.

Definition stem_of_name (nm : string) : string :=
  match Str.rfind_dot nm with
  | Some i => if (0 <? i) && (i <? String.length nm - 1) then Str.take i nm else nm
  | None => nm
  end.

Definition suffix (p : Path) : string := suffix_of_name (name p).
Definition stem (p : Path) : string := stem_of_name (name p).

(** The extension [os.path.splitext] gives for a file name: from the last
    dot on, unless only dots precede it. *)
Fixpoint all_dots (s : string) : bool :=
  match s with
  | EmptyString => true
  | String c s' => Ascii.eqb c "."%char && all_dots s'
  end.

Definition splitext_ext (nm : string) : string :=
  match Str.rfind_dot nm with
  | Some i => if all_dots (Str.take i nm) then "" else Str.drop i nm
  | None => ""
  end.

(** [PurePath.with_name]: [ValueError] on a path with an empty name. *)
Definition with_name (p : Path) (nm : string) : option Path :=
  if String.eqb (name p) "" then None else Some (parent p ++ [nm]).

Definition is_sep (c : ascii) : bool :=
  Ascii.eqb c "/"%char || Ascii.eqb c "\"%char.

(** [Path(s)] for a string: split on the separators, drop empty and [.]
    components, keep the root of a string that starts with a separator
    and keep [..] components, which [pathlib] does not resolve (drive
    letters are kept as an ordinary first component). *)
Definition parse (s : string) : Path :=
  let parts := List.filter (fun c => negb (String.eqb c "" || String.eqb c "."))
                           (Str.split_sep "" s) in
  match s with
  | String c _ => if is_sep c then "" :: parts else parts
  | EmptyString => parts
  end.



End PurePath.

(** A value of type [Union[str, Path]]. *)
Inductive pathlike :=
| PStr (s : string)
| PPath (p : Path).

(** Python truthiness of an [Optional[Union[str, Path]]]: [None] and the
    empty string are false, a [Path] object is always true. *)
Definition truthy (v : option pathlike) : bool :=
  match v with
  | None => false
  | Some (PStr s) => negb (String.eqb s "")
  | Some (PPath _) => true
  end.

(** [Path(v)] *)
Definition to_Path (v : pathlike) : Path :=
  match v with
  | PStr s => PurePath.parse s
  | PPath p => p
  end.

(** ** [openpyxl.utils]: column letters *)

Module ColumnLetter.

(** The loop of [_get_column_letter]: least significant letter first.
    [fuel] bounds the [while col_idx > 0] loop. *)
Fixpoint letters_of (fuel col_idx : nat) : list ascii :=
  match fuel with
  | 0 => []
  | S fuel' =>
      if col_idx =? 0 then []
      else
        let q := col_idx / 26 in
        let r := col_idx mod 26 in
        if r =? 0
        then ascii_of_nat (26 + 64) :: letters_of fuel' (q - 1)
        else ascii_of_nat (r + 64) :: letters_of fuel' q
  end.

(** The largest column index with at most three letters, 18278. *)
Definition max_col_index : nat := 26 + 26 * 26 + 26 * 26 * 26.

(** [get_column_letter]: [None] stands for its [ValueError] outside
    [1..18278]. *)
Definition get_column_letter (col_idx : nat) : option string :=
  if (1 <=? col_idx) && (col_idx <=? max_col_index)
  then Some (string_of_list_ascii (rev (letters_of col_idx col_idx)))
  else None.

Definition letter_value (c : ascii) : option nat :=
  let n := nat_of_ascii (Str.upper_ascii c) in
  if (65 <=? n) && (n <=? 90) then Some (n - 64) else None.

Fixpoint decode (acc : nat) (l : list ascii) : option nat :=
  match l with
  | [] => Some acc
  | c :: l' =>
      match letter_value c with
      | Some d => decode (acc * 26 + d) l'
      | None => None
      end
  end.

(** [column_index_from_string]: [None] stands for its [ValueError]. *)
Definition column_index_from_string (s : string) : option nat :=
  match decode 0 (list_ascii_of_string s) with
  | Some n => if (1 <=? n) && (n <=? max_col_index) then Some n else None
  | None => None
  end.

(** The value of a list of letters, least significant first. *)
Fixpoint value_of (l : list ascii) : option nat :=
  match l with
  | [] => Some 0
  | c :: l' =>
      match letter_value c, value_of l' with
      | Some d, Some v => Some (d + 26 * v)
      | _, _ => None
      end
  end.

End ColumnLetter.

(** ** Data model *)

(** The tabular data: column names and rows of cell values. *)
Record DataFrame := {
  columns : list string;
  rows : list (list string)
}.

(** The dataset with its two provenance attributes (lines 20-33). *)
Record AdvancePandas := {
  frame : DataFrame;
  source_file : option pathlike;
  destination_file : option pathlike
}.

(** A cell alignment record of [openpyxl]. *)
Record Alignment := {
  horizontal : option string;
  vertical : option string;
  wrap_text : option bool
}.

Definition default_alignment : Alignment :=
  {| horizontal := None; vertical := None; wrap_text := None |}.

Record Cell := {
  value : option string;
  alignment : Alignment
}.

Definition empty_cell : Cell :=
  {| value := None; alignment := default_alignment |}.

(** What Python holds of a cell style: an [Alignment] object, or the
    [StyleProxy] around one that reading [cell.alignment] hands out. *)
Inductive StyleValue :=
| style_object (a : Alignment)
| style_proxy (a : Alignment).

(** A worksheet: cells keyed by (row, column), both from 1, and the widths
    of the column dimensions keyed by column letter. Widths are only ever
    copied, so a rational stands for the float. *)
Record Worksheet := {
  title : string;
  cells : gmap (nat * nat) Cell;
  column_dimensions : gmap string (option Q)
}.

Record Workbook := {
  active : Worksheet;
  others : list Worksheet
}.

(** What a file holds. [Blank] is a file that was created or truncated and
    not written yet; [Delimited df] is delimited text whose header and
    rows are the cells of [df], as text. *)
Inductive Content :=
| Blank
| Delimited (df : DataFrame)
| Spreadsheet (wb : Workbook).

Inductive Node :=
| Dir
| File (c : Content).

(** The file system maps every existing path, the working directory [[]]
    included, to its node. *)
Abbreviation FS := (gmap (list string) Node).

(** The handlers SIGINT can be bound to; [ignore_keyboard_interrupt] is the
    function defined at lines 87-88. *)
Inductive Handler :=
| default_int_handler
| SIG_IGN
| SIG_DFL
| ignore_keyboard_interrupt
| custom_handler (id : nat).

Inductive Exn :=
| ValueError (msg : string)
| TypeError
| KeyboardInterrupt
| KeyError
| FileNotFoundError (p : Path)
| FileExistsError (p : Path)
| IsADirectoryError (p : Path)
| InvalidFileException
| BadZipFile
| ShutilError
| FileUnavailable (p : Path).

(** What the arrival of SIGINT does under a handler. Python calls a
    handler function with two arguments, the signal number and the frame;
    [ignore_keyboard_interrupt] is declared without parameters. *)
Inductive Delivery :=
| ignored
| raises (e : Exn)
| terminates
| runs (id : nat).

Definition deliver_sigint (h : Handler) : Delivery :=
  match h with
  | default_int_handler => raises KeyboardInterrupt
  | SIG_IGN => ignored
  | SIG_DFL => terminates
  | ignore_keyboard_interrupt => raises TypeError
  | custom_handler id => runs id
  end.

Inductive Dialog :=
| askyesno
| asksaveasfilename.

(** The arguments of a worker started by [Process(...).start()]. *)
Record Job := {
  job_path : option pathlike;
  job_retain_format : bool;
  job_auto_open : bool;
  job_create_backup : bool
}.

Record World := {
  fs : FS;
  sigint : Handler;
  clock : nat;                (* polls made so far *)
  rng : nat;                  (* position in the stream of temporary names *)
  history : list FS;          (* every file-system state written, newest first *)
  dialogs : list Dialog;      (* dialogs shown, newest first *)
  launched : list Path;       (* files handed to [startfile], newest first *)
  spawned : list Job          (* workers started, newest first *)
}.

(** What the source does not determine. *)
Record Env := {
  (* does [os.rename] replace an existing destination (POSIX), or raise
     [FileExistsError] (Windows)? *)
  rename_replaces : bool;
  (* the bounded retry count of the availability wait *)
  retries : nat;
  (* is the file held by another process at a given poll? *)
  held : Path -> nat -> bool;
  (* the random names [tempfile] draws *)
  candidate : nat -> string;
  (* the width of a column dimension that the sheet does not store *)
  default_width : option Q;
  (* what the user answers *)
  answer_yesno : bool;
  answer_saveas : string
}.

Definition set_fs (f : FS) (w : World) : World :=
  {| fs := f; sigint := sigint w; clock := clock w; rng := rng w;
     history := history w; dialogs := dialogs w; launched := launched w;
     spawned := spawned w |}.

Definition set_sigint (h : Handler) (w : World) : World :=
  {| fs := fs w; sigint := h; clock := clock w; rng := rng w;
     history := history w; dialogs := dialogs w; launched := launched w;
     spawned := spawned w |}.

Definition set_clock (t : nat) (w : World) : World :=
  {| fs := fs w; sigint := sigint w; clock := t; rng := rng w;
     history := history w; dialogs := dialogs w; launched := launched w;
     spawned := spawned w |}.

Definition set_rng (n : nat) (w : World) : World :=
  {| fs := fs w; sigint := sigint w; clock := clock w; rng := n;
     history := history w; dialogs := dialogs w; launched := launched w;
     spawned := spawned w |}.

Definition set_history (h : list FS) (w : World) : World :=
  {| fs := fs w; sigint := sigint w; clock := clock w; rng := rng w;
     history := h; dialogs := dialogs w; launched := launched w;
     spawned := spawned w |}.

Definition set_dialogs (d : list Dialog) (w : World) : World :=
  {| fs := fs w; sigint := sigint w; clock := clock w; rng := rng w;
     history := history w; dialogs := d; launched := launched w;
     spawned := spawned w |}.

Definition set_launched (l : list Path) (w : World) : World :=
  {| fs := fs w; sigint := sigint w; clock := clock w; rng := rng w;
     history := history w; dialogs := dialogs w; launched := l;
     spawned := spawned w |}.

Definition set_spawned (l : list Job) (w : World) : World :=
  {| fs := fs w; sigint := sigint w; clock := clock w; rng := rng w;
     history := history w; dialogs := dialogs w; launched := launched w;
     spawned := l |}.

(** ** The monad: state passing with exceptions *)

Inductive Outcome (A : Type) :=
| Return (a : A)
| Raise (e : Exn).
Arguments Return {A} a.
Arguments Raise {A} e.

Definition M (A : Type) : Type := World -> Outcome A * World.

Definition ret {A} (a : A) : M A := fun w => (Return a, w).

Definition raise {A} (e : Exn) : M A := fun w => (Raise e, w).

Definition bind {A B} (m : M A) (k : A -> M B) : M B :=
  fun w =>
    match m w with
    | (Return a, w') => k a w'
    | (Raise e, w') => (Raise e, w')
    end.

(** [try: body finally: fin]. The state survives an exception; an exception
    of [fin] replaces the outcome of [body]. *)
Definition try_finally {A} (body : M A) (fin : M unit) : M A :=
  fun w =>
    let '(r, w1) := body w in
    match fin w1 with
    | (Return _, w2) => (r, w2)
    | (Raise e, w2) => (Raise e, w2)
    end.

(** [try: body except OSError: handler]; every exception of the library
    calls it is used on is an [OSError]. *)
Definition try_except {A} (body : M A) (handler : M A) : M A :=
  fun w =>
    match body w with
    | (Return a, w') => (Return a, w')
    | (Raise _, w') => handler w'
    end.

Declare Scope py_scope.
Delimit Scope py_scope with py.
Notation "x <- m ;; k" := (bind m (fun x => k))
  (at level 100, m at next level, right associativity) : py_scope.
Notation "m ;; k" := (bind m (fun _ => k))
  (at level 100, right associativity) : py_scope.
Local Open Scope py_scope.

(** A write to the file system: the new state becomes visible and is
    recorded. *)
Definition commit (f : FS) : M unit :=
  fun w => (Return tt, set_history (f :: history w) (set_fs f w)).

(** ** [openpyxl]: worksheets *)

Module Sheet.

(** [ws.max_row] and [ws.max_column]: the largest row (column) that holds
    a cell, and 1 for an empty sheet. *)
Definition max_row (ws : Worksheet) : nat :=
  max_list (1 :: (fst <$> elements (dom (cells ws)))).

Definition max_column (ws : Worksheet) : nat :=
  max_list (1 :: (snd <$> elements (dom (cells ws)))).

(** [ws.cell(row=r, column=c)], read: an absent cell is created empty. *)
Definition cell (ws : Worksheet) (r c : nat) : Cell :=
  default empty_cell (cells ws !! (r, c)).

(** [ws.column_dimensions[letter].width], read. *)
Definition width (dflt : option Q) (ws : Worksheet) (letter : string) : option Q :=
  default dflt (column_dimensions ws !! letter).

(** [ws.column_dimensions[letter].width = w] *)
Definition set_width (letter : string) (w : option Q) (ws : Worksheet) : Worksheet :=
  {| title := title ws; cells := cells ws;
     column_dimensions := <[letter := w]> (column_dimensions ws) |}.

(** [ws.cell(row=r, column=c).alignment], read: a [StyleProxy] around the
    alignment of the cell. *)
Definition get_alignment (ws : Worksheet) (r c : nat) : StyleValue :=
  style_proxy (alignment (cell ws r c)).

(** [ws.cell(r, c).alignment = v]. The style descriptor interns the value
    in the workbook's list of alignments, which hashes it: an [Alignment]
    object is stored (the cell is created when absent), a [StyleProxy] is
    not hashable and the assignment raises [TypeError]. *)
Definition set_alignment (v : StyleValue) (ws : Worksheet) (rc : nat * nat)
    : Outcome Worksheet :=
  match v with
  | style_object a =>
      Return {| title := title ws;
                cells := <[rc := {| value := value (cell ws rc.1 rc.2);
                                    alignment := a |}]> (cells ws);
                column_dimensions := column_dimensions ws |}
  | style_proxy _ => Raise TypeError
  end.

(** The cells [ws[letter]] yields: the whole column, rows 1 to [max_row].
    [None] stands for the [ValueError] of an invalid column string. *)
Definition getitem_column (ws : Worksheet) (letter : string) : option (list (nat * nat)) :=
  match ColumnLetter.column_index_from_string letter with
  | Some c => Some ((fun r => (r, c)) <$> seq 1 (max_row ws))
  | None => None
  end.

(** [wb[title]]: the first sheet with that title. *)
Definition getitem (wb : Workbook) (t : string) : option Worksheet :=
  List.find (fun ws => String.eqb (title ws) t) (active wb :: others wb).

(** The workbook with its sheet titled [t] replaced by [ws']. *)
Definition replace_sheet (t : string) (ws' : Worksheet) (wb : Workbook) : Workbook :=
  if String.eqb (title (active wb)) t
  then {| active := ws'; others := others wb |}
  else {| active := active wb;
          others := (fun ws => if String.eqb (title ws) t then ws' else ws) <$> others wb |}.

End Sheet.

(** ** pandas: serialisation *)

Module Writer.

(** The alignment pandas gives the header cells it writes. *)
Definition header_alignment : Alignment :=
  {| horizontal := Some "center"; vertical := Some "top"; wrap_text := None |}.

Definition header_cells (cols : list string) : list ((nat * nat) * Cell) :=
  imap (fun j c => ((1, S j), {| value := Some c; alignment := header_alignment |})) cols.

Definition body_cells (rs : list (list string)) : list ((nat * nat) * Cell) :=
  concat (imap (fun i row =>
            imap (fun j v => ((i + 2, S j), {| value := Some v; alignment := default_alignment |})) row)
          rs).

(** The sheet [to_excel(..., sheet_name=t, index=False, header=True)]
    writes: the header in row 1, the rows below, no widths. *)
Definition sheet_of_frame (t : string) (df : DataFrame) : Worksheet :=
  {| title := t;
     cells := list_to_map (header_cells (columns df) ++ body_cells (rows df));
     column_dimensions := ∅ |}.

Definition workbook_of_frame (t : string) (df : DataFrame) : Workbook :=
  {| active := sheet_of_frame t df; others := [] |}.

End Writer.

(** ** Python dictionaries: insertion ordered, a repeated key keeps its
    place and takes the new value *)

Module Dict.

Fixpoint set {V} (k : string) (v : V) (d : list (string * V)) : list (string * V) :=
  match d with
  | [] => [(k, v)]
  | (k', v') :: d' =>
      if String.eqb k k' then (k, v) :: d' else (k', v') :: set k v d'
  end.

Fixpoint get {V} (k : string) (d : list (string * V)) : option V :=
  match d with
  | [] => None
  | (k', v') :: d' => if String.eqb k k' then Some v' else get k d'
  end.

Definition keys {V} (d : list (string * V)) : list string := fst <$> d.

End Dict.

(** ** The Format Snapshot and its application (lines 134-140, 148-151) *)

Record Detail := {
  detail_width : option Q;
  detail_alignment : StyleValue
}.

Module Transplant.

(** The dictionary comprehension of lines 134-140 over the columns [cols];
    [None] stands for the [ValueError] of [get_column_letter]. *)
Fixpoint collect (dflt : option Q) (sheet : Worksheet) (cols : list nat)
    (d : list (string * Detail)) : option (list (string * Detail)) :=
  match cols with
  | [] => Some d
  | col_idx :: cols' =>
      match ColumnLetter.get_column_letter col_idx with
      | None => None
      | Some letter =>
          collect dflt sheet cols'
            (Dict.set letter
               {| detail_width := Sheet.width dflt sheet letter;
                  detail_alignment := Sheet.get_alignment sheet 1 col_idx |} d)
      end
  end.

(** [column_details], for [col_idx in range(1, sheet.max_column + 1)]. *)
Definition column_details (dflt : option Q) (sheet : Worksheet)
    : option (list (string * Detail)) :=
  collect dflt sheet (seq 1 (Sheet.max_column sheet)) [].

(** Lines 150-151: [for cell in cells: cell.alignment = v]; the first
    assignment that raises ends the loop. *)
Fixpoint assign_alignment (v : StyleValue) (ws : Worksheet) (cs : list (nat * nat))
    : Outcome Worksheet :=
  match cs with
  | [] => Return ws
  | rc :: cs' =>
      match Sheet.set_alignment v ws rc with
      | Return ws' => assign_alignment v ws' cs'
      | Raise e => Raise e
      end
  end.

Definition invalid_column : Exn := ValueError "Invalid column index".

(** The body of the loop of lines 148-151 for one key. *)
Definition apply_one (column_details : list (string * Detail))
    (col_idx : nat) (col_letter : string) (updated_sheet : Worksheet)
    : Outcome Worksheet :=
  match Dict.get col_letter column_details with
  | None => Raise KeyError
  | Some d =>
      let ws1 := Sheet.set_width col_letter (detail_width d) updated_sheet in
      match ColumnLetter.get_column_letter col_idx with
      | None => Raise invalid_column
      | Some letter =>
          match Sheet.getitem_column ws1 letter with
          | None => Raise invalid_column
          | Some cs => assign_alignment (detail_alignment d) ws1 cs
          end
      end
  end.

(** [for col_idx, col_letter in enumerate(keys, start=col_idx)]. *)
Fixpoint apply_from (column_details : list (string * Detail))
    (col_idx : nat) (keys : list string) (updated_sheet : Worksheet)
    : Outcome Worksheet :=
  match keys with
  | [] => Return updated_sheet
  | col_letter :: keys' =>
      match apply_one column_details col_idx col_letter updated_sheet with
      | Raise e => Raise e
      | Return ws' => apply_from column_details (S col_idx) keys' ws'
      end
  end.

Definition apply_details (column_details : list (string * Detail))
    (updated_sheet : Worksheet) : Outcome Worksheet :=
  apply_from column_details 1 (Dict.keys column_details) updated_sheet.

End Transplant.

(** ** Library calls *)

Section Library.

Variable env : Env.

(** [signal.signal(signal.SIGINT, h)]: installs [h], returns the handler
    it replaces. *)
Definition signal_signal (h : Handler) : M Handler :=
  fun w => (Return (sigint w), set_sigint h w).

(** [Path.exists()] *)
Definition path_exists (p : Path) : M bool :=
  fun w => (Return (match fs w !! p with Some _ => true | None => false end), w).

(** [Path.mkdir(exist_ok=True)]: nothing to do on an existing directory,
    [FileExistsError] on an existing file, [FileNotFoundError] without the
    parent directory. *)
Definition mkdir_exist_ok (p : Path) : M unit :=
  fun w =>
    match fs w !! p with
    | Some Dir => (Return tt, w)
    | Some (File _) => (Raise (FileExistsError p), w)
    | None =>
        match fs w !! PurePath.parent p with
        | Some Dir => commit (<[p := Dir]> (fs w)) w
        | _ => (Raise (FileNotFoundError p), w)
        end
    end.

(** [tempfile.TMP_MAX] *)
Definition TMP_MAX : nat := 100 * 100.

(** The loop of [tempfile._mkstemp_inner]: draw a name, skip it when the
    file exists, create the file otherwise; give up after [fuel] draws. *)
Fixpoint mkstemp_inner (fuel : nat) (dir : Path) (suffix : string) : M Path :=
  match fuel with
  | 0 => raise (FileExistsError dir)
  | S fuel' =>
      fun w =>
        let file := PurePath.joinpath dir ("tmp" +:+ candidate env (rng w) +:+ suffix) in
        let w1 := set_rng (S (rng w)) w in
        match fs w !! file with
        | Some _ => mkstemp_inner fuel' dir suffix w1
        | None => (_ <- commit (<[file := File Blank]> (fs w)) ;; ret file) w1
        end
  end.

(** [NamedTemporaryFile(delete=False, suffix=suffix, dir=dir)]; the value is
    [Path(temp_file.name)]. *)
Definition NamedTemporaryFile (suffix : string) (dir : Path) : M Path :=
  mkstemp_inner TMP_MAX dir suffix.

(** Truncating or creating [p], then writing [c] to it. *)
Definition truncate_and_write (p : Path) (c : Content) : M unit :=
  _ <- (fun w => commit (<[p := File Blank]> (fs w)) w) ;;
  fun w => commit (<[p := File c]> (fs w)) w.

(** Opening [p] for writing and writing [c]: an existing file is
    truncated, a new one is created in a directory that has to exist
    ([FileNotFoundError]); then the file holds [c]. *)
Definition write_file (p : Path) (c : Content) : M unit :=
  fun w =>
    match fs w !! p with
    | Some Dir => (Raise (IsADirectoryError p), w)
    | Some (File _) => truncate_and_write p c w
    | None =>
        match fs w !! PurePath.parent p with
        | Some Dir => truncate_and_write p c w
        | _ => (Raise (FileNotFoundError p), w)
        end
    end.

(** [DataFrame.to_csv(p, index=False)] *)
Definition to_csv (self : AdvancePandas) (p : Path) : M unit :=
  write_file p (Delimited (frame self)).

(** [DataFrame.to_excel(p, index=False)]: one sheet, named [Sheet1]. *)
Definition to_excel (self : AdvancePandas) (p : Path) : M unit :=
  write_file p (Spreadsheet (Writer.workbook_of_frame "Sheet1" (frame self))).

(** The file formats [openpyxl] reads. *)
Definition SUPPORTED_FORMATS : list string := [".xlsx"; ".xlsm"; ".xltx"; ".xltm"].

(** [openpyxl.load_workbook(p)]: the extension of the file name, in lower
    case, has to be a supported one ([InvalidFileException]); then the file
    has to exist and to hold a workbook. *)
Definition load_workbook (p : Path) : M Workbook :=
  fun w =>
    if negb (Str.mem (Str.lower (PurePath.splitext_ext (PurePath.name p))) SUPPORTED_FORMATS)
    then (Raise InvalidFileException, w)
    else
      match fs w !! p with
      | None => (Raise (FileNotFoundError p), w)
      | Some Dir => (Raise (IsADirectoryError p), w)
      | Some (File (Spreadsheet wb)) => (Return wb, w)
      | Some (File _) => (Raise BadZipFile, w)
      end.

(** [os.rename(src, dst)] for a file [src]. An existing destination is
    replaced in one step where the platform does that (POSIX) and makes the
    call fail where it does not (Windows). *)
Definition os_rename (src dst : Path) : M unit :=
  fun w =>
    match fs w !! src with
    | None => (Raise (FileNotFoundError src), w)
    | Some n =>
        match fs w !! dst with
        | None => commit (<[dst := n]> (delete src (fs w))) w
        | Some Dir => (Raise (IsADirectoryError dst), w)
        | Some (File _) =>
            if rename_replaces env
            then commit (<[dst := n]> (delete src (fs w))) w
            else (Raise (FileExistsError dst), w)
        end
    end.

(** [shutil.copy2(src, dst)] for a file [src]: into [dst] when that is a
    directory; the destination is opened for writing, which truncates it,
    and the content is copied over. *)
Definition copy2 (src dst : Path) : M unit :=
  fun w =>
    let dst := match fs w !! dst with
               | Some Dir => PurePath.joinpath dst (PurePath.name src)
               | _ => dst
               end in
    match fs w !! src with
    | None => (Raise (FileNotFoundError src), w)
    | Some Dir => (Raise (IsADirectoryError src), w)
    | Some (File c) => write_file dst c w
    end.

(** [os.unlink(p)] *)
Definition os_unlink (p : Path) : M unit :=
  fun w =>
    match fs w !! p with
    | None => (Raise (FileNotFoundError p), w)
    | Some _ => commit (delete p (fs w)) w
    end.

(** [shutil.move(src, dst)] for a file [src]: into [dst] when that is a
    directory, where it must not exist yet; [os.rename], and when that
    fails with an [OSError], [copy2] followed by [os.unlink(src)]. *)
Definition move (src dst : Path) : M unit :=
  fun w =>
    let is_dir := match fs w !! dst with Some Dir => true | _ => false end in
    let real_dst := if is_dir then PurePath.joinpath dst (PurePath.name src) else dst in
    if is_dir && match fs w !! real_dst with Some _ => true | None => false end
    then (Raise ShutilError, w)
    else
      try_except (os_rename src real_dst)
                 (copy2 src real_dst ;; os_unlink src) w.

(** [os.startfile(p)] *)
Definition startfile (p : Path) : M unit :=
  fun w =>
    match fs w !! p with
    | None => (Raise (FileNotFoundError p), w)
    | Some _ => (Return tt, set_launched (p :: launched w) w)
    end.

(** [Process(target=self._save_to_file, args=..., kwargs=...).start()]: the
    worker is started and not waited for. *)
Definition Process_start (j : Job) : M unit :=
  fun w => (Return tt, set_spawned (j :: spawned w) w).

(** ** The helpers of [utilities] *)

(** Modelled from the spec: the polling loop of [wait_for_file_availability],
    which is not among the sources. Section 5 of the specification: a
    bounded number of attempts, [n] of them from poll [t] on; the value is
    the poll at which the file was found free. *)
Fixpoint poll (busy : nat -> bool) (t n : nat) : option nat :=
  match n with
  | 0 => None
  | S n' => if busy t then poll busy (S t) n' else Some t
  end.

(** Modelled from the spec: [wait_for_file_availability] of [utilities] is
    not among the sources. Section 5 of the specification: a
    polling wait with a bounded retry count and a fixed inter-attempt delay;
    the mandatory wait fails with a fatal error when the file does not
    become available within the bound, the advisory wait
    ([notify_only=True]) reports it and the caller skips the step. *)
Definition wait_for_file_availability (p : Path) (notify_only : bool) : M bool :=
  fun w =>
    match poll (held env p) (clock w) (retries env) with
    | Some t => (Return true, set_clock (S t) w)
    | None =>
        let w' := set_clock (clock w + retries env) w in
        if notify_only then (Return false, w') else (Raise (FileUnavailable p), w')
    end.

(** Modelled from the spec: [always_on_top_dialog] of [utilities] is not
    among the sources. Section 4.1 of the specification: the dialog is
    shown above the other windows and the call blocks on the answer, which
    it returns. Here for [messagebox.askyesno] (line 51). *)
Definition always_on_top_dialog_askyesno : M bool :=
  fun w => (Return (answer_yesno env), set_dialogs (askyesno :: dialogs w) w).

(** Modelled from the spec: [always_on_top_dialog], as above, for
    [filedialog.asksaveasfilename] (lines 60-65); the answer is the empty
    string when the user cancels. *)
Definition always_on_top_dialog_asksaveasfilename : M string :=
  fun w => (Return (answer_saveas env), set_dialogs (asksaveasfilename :: dialogs w) w).

(** Raise [e] for [None]. *)
Definition or_raise {A} (e : Exn) (o : option A) : M A :=
  match o with
  | Some a => ret a
  | None => raise e
  end.

(** The outcome of a computation that does not touch the world. *)
Definition lift {A} (o : Outcome A) : M A := fun w => (o, w).

(** ** [AdvancePandas._transfer_excel_format] (lines 127-153) *)

Definition _transfer_excel_format (source_file : pathlike) (temp_file_path : Path)
    (dataframe : AdvancePandas) : M unit :=
  workbook <- load_workbook (to_Path source_file) ;;
  let sheet := active workbook in
  column_details <- or_raise Transplant.invalid_column
                      (Transplant.column_details (default_width env) sheet) ;;
  write_file temp_file_path
    (Spreadsheet (Writer.workbook_of_frame (title sheet) (frame dataframe))) ;;
  updated_workbook <- load_workbook temp_file_path ;;
  updated_sheet <- or_raise KeyError (Sheet.getitem updated_workbook (title sheet)) ;;
  formatted <- lift (Transplant.apply_details column_details updated_sheet) ;;
  write_file temp_file_path
    (Spreadsheet (Sheet.replace_sheet (title sheet) formatted updated_workbook)).

(** ** [AdvancePandas._save_to_file] (lines 75-125) *)

Definition valid_extensions : list string := [".csv"; ".xlsx"].

Definition unsupported_extension : Exn :=
  ValueError "File extension must be one of .csv, .xlsx.".

(** Lines 107-110. *)
Definition retain_format_step (self : AdvancePandas) (file_path temp_file_path : Path)
    (retain_format : bool) : M unit :=
  if retain_format then
    target_exists <- path_exists file_path ;;
    let reference_file :=
      if target_exists then Some (PPath file_path) else source_file self in
    if truthy reference_file then
      match reference_file with
      | Some reference =>
          if Str.mem (PurePath.suffix (to_Path reference)) [".xlsx"; ".xls"]
          then _transfer_excel_format reference temp_file_path self
          else ret tt
      | None => ret tt
      end
    else ret tt
  else ret tt.

(** Lines 116-119. *)
Definition backup_step (file_path : Path) (create_backup : bool) : M unit :=
  if create_backup then
    backup_file_path <-
      or_raise (ValueError "empty name")
        (PurePath.with_name file_path
           (PurePath.stem file_path +:+ " - Backup" +:+ PurePath.suffix file_path)) ;;
    backup_exists <- path_exists backup_file_path ;;
    available <- (if backup_exists
                  then wait_for_file_availability backup_file_path true
                  else ret false) ;;
    if available then copy2 file_path backup_file_path else ret tt
  else ret tt.

(** Lines 96-105: the temporary file, written in the format of the target. *)
Definition write_temp (self : AdvancePandas) (file_path : Path) : M Path :=
  let temp_file_dir := PurePath.joinpath (PurePath.parent file_path) "TemporaryFiles" in
  mkdir_exist_ok temp_file_dir ;;
  temp_file_path <- NamedTemporaryFile (PurePath.suffix file_path) temp_file_dir ;;
  (if String.eqb (PurePath.suffix file_path) ".csv" then to_csv self temp_file_path
   else if String.eqb (PurePath.suffix file_path) ".xlsx" then to_excel self temp_file_path
   else ret tt) ;;
  ret temp_file_path.

(** Lines 112-114. *)
Definition replace_target (temp_file_path file_path : Path) : M unit :=
  target_exists <- path_exists file_path ;;
  (if target_exists
   then _ <- wait_for_file_availability file_path false ;; ret tt
   else ret tt) ;;
  move temp_file_path file_path.

(** Lines 96-114: everything up to the move onto the target. *)
Definition install (self : AdvancePandas) (file_path : Path) (retain_format : bool)
    : M unit :=
  temp_file_path <- write_temp self file_path ;;
  retain_format_step self file_path temp_file_path retain_format ;;
  replace_target temp_file_path file_path.

(** Lines 96-122, the body of the [try]. *)
Definition save_body (self : AdvancePandas) (file_path : Path)
    (retain_format auto_open create_backup : bool) : M unit :=
  install self file_path retain_format ;;
  backup_step file_path create_backup ;;
  (if auto_open then startfile file_path else ret tt).

(** Lines 107-122: what the body does once the temporary file is
    written. *)
Definition after_temp (self : AdvancePandas) (file_path temp_file_path : Path)
    (retain_format auto_open create_backup : bool) : M unit :=
  (retain_format_step self file_path temp_file_path retain_format ;;
   replace_target temp_file_path file_path) ;;
  backup_step file_path create_backup ;;
  (if auto_open then startfile file_path else ret tt).

Definition _save_to_file (self : AdvancePandas) (file_path : pathlike)
    (retain_format auto_open create_backup : bool) : M unit :=
  let file_path := to_Path file_path in
  signal_signal ignore_keyboard_interrupt ;;
  if negb (Str.mem (PurePath.suffix file_path) valid_extensions)
  then raise unsupported_extension
  else
    try_finally
      (save_body self file_path retain_format auto_open create_backup)
      (signal_signal default_int_handler ;; ret tt).

(** ** [AdvancePandas.save] (lines 35-73) *)

Definition no_path : Exn := ValueError "No save file_path provided.".

(** Lines 46-67: the path the save goes to. *)
Definition resolve_file_path (self : AdvancePandas) (file_path : option pathlike)
    : M (option pathlike) :=
  if negb (truthy file_path) then
    if truthy (destination_file self) then ret (destination_file self)
    else
      file_path <-
        (if truthy (source_file self) then
           yes <- always_on_top_dialog_askyesno ;;
           if yes then ret (source_file self)
           else (s <- always_on_top_dialog_asksaveasfilename ;; ret (Some (PStr s)))
         else ret file_path) ;;
      if negb (truthy file_path) then raise no_path else ret file_path
  else ret file_path.

Definition save (self : AdvancePandas) (file_path : option pathlike)
    (async_mode retain_format auto_open create_backup : bool) : M unit :=
  file_path <- resolve_file_path self file_path ;;
  if async_mode then
    Process_start {| job_path := file_path; job_retain_format := retain_format;
                     job_auto_open := auto_open; job_create_backup := create_backup |}
  else
    match file_path with
    | Some p => _save_to_file self p retain_format auto_open create_backup
    | None => raise TypeError
    end.

End Library.

(** ** Runs that leave a path alone *)

(** [m] never changes what the path [q] holds: not in the state it ends
    in, and in none of the file-system states it writes on the way. *)
Definition preserves {A} (q : Path) (m : M A) : Prop :=
  forall w r w', m w = (r, w') ->
    fs w' !! q = fs w !! q /\
    exists l, history w' = l ++ history w /\
              Forall (fun s : FS => s !! q = fs w !! q) l.

(** ** The Destination Resolver as the specification words it *)

Section Resolver.

Variable env : Env.

(** Section 4.1 of the specification, steps 1 to 4: the path chosen, [None]
    when no path is obtained, and the dialogs shown (newest first). *)
Definition resolved_by_spec (self : AdvancePandas) (explicit : option pathlike)
    : option pathlike * list Dialog :=
  if truthy explicit then (explicit, [])
  else if truthy (destination_file self) then (destination_file self, [])
  else if truthy (source_file self) then
    if answer_yesno env then (source_file self, [askyesno])
    else if String.eqb (answer_saveas env) ""
         then (None, [asksaveasfilename; askyesno])
         else (Some (PStr (answer_saveas env)), [asksaveasfilename; askyesno])
  else (None, []).

(** What [save] does with the path it resolved (lines 69-73). *)
Definition dispatch (self : AdvancePandas) (file_path : pathlike)
    (async_mode retain_format auto_open create_backup : bool) : M unit :=
  if async_mode then
    Process_start {| job_path := Some file_path; job_retain_format := retain_format;
                     job_auto_open := auto_open; job_create_backup := create_backup |}
  else _save_to_file env self file_path retain_format auto_open create_backup.

End Resolver.

(** ** pandas: how a derived dataset gets its attributes *)

Module Pandas.

(** Line 20. *)
Definition _metadata : list string := ["source_file"; "destination_file"].

(** Lines 22-33. *)
Definition __init__ (dataframe : DataFrame)
    (source_file destination_file : option pathlike) : AdvancePandas :=
  {| frame := dataframe; source_file := source_file;
     destination_file := destination_file |}.

(** Lines 155-157: pandas calls [self._constructor(data)], so both
    attributes take their default, [None]. *)
Definition _constructor (data : DataFrame) : AdvancePandas :=
  __init__ data None None.

Definition getattr (o : AdvancePandas) (name : string) : option pathlike :=
  if String.eqb name "source_file" then source_file o
  else if String.eqb name "destination_file" then destination_file o
  else None.

Definition setattr (o : AdvancePandas) (name : string) (v : option pathlike)
    : AdvancePandas :=
  if String.eqb name "source_file"
  then {| frame := frame o; source_file := v; destination_file := destination_file o |}
  else if String.eqb name "destination_file"
  then {| frame := frame o; source_file := source_file o; destination_file := v |}
  else o.

(** What pandas hands to [__finalize__] as [other]: the dataset the result
    derives from, or the object of a merge or a concatenation. *)
Inductive Origin :=
| from_frame (other : AdvancePandas)
| from_operation.

(** [NDFrame.__finalize__(self, other)]: the attributes named in
    [_metadata] are copied when [other] is a frame, and only then. *)
Definition __finalize__ (self : AdvancePandas) (other : Origin) : AdvancePandas :=
  match other with
  | from_frame o => foldl (fun acc name => setattr acc name (getattr o name)) self _metadata
  | from_operation => self
  end.

(** The operations on the table itself. *)
Definition filter_rows (mask : list bool) (df : DataFrame) : DataFrame :=
  {| columns := columns df;
     rows := fst <$> List.filter snd (zip (rows df) mask) |}.

Definition add_column (name : string) (vals : list string) (df : DataFrame) : DataFrame :=
  {| columns := columns df ++ [name];
     rows := zip_with (fun r v => r ++ [v]) (rows df) vals |}.

Definition cross_join (l r : DataFrame) : DataFrame :=
  {| columns := columns l ++ columns r;
     rows := rl ← rows l; (fun rr => rl ++ rr) <$> rows r |}.

Definition append_rows (l r : DataFrame) : DataFrame :=
  {| columns := columns l; rows := rows l ++ rows r |}.

(** [df.copy()] and [df[mask]]: the result is built by [self._constructor]
    and finalized from [self]. *)
Definition copy (self : AdvancePandas) : AdvancePandas :=
  __finalize__ (_constructor (frame self)) (from_frame self).

Definition getitem_mask (self : AdvancePandas) (mask : list bool) : AdvancePandas :=
  __finalize__ (_constructor (filter_rows mask (frame self))) (from_frame self).

(** [df[name] = vals]: the dataset itself is changed, in place. *)
Definition setitem (self : AdvancePandas) (name : string) (vals : list string)
    : AdvancePandas :=
  {| frame := add_column name vals (frame self);
     source_file := source_file self;
     destination_file := destination_file self |}.

(** [df.assign(name=vals)]: a copy, with the column set in place. *)
Definition assign (self : AdvancePandas) (name : string) (vals : list string)
    : AdvancePandas :=
  setitem (copy self) name vals.

(** [left.merge(right, how="cross")] and [pd.concat([first, second])]: the
    result is built by the constructor of the first frame and finalized
    from the operation object. *)
Definition merge (left right : AdvancePandas) : AdvancePandas :=
  __finalize__ (_constructor (cross_join (frame left) (frame right))) from_operation.

Definition concat (first second : AdvancePandas) : AdvancePandas :=
  __finalize__ (_constructor (append_rows (frame first) (frame second))) from_operation.

(** The transformations that derive a dataset from one dataset. *)
Inductive Transformation :=
| t_copy
| t_filter (mask : list bool)
| t_assign (name : string) (vals : list string)
| t_setitem (name : string) (vals : list string).

Definition derive (t : Transformation) (self : AdvancePandas) : AdvancePandas :=
  match t with
  | t_copy => copy self
  | t_filter mask => getitem_mask self mask
  | t_assign name vals => assign self name vals
  | t_setitem name vals => setitem self name vals
  end.

End Pandas.

(** ** What a save writes and where *)

(** The content of the target in the format its extension asks for, with
    the formatting the writer gives by default (lines 102-105). *)
Definition serialized (self : AdvancePandas) (file_path : Path) : Content :=
  if String.eqb (PurePath.suffix file_path) ".csv"
  then Delimited (frame self)
  else Spreadsheet (Writer.workbook_of_frame "Sheet1" (frame self)).

(** The directory of the temporary files (line 96) and the backup file
    (line 117). *)
Definition temp_dir_of (file_path : Path) : Path :=
  PurePath.joinpath (PurePath.parent file_path) "TemporaryFiles".

Definition backup_name_of (file_path : Path) : string :=
  PurePath.stem file_path +:+ " - Backup" +:+ PurePath.suffix file_path.

Definition backup_path_of (file_path : Path) : Path :=
  PurePath.parent file_path ++ [backup_name_of file_path].

(** The shape of the name [NamedTemporaryFile] gives the temporary file of
    a target. *)
Definition is_temp_of (file_path t : Path) : Prop :=
  exists n, t = PurePath.joinpath (temp_dir_of file_path)
                  ("tmp" +:+ n +:+ PurePath.suffix file_path).

(** ** The reference file as the specification words it *)

(** Section 4.2, step 3: the target path itself if it already exists, else
    the recorded source path of the dataset, else none. *)
Definition reference_by_spec (f : FS) (self : AdvancePandas) (file_path : Path)
    : option pathlike :=
  match f !! file_path with
  | Some _ => Some (PPath file_path)
  | None => if truthy (source_file self) then source_file self else None
  end.

(** "Has a spreadsheet extension" (line 109). *)
Definition spreadsheet_extension (reference : pathlike) : bool :=
  Str.mem (PurePath.suffix (to_Path reference)) [".xlsx"; ".xls"].

(** ** The Format Snapshot as the specification words it *)

Module SnapshotSpec.

(** The letter of a column in the range of [get_column_letter]. *)
Definition letter_of (col_idx : nat) : string :=
  default "" (ColumnLetter.get_column_letter col_idx).

(** Section 4.3, step 1: for one column, its width and the alignment of its
    header cell, keyed by the column letter. *)
Definition entry (dflt : option Q) (sheet : Worksheet) (col_idx : nat)
    : string * Detail :=
  (letter_of col_idx,
   {| detail_width := Sheet.width dflt sheet (letter_of col_idx);
      detail_alignment := Sheet.get_alignment sheet 1 col_idx |}).

(** ... for every column from 1 to the column count of the sheet. *)
Definition snapshot (dflt : option Q) (sheet : Worksheet) : list (string * Detail) :=
  entry dflt sheet <$> seq 1 (Sheet.max_column sheet).

End SnapshotSpec.

(** ** [AdvanceExcelReader] (lines 160-180) *)

Section Reader.

(** What pandas makes of the workbook it reads: the table of its first
    sheet. *)
Variable read_table : Workbook -> DataFrame.

Definition EmptyDataError : Exn := ValueError "No columns to parse from file".

(** [pd.read_csv(p)]: the table of a delimited-text file. A file that is
    empty, or whose text has no column (what [to_csv] writes for a table
    without columns), makes the parser raise [EmptyDataError], a
    [ValueError]; so does, with another message, a file that is not text.
    The table is the header and the rows of the text, cell by cell; the
    types the parser infers for the columns are not part of it. *)
Definition read_csv (p : Path) : M DataFrame :=
  fun w =>
    match fs w !! p with
    | None => (Raise (FileNotFoundError p), w)
    | Some Dir => (Raise (IsADirectoryError p), w)
    | Some (File (Delimited df)) =>
        match columns df with
        | [] => (Raise EmptyDataError, w)
        | _ => (Return df, w)
        end
    | Some (File Blank) => (Raise EmptyDataError, w)
    | Some (File (Spreadsheet _)) => (Raise (ValueError "not a text file"), w)
    end.

(** [pd.read_excel(p)]: the format is told from the content of the file,
    not from its name; what is no workbook raises a [ValueError]. *)
Definition read_excel (p : Path) : M DataFrame :=
  fun w =>
    match fs w !! p with
    | None => (Raise (FileNotFoundError p), w)
    | Some Dir => (Raise (IsADirectoryError p), w)
    | Some (File (Spreadsheet wb)) => (Return (read_table wb), w)
    | Some (File _) =>
        (Raise (ValueError "Excel file format cannot be determined"), w)
    end.

(** Lines 173-176: the file to read and the destination to record. *)
Definition continue_from (source_file : Path) (destination_file : option pathlike)
    (continue_from_saved : bool) : M (Path * option pathlike) :=
  if continue_from_saved && truthy destination_file then
    match destination_file with
    | Some d =>
        let destination_file := to_Path d in
        saved <- path_exists destination_file ;;
        ret (if saved then destination_file else source_file,
             Some (PPath destination_file))
    | None => ret (source_file, destination_file)
    end
  else ret (source_file, destination_file).

Definition AdvanceExcelReader (source_file : pathlike)
    (destination_file : option pathlike) (continue_from_saved : bool)
    : M AdvancePandas :=
  let source_file := to_Path source_file in
  source_exists <- path_exists source_file ;;
  if negb source_exists && negb continue_from_saved
  then raise (FileNotFoundError source_file)
  else
    chosen <- continue_from source_file destination_file continue_from_saved ;;
    let source_file := fst chosen in
    let destination_file := snd chosen in
    df <- (if String.eqb (PurePath.suffix source_file) ".csv"
           then read_csv source_file
           else read_excel source_file) ;;
    ret (Pandas.__init__ df (Some (PPath source_file)) destination_file).

End Reader.

(** ** Runs that leave the logs alone *)

(** [m] shows no dialog, launches no file and starts no worker. *)
Definition keeps_logs {A} (m : M A) : Prop :=
  forall w r w', m w = (r, w') ->
    dialogs w' = dialogs w /\ launched w' = launched w /\ spawned w' = spawned w.

(** ** Example inputs *)

Module Examples.

Definition three_rows : DataFrame :=
  {| columns := ["id"; "amount"];
     rows := [["1"; "10"]; ["2"; "20"]; ["3"; "30"]] |}.

Definition three_rows_edited : DataFrame :=
  {| columns := ["id"; "amount"];
     rows := [["1"; "11"]; ["2"; "22"]; ["3"; "33"]] |}.

Definition quiet (_ : Path) (_ : nat) : bool := false.

Definition posix : Env :=
  {| rename_replaces := true; retries := 3; held := quiet;
     candidate := fun _ => "k3v9x2aa"; default_width := Some (13 # 1)%Q;
     answer_yesno := true; answer_saveas := "" |}.

Definition windows : Env :=
  {| rename_replaces := false; retries := 3; held := quiet;
     candidate := fun _ => "k3v9x2aa"; default_width := Some (13 # 1)%Q;
     answer_yesno := true; answer_saveas := "" |}.

Definition world_of (f : FS) : World :=
  {| fs := f; sigint := default_int_handler; clock := 0; rng := 0;
     history := []; dialogs := []; launched := []; spawned := [] |}.

(** [data.csv], loaded and edited. *)
Definition loaded_csv : AdvancePandas :=
  {| frame := three_rows_edited;
     source_file := Some (PPath ["data.csv"]);
     destination_file := None |}.

(** A directory holding [data.csv]. *)
Definition fs_data : FS :=
  <[ ["data.csv"] := File (Delimited three_rows) ]> {[ [] := Dir ]}.

(** The same with a backup file from an earlier run. *)
Definition fs_data_backup : FS :=
  <[ ["data - Backup.csv"] := File (Delimited three_rows) ]> fs_data.

(** A reference sheet with two formatted columns. *)
Definition reference_sheet : Worksheet :=
  {| title := "Ledger";
     cells :=
       <[ (1, 1) := {| value := Some "id";
                       alignment := {| horizontal := Some "left"; vertical := None;
                                       wrap_text := Some true |} |} ]>
       (<[ (1, 2) := {| value := Some "amount";
                        alignment := {| horizontal := Some "right"; vertical := None;
                                        wrap_text := None |} |} ]>
        (<[ (2, 1) := {| value := Some "1"; alignment := default_alignment |} ]> ∅));
     column_dimensions := <[ "A" := Some (20 # 1)%Q ]> {[ "B" := Some (17 # 2)%Q ]} |}.

(** Another process holds the backup file and never lets go. *)
Definition backup_locked (p : Path) (_ : nat) : bool :=
  if decide (p = ["data - Backup.csv"]) then true else false.

Definition windows_backup_locked : Env :=
  {| rename_replaces := false; retries := 3; held := backup_locked;
     candidate := fun _ => "k3v9x2aa"; default_width := Some (13 # 1)%Q;
     answer_yesno := true; answer_saveas := "" |}.

(** A directory holding the workbook [book.xlsx]. *)
Definition fs_book : FS :=
  <[ ["book.xlsx"] := File (Spreadsheet {| active := reference_sheet; others := [] |}) ]>
  {[ [] := Dir ]}.

(** A dataset loaded from [book.xlsx]. *)
Definition loaded_book : AdvancePandas :=
  {| frame := three_rows_edited;
     source_file := Some (PStr "book.xlsx");
     destination_file := None |}.

(** The temporary file of a save to [book.xlsx], and the directory as
    lines 96-105 leave it for the edited table. *)
Definition temp_book : Path := ["TemporaryFiles"; "tmpk3v9x2aa.xlsx"].

Definition fs_book_temp : FS :=
  <[ temp_book :=
       File (Spreadsheet (Writer.workbook_of_frame "Sheet1" three_rows_edited)) ]>
  (<[ ["TemporaryFiles"] := Dir ]> fs_book).

(** A dataset whose recorded source, [gone.xlsx], is no longer on disk. *)
Definition loaded_gone : AdvancePandas :=
  {| frame := three_rows_edited;
     source_file := Some (PStr "gone.xlsx");
     destination_file := None |}.

(** A reader of workbooks: the first row of the active sheet as the
    header, the rows below it as the data. *)
Definition row_values (ws : Worksheet) (r : nat) : list string :=
  (fun c => default "" (value (Sheet.cell ws r c))) <$> seq 1 (Sheet.max_column ws).

Definition table_of (wb : Workbook) : DataFrame :=
  {| columns := row_values (active wb) 1;
     rows := row_values (active wb) <$> seq 2 (Sheet.max_row (active wb) - 1) |}.

(** A directory in which a file has the name [TemporaryFiles]. *)
Definition fs_temp_taken : FS :=
  <[ ["TemporaryFiles"] := File Blank ]> fs_data.

(** A directory in which [book.xlsx] holds text, not a workbook. *)
Definition fs_broken_book : FS :=
  <[ ["book.xlsx"] := File (Delimited three_rows) ]> {[ [] := Dir ]}.

(** [data.csv] as the reader returns it with the destination [out.csv]. *)
Definition read_csv_to_out : AdvancePandas :=
  {| frame := three_rows;
     source_file := Some (PPath ["data.csv"]);
     destination_file := Some (PStr "out.csv") |}.

(** [data.csv] as the reader returns it when it continues from the saved
    destination [data.csv]. *)
Definition resumed_csv : AdvancePandas :=
  {| frame := three_rows;
     source_file := Some (PPath ["data.csv"]);
     destination_file := Some (PPath ["data.csv"]) |}.

(** A handler the caller has installed for SIGINT. *)
Definition world_with_handler (f : FS) : World :=
  {| fs := f; sigint := custom_handler 7; clock := 0; rng := 0;
     history := []; dialogs := []; launched := []; spawned := [] |}.

End Examples.

(** * Properties *)

(** ** The monad *)

Lemma bind_Return {A B} (m : M A) (k : A -> M B) w b w' :
  bind m k w = (Return b, w') ->
  exists a w1, m w = (Return a, w1) /\ k a w1 = (Return b, w').
Proof.
  unfold bind. destruct (m w) as [[a|e] w1]; [eauto | discriminate].
Qed.

Lemma bind_step {A B} (m : M A) (k : A -> M B) w a w1 :
  m w = (Return a, w1) -> bind m k w = k a w1.
Proof. unfold bind. intros ->. reflexivity. Qed.

Lemma bind_Raise {A B} (m : M A) (k : A -> M B) w e w1 :
  m w = (Raise e, w1) -> bind m k w = (Raise e, w1).
Proof. unfold bind. intros ->. reflexivity. Qed.

(** ** Unsupported extensions *)

Section Extension.

Variable env : Env.

Lemma save_to_file_invalid
    (self : AdvancePandas) (file_path : pathlike)
    (retain_format auto_open create_backup : bool) (w : World) :
  Str.mem (PurePath.suffix (to_Path file_path)) valid_extensions = false ->
  _save_to_file env self file_path retain_format auto_open create_backup w
  = (Raise unsupported_extension, set_sigint ignore_keyboard_interrupt w).
Proof.
  intros Hext. unfold _save_to_file, bind, signal_signal. cbv beta zeta.
  rewrite Hext. reflexivity.
Qed.

(** C4. A path whose extension is neither [.csv] nor [.xlsx] makes
    [_save_to_file] raise the unsupported-extension error at once: the file
    system is the one before the call, no state of it was written in
    between (no temporary file, no [TemporaryFiles] directory), nothing was
    launched and no worker was started. *)
Theorem unsupported_extension_fails_before_any_write
    (self : AdvancePandas) (file_path : pathlike)
    (retain_format auto_open create_backup : bool) (w : World) :
  Str.mem (PurePath.suffix (to_Path file_path)) valid_extensions = false ->
  let '(r, w') := _save_to_file env self file_path retain_format auto_open create_backup w in
  r = Raise unsupported_extension /\
  fs w' = fs w /\ history w' = history w /\
  launched w' = launched w /\ spawned w' = spawned w.
Proof.
  intros Hext. rewrite save_to_file_invalid by exact Hext. repeat split.
Qed.

(** C3. On the unsupported-extension exit the handler the call installed
    stays bound to SIGINT: whatever was in effect before is not restored. *)
Theorem sigint_left_suppressed_on_unsupported_extension
    (self : AdvancePandas) (file_path : pathlike)
    (retain_format auto_open create_backup : bool) (w : World) :
  Str.mem (PurePath.suffix (to_Path file_path)) valid_extensions = false ->
  sigint (snd (_save_to_file env self file_path retain_format auto_open create_backup w))
  = ignore_keyboard_interrupt.
Proof.
  intros Hext. rewrite save_to_file_invalid by exact Hext. reflexivity.
Qed.

(** X18. On every exit of the [try] block the handler bound afterwards is
    [default_int_handler], whatever handler the caller had installed. *)
Lemma sigint_reset_to_default_after_try
    (self : AdvancePandas) (file_path : pathlike)
    (retain_format auto_open create_backup : bool) (w : World) :
  Str.mem (PurePath.suffix (to_Path file_path)) valid_extensions = true ->
  sigint (snd (_save_to_file env self file_path retain_format auto_open create_backup w))
  = default_int_handler.
Proof.
  intros Hext. unfold _save_to_file, bind, signal_signal, try_finally.
  cbv beta zeta. rewrite Hext. cbn [negb].
  destruct (save_body _ _ _ _ _ _ _) as [r w1]. reflexivity.
Qed.

End Extension.

(** The handler installed for the critical section does not take the two
    arguments Python calls it with: an interrupt that arrives meanwhile
    raises [TypeError] in the middle of the save. *)
Lemma interrupt_not_ignored_in_critical_section :
  deliver_sigint ignore_keyboard_interrupt = raises TypeError.
Proof. reflexivity. Qed.

Lemma unsupported_extension_fails_before_any_write_witness :
  Str.mem (PurePath.suffix (to_Path (PStr "notes.txt"))) valid_extensions = false /\
  let '(r, w') := _save_to_file Examples.windows Examples.loaded_csv (PStr "notes.txt")
                    false false false (Examples.world_of Examples.fs_data) in
  r = Raise unsupported_extension /\
  fs w' = fs (Examples.world_of Examples.fs_data) /\
  history w' = history (Examples.world_of Examples.fs_data) /\
  launched w' = launched (Examples.world_of Examples.fs_data) /\
  spawned w' = spawned (Examples.world_of Examples.fs_data).
Proof.
  split; [reflexivity |].
  apply (unsupported_extension_fails_before_any_write Examples.windows).
  reflexivity.
Defined.

Lemma sigint_left_suppressed_on_unsupported_extension_witness :
  Str.mem (PurePath.suffix (to_Path (PStr "notes.txt"))) valid_extensions = false /\
  sigint (Examples.world_of Examples.fs_data) = default_int_handler /\
  sigint (snd (_save_to_file Examples.windows Examples.loaded_csv (PStr "notes.txt")
                 false false false (Examples.world_of Examples.fs_data)))
  = ignore_keyboard_interrupt.
Proof.
  split; [reflexivity |]. split; [reflexivity |].
  apply (sigint_left_suppressed_on_unsupported_extension Examples.windows).
  reflexivity.
Defined.

(** ** The Destination Resolver *)

Section ResolverFacts.

Variable env : Env.

Lemma truthy_Some (v : option pathlike) :
  truthy v = true -> exists p, v = Some p.
Proof. destruct v; [eauto | discriminate]. Qed.

(** C7. [save] resolves its path by the precedence of the specification:
    the explicit path; else the stored destination; else, with a stored
    source, the answer to the yes/no dialog (yes: the source, no: the
    save-as dialog). With a path it goes on to save there; without one it
    raises the no-path error in a world that differs from the one before
    only by the dialogs shown, so nothing is written. *)
Theorem save_resolves_path_by_precedence
    (self : AdvancePandas) (file_path : option pathlike)
    (async_mode retain_format auto_open create_backup : bool) (w : World) :
  save env self file_path async_mode retain_format auto_open create_backup w =
  match resolved_by_spec env self file_path with
  | (Some p, shown) =>
      dispatch env self p async_mode retain_format auto_open create_backup
        (set_dialogs (shown ++ dialogs w) w)
  | (None, shown) => (Raise no_path, set_dialogs (shown ++ dialogs w) w)
  end.
Proof.
  assert (Hw : set_dialogs (dialogs w) w = w) by (destruct w; reflexivity).
  unfold save, resolve_file_path, resolved_by_spec, dispatch.
  destruct (truthy file_path) eqn:Hfp; cbn [negb].
  { destruct (truthy_Some _ Hfp) as [p ->]. cbn. rewrite Hw.
    destruct async_mode; reflexivity. }
  destruct (truthy (destination_file self)) eqn:Hd.
  { destruct (truthy_Some _ Hd) as [p Hp]. rewrite Hp. cbn. rewrite Hw.
    destruct async_mode; reflexivity. }
  destruct (truthy (source_file self)) eqn:Hs.
  - destruct (truthy_Some _ Hs) as [p Hp].
    unfold bind at 1 2 3. unfold always_on_top_dialog_askyesno at 1.
    destruct (answer_yesno env).
    + unfold ret at 1. rewrite Hs. cbn [negb]. unfold ret at 1. rewrite Hp.
      destruct async_mode; reflexivity.
    + unfold bind at 1. unfold always_on_top_dialog_asksaveasfilename, ret at 1.
      cbn [truthy dialogs set_dialogs].
      destruct (String.eqb (answer_saveas env) "") eqn:Ha; cbn [negb].
      * reflexivity.
      * unfold ret at 1. destruct async_mode; reflexivity.
  - unfold bind at 1 2. unfold ret at 1. rewrite Hfp. cbn. rewrite Hw. reflexivity.
Qed.

End ResolverFacts.

(** ** Provenance attributes of derived datasets *)

(** C9, as amended. A dataset derived from one dataset by [copy], by a row
    filter or by adding a column (with [assign], or in place) has the
    [source_file] and the [destination_file] of the dataset it derives
    from. *)
Theorem metadata_kept_by_single_frame_transformations
    (t : Pandas.Transformation) (self : AdvancePandas) :
  source_file (Pandas.derive t self) = source_file self /\
  destination_file (Pandas.derive t self) = destination_file self.
Proof. destruct t; split; reflexivity. Qed.

(** C9, the counterexample. The result of a merge is finalized from the
    merge operation, not from a frame: its [source_file] is [None], not the
    [data.csv] of the dataset it was merged from. *)
Lemma metadata_lost_by_merge :
  source_file (Pandas.merge Examples.loaded_csv Examples.loaded_csv) = None /\
  source_file (Pandas.merge Examples.loaded_csv Examples.loaded_csv)
  <> source_file Examples.loaded_csv.
Proof. split; [reflexivity | discriminate]. Qed.

(** ** Column letters *)

Module ColumnLetterFacts.
Import ColumnLetter.

Lemma letter_value_digit (r : nat) :
  1 <= r <= 26 -> letter_value (ascii_of_nat (r + 64)) = Some r.
Proof.
  intros [H1 H2].
  do 27 (destruct r as [|r]; [first [reflexivity | lia] |]). lia.
Qed.

Lemma value_of_letters (fuel n : nat) :
  n <= fuel -> value_of (letters_of fuel n) = Some n.
Proof.
  revert n. induction fuel as [|fuel IH]; intros n Hn.
  - assert (n = 0) as -> by lia. reflexivity.
  - cbn [letters_of]. destruct (Nat.eqb_spec n 0) as [->|Hn0]; [reflexivity |].
    pose proof (Nat.div_mod_eq n 26) as Hdm.
    pose proof (Nat.mod_upper_bound n 26 ltac:(lia)) as Hub.
    cbv zeta. destruct (Nat.eqb_spec (n mod 26) 0) as [Hr|Hr].
    + cbn [value_of]. rewrite (letter_value_digit 26) by lia.
      rewrite IH by lia. f_equal. lia.
    + cbn [value_of]. rewrite letter_value_digit by lia.
      rewrite IH by lia. f_equal. lia.
Qed.

Lemma decode_snoc (acc : nat) (l : list ascii) (c : ascii) :
  decode acc (l ++ [c]) =
  match decode acc l, letter_value c with
  | Some n, Some d => Some (n * 26 + d)
  | _, _ => None
  end.
Proof.
  revert acc. induction l as [|x l IH]; intros acc; cbn [decode app].
  - destruct (letter_value c); reflexivity.
  - destruct (letter_value x); [apply IH | reflexivity].
Qed.

Lemma decode_rev (l : list ascii) (v : nat) :
  value_of l = Some v -> decode 0 (rev l) = Some v.
Proof.
  revert v. induction l as [|c l IH]; intros v; cbn [value_of rev].
  - intros [= <-]. reflexivity.
  - destruct (letter_value c) as [d|] eqn:Hd; [| discriminate].
    destruct (value_of l) as [v'|]; [| discriminate].
    intros [= <-]. rewrite decode_snoc, (IH v' eq_refl), Hd. f_equal. lia.
Qed.

(** Reading back the letter of a column gives the column. *)
Lemma column_index_of_letter (c : nat) (letter : string) :
  get_column_letter c = Some letter ->
  column_index_from_string letter = Some c.
Proof.
  unfold get_column_letter, column_index_from_string.
  destruct ((1 <=? c) && (c <=? max_col_index)) eqn:Hr; [| discriminate].
  intros [= <-]. rewrite list_ascii_of_string_of_list_ascii.
  rewrite (decode_rev _ c) by (apply value_of_letters; lia).
  rewrite Hr. reflexivity.
Qed.

Lemma get_column_letter_inj (c c' : nat) (letter : string) :
  get_column_letter c = Some letter ->
  get_column_letter c' = Some letter -> c = c'.
Proof.
  intros H H'. apply column_index_of_letter in H, H'. congruence.
Qed.

Lemma get_column_letter_in_range (c : nat) :
  1 <= c <= max_col_index -> exists letter, get_column_letter c = Some letter.
Proof.
  intros [H1 H2]. unfold get_column_letter.
  destruct (Nat.leb_spec 1 c); [| lia].
  destruct (Nat.leb_spec c max_col_index); [| lia].
  cbn [andb]. eauto.
Qed.

End ColumnLetterFacts.

(** ** Dictionaries *)

Module DictFacts.

Lemma get_app_None {V} (k : string) (d1 d2 : list (string * V)) :
  Dict.get k d1 = None -> Dict.get k (d1 ++ d2) = Dict.get k d2.
Proof.
  induction d1 as [|[k' v'] d1 IH]; cbn; [reflexivity |].
  destruct (String.eqb k k'); [discriminate | exact IH].
Qed.

Lemma set_fresh {V} (k : string) (v : V) (d : list (string * V)) :
  Dict.get k d = None -> Dict.set k v d = d ++ [(k, v)].
Proof.
  induction d as [|[k' v'] d IH]; cbn; [reflexivity |].
  destruct (String.eqb k k'); [discriminate |].
  intros H. rewrite IH by exact H. reflexivity.
Qed.

Lemma get_None_not_key {V} (k : string) (d : list (string * V)) :
  k ∉ Dict.keys d -> Dict.get k d = None.
Proof.
  induction d as [|[k' v'] d IH]; cbn; [reflexivity |].
  intros Hk. destruct (String.eqb_spec k k') as [->|Hne].
  - exfalso. apply Hk. left.
  - apply IH. intros Hin. apply Hk. right. exact Hin.
Qed.

Lemma get_lookup {V} (d : list (string * V)) (i : nat) (k : string) (v : V) :
  NoDup (Dict.keys d) -> d !! i = Some (k, v) -> Dict.get k d = Some v.
Proof.
  revert i. induction d as [|[k' v'] d IH]; intros i Hnd Hi; [discriminate |].
  cbn in Hnd. apply NoDup_cons in Hnd as [Hk' Hnd].
  destruct i as [|i]; cbn in Hi |- *.
  - injection Hi as -> ->. rewrite String.eqb_refl. reflexivity.
  - destruct (String.eqb_spec k k') as [->|Hne].
    + exfalso. apply Hk'. apply list_elem_of_lookup. exists i.
      unfold Dict.keys. rewrite list_lookup_fmap.
      exact (f_equal (fmap fst) Hi).
    + exact (IH i Hnd Hi).
Qed.

End DictFacts.

(** ** Worksheets *)

Module SheetFacts.
Import Sheet.

Lemma max_row_pos (ws : Worksheet) : 1 <= max_row ws.
Proof. unfold max_row. apply max_list_elem_of_le. left. Qed.

Lemma max_column_pos (ws : Worksheet) : 1 <= max_column ws.
Proof. unfold max_column. apply max_list_elem_of_le. left. Qed.

End SheetFacts.

(** ** The Format Transplanter *)

Module TransplantFacts.
Import ColumnLetter ColumnLetterFacts Sheet SheetFacts SnapshotSpec Transplant.

Lemma letter_of_in_range (c : nat) :
  1 <= c <= max_col_index -> get_column_letter c = Some (letter_of c).
Proof.
  intros Hc. destruct (get_column_letter_in_range c Hc) as [l Hl].
  unfold letter_of. rewrite Hl. reflexivity.
Qed.

Lemma letter_of_inj (c c' : nat) :
  1 <= c <= max_col_index -> 1 <= c' <= max_col_index ->
  letter_of c = letter_of c' -> c = c'.
Proof.
  intros Hc Hc' Heq. apply letter_of_in_range in Hc, Hc'.
  rewrite Heq in Hc. eapply get_column_letter_inj; eassumption.
Qed.

Lemma keys_snapshot_range (dflt : option Q) (sheet : Worksheet) (a k : nat) :
  Dict.keys (entry dflt sheet <$> seq a k) = letter_of <$> seq a k.
Proof.
  unfold Dict.keys. rewrite <- list_fmap_compose. reflexivity.
Qed.

(** The dictionary comprehension builds the entries in column order. *)
Lemma collect_seq (dflt : option Q) (sheet : Worksheet) (k a : nat)
    (d0 : list (string * Detail)) :
  1 <= a -> a + k <= S max_col_index ->
  (forall c, a <= c < a + k -> letter_of c ∉ Dict.keys d0) ->
  collect dflt sheet (seq a k) d0 = Some (d0 ++ (entry dflt sheet <$> seq a k)).
Proof.
  revert a d0. induction k as [|k IH]; intros a d0 Ha Hk Hfresh.
  - cbn. rewrite app_nil_r. reflexivity.
  - cbn [seq collect]. rewrite (letter_of_in_range a) by lia.
    rewrite DictFacts.set_fresh
      by (apply DictFacts.get_None_not_key, Hfresh; lia).
    rewrite IH; [| lia | lia |].
    + rewrite <- app_assoc. reflexivity.
    + intros c Hc. unfold Dict.keys. rewrite fmap_app.
      intros Hin. apply elem_of_app in Hin as [Hin|Hin].
      * apply (Hfresh c); [lia | exact Hin].
      * cbn in Hin. apply list_elem_of_singleton in Hin.
        apply letter_of_inj in Hin; lia.
Qed.

(** The snapshot taken by lines 134-140 is the one of the specification. *)
Lemma column_details_snapshot (dflt : option Q) (sheet : Worksheet) :
  max_column sheet <= max_col_index ->
  column_details dflt sheet = Some (snapshot dflt sheet).
Proof.
  intros Hmax. unfold column_details, snapshot.
  rewrite collect_seq; [reflexivity | lia | lia |].
  intros c _ Hin. inversion Hin.
Qed.

Lemma snapshot_keys_NoDup (dflt : option Q) (sheet : Worksheet) :
  max_column sheet <= max_col_index ->
  NoDup (Dict.keys (snapshot dflt sheet)).
Proof.
  intros Hmax. unfold snapshot. rewrite keys_snapshot_range.
  apply NoDup_fmap_2_strong; [| apply NoDup_seq].
  intros c c' Hc Hc' Heq. apply elem_of_seq in Hc, Hc'.
  apply letter_of_inj in Heq; lia.
Qed.

Lemma snapshot_lookup (dflt : option Q) (sheet : Worksheet) (c : nat) :
  1 <= c <= max_column sheet ->
  snapshot dflt sheet !! (c - 1) = Some (entry dflt sheet c).
Proof.
  intros Hc. unfold snapshot. rewrite list_lookup_fmap.
  rewrite lookup_seq_lt by lia. cbn. f_equal. f_equal. lia.
Qed.

(** A snapshot that lines 134-140 complete is the one of the sheet: the
    comprehension raises on a column outside the range of the letters. *)
Lemma collect_Some_range (dflt : option Q) (sheet : Worksheet) (cols : list nat)
    (d0 d : list (string * Detail)) :
  collect dflt sheet cols d0 = Some d ->
  forall c, c ∈ cols -> 1 <= c <= max_col_index.
Proof.
  revert d0. induction cols as [|c0 cols IH]; intros d0 Hrun c Hc.
  - inversion Hc.
  - cbn [collect] in Hrun.
    destruct (get_column_letter c0) as [letter|] eqn:Hl; [| discriminate].
    apply elem_of_cons in Hc as [->|Hc]; [| exact (IH _ Hrun c Hc)].
    unfold get_column_letter in Hl.
    destruct (1 <=? c0) eqn:H1; destruct (c0 <=? max_col_index) eqn:H2;
      try discriminate Hl.
    apply Nat.leb_le in H1, H2. lia.
Qed.

Lemma column_details_Some (dflt : option Q) (sheet : Worksheet)
    (d : list (string * Detail)) :
  column_details dflt sheet = Some d ->
  max_column sheet <= max_col_index /\ d = snapshot dflt sheet.
Proof.
  intros Hrun.
  assert (Hmax : max_column sheet <= max_col_index).
  { pose proof (max_column_pos sheet) as Hpos.
    apply (collect_Some_range _ _ _ _ _ Hrun (max_column sheet)).
    apply elem_of_seq. lia. }
  split; [exact Hmax |].
  rewrite (column_details_snapshot dflt sheet Hmax) in Hrun. congruence.
Qed.

(** The loop of lines 148-151 on the snapshot of a sheet: the first key is
    the letter of column 1, its column in the updated sheet has a cell in
    row 1, and the alignment assigned to that cell is the [StyleProxy] read
    at line 137. *)
Lemma apply_details_snapshot (dflt : option Q) (sheet updated : Worksheet) :
  max_column sheet <= max_col_index ->
  apply_details (snapshot dflt sheet) updated = Raise TypeError.
Proof.
  intros Hmax. pose proof (max_column_pos sheet) as Hpos.
  unfold apply_details, snapshot. rewrite keys_snapshot_range.
  destruct (max_column sheet) as [|k]; [lia |].
  cbn [seq fmap list_fmap apply_from]. unfold apply_one.
  cbn [Dict.get entry fst snd]. rewrite String.eqb_refl.
  cbn [detail_width detail_alignment].
  rewrite (letter_of_in_range 1) by (unfold max_col_index; lia).
  unfold getitem_column.
  rewrite (column_index_of_letter 1 (letter_of 1))
    by (apply letter_of_in_range; unfold max_col_index; lia).
  set (ws1 := set_width _ _ updated).
  pose proof (max_row_pos ws1) as Hrow.
  destruct (max_row ws1) as [|m]; [lia |].
  reflexivity.
Qed.

End TransplantFacts.

(** ** Which paths the library calls write *)

Section Preservation.

Variable env : Env.

Lemma preserves_ret {A} (q : Path) (a : A) : preserves q (ret a).
Proof.
  intros w r w' [= <- <-]. split; [reflexivity |]. exists []. split; [reflexivity | constructor].
Qed.

Lemma preserves_raise {A} (q : Path) (e : Exn) : preserves q (@raise A e).
Proof.
  intros w r w' [= <- <-]. split; [reflexivity |]. exists []. split; [reflexivity | constructor].
Qed.

Lemma preserves_bind {A B} (q : Path) (m : M A) (k : A -> M B) :
  preserves q m -> (forall a, preserves q (k a)) -> preserves q (bind m k).
Proof.
  intros Hm Hk w r w' Hrun. unfold bind in Hrun.
  destruct (m w) as [[a|e] w1] eqn:E.
  - destruct (Hm _ _ _ E) as [Hq1 (l1 & Hh1 & Hl1)].
    destruct (Hk a _ _ _ Hrun) as [Hq2 (l2 & Hh2 & Hl2)].
    split; [congruence |]. exists (l2 ++ l1). split.
    + rewrite Hh2, Hh1. apply app_assoc.
    + apply Forall_app. split; [| exact Hl1].
      eapply Forall_impl; [exact Hl2 |]. cbn. intros s Hs. congruence.
  - injection Hrun as <- <-. exact (Hm _ _ _ E).
Qed.

Lemma preserves_try_finally {A} (q : Path) (m : M A) (fin : M unit) :
  preserves q m -> preserves q fin -> preserves q (try_finally m fin).
Proof.
  intros Hm Hf w r w' Hrun. unfold try_finally in Hrun.
  destruct (m w) as [r1 w1] eqn:E.
  destruct (Hm _ _ _ E) as [Hq1 (l1 & Hh1 & Hl1)].
  destruct (fin w1) as [[[]|e] w2] eqn:E2; injection Hrun as <- <-;
    destruct (Hf _ _ _ E2) as [Hq2 (l2 & Hh2 & Hl2)];
    (split; [congruence |]; exists (l2 ++ l1); split;
     [rewrite Hh2, Hh1; apply app_assoc |
      apply Forall_app; split; [| exact Hl1];
      eapply Forall_impl; [exact Hl2 |]; cbn; intros s Hs; congruence]).
Qed.

Lemma preserves_try_except {A} (q : Path) (m handler : M A) :
  preserves q m -> preserves q handler -> preserves q (try_except m handler).
Proof.
  intros Hm Hk w r w' Hrun. unfold try_except in Hrun.
  destruct (m w) as [[a|e] w1] eqn:E.
  - injection Hrun as <- <-. exact (Hm _ _ _ E).
  - destruct (Hm _ _ _ E) as [Hq1 (l1 & Hh1 & Hl1)].
    destruct (Hk _ _ _ Hrun) as [Hq2 (l2 & Hh2 & Hl2)].
    split; [congruence |]. exists (l2 ++ l1). split.
    + rewrite Hh2, Hh1. apply app_assoc.
    + apply Forall_app. split; [| exact Hl1].
      eapply Forall_impl; [exact Hl2 |]. cbn. intros s Hs. congruence.
Qed.

(** A path no longer than [p] is not inside [p]. *)
Lemma not_inside (q p l : Path) :
  length q <= length p -> l <> [] -> q <> p ++ l.
Proof.
  intros Hlen Hl ->. rewrite length_app in Hlen.
  destruct l; [congruence | cbn in Hlen; lia].
Qed.

(** A call that does not write at all. *)
Lemma preserves_pure {A} (q : Path) (m : M A) :
  (forall w r w', m w = (r, w') -> fs w' = fs w /\ history w' = history w) ->
  preserves q m.
Proof.
  intros H w r w' Hrun. destruct (H _ _ _ Hrun) as [Hf Hh].
  split; [rewrite Hf; reflexivity |]. exists []. split; [exact Hh | constructor].
Qed.

(** One write that leaves [q] alone. *)
Lemma commit_run (f : FS) (w : World) :
  commit f w = (Return tt, set_history (f :: history w) (set_fs f w)).
Proof. reflexivity. Qed.

Lemma preserves_commit_at (q : Path) (f : FS) (w : World) r w' :
  commit f w = (r, w') -> f !! q = fs w !! q ->
  fs w' !! q = fs w !! q /\
  exists l, history w' = l ++ history w /\
            Forall (fun s : FS => s !! q = fs w !! q) l.
Proof.
  intros [= <- <-] Hq. cbn. split; [exact Hq |].
  exists [f]. split; [reflexivity |]. repeat constructor. exact Hq.
Qed.

Lemma preserves_signal (q : Path) (h : Handler) : preserves q (signal_signal h).
Proof. apply preserves_pure. intros w r w' [= <- <-]. split; reflexivity. Qed.

Lemma preserves_path_exists (q p : Path) : preserves q (path_exists p).
Proof. apply preserves_pure. intros w r w' [= <- <-]. split; reflexivity. Qed.

Lemma preserves_wait (q p : Path) (b : bool) :
  preserves q (wait_for_file_availability env p b).
Proof.
  apply preserves_pure. intros w r w'. unfold wait_for_file_availability.
  destruct (poll _ _ _); [| destruct b]; intros [= <- <-]; split; reflexivity.
Qed.

Lemma preserves_load_workbook (q p : Path) : preserves q (load_workbook p).
Proof.
  apply preserves_pure. intros w r w'. unfold load_workbook.
  repeat case_match; intros [= <- <-]; split; reflexivity.
Qed.

Lemma preserves_startfile (q p : Path) : preserves q (startfile p).
Proof.
  apply preserves_pure. intros w r w'. unfold startfile.
  case_match; intros [= <- <-]; split; reflexivity.
Qed.

Lemma preserves_or_raise {A} (q : Path) (e : Exn) (o : option A) :
  preserves q (or_raise e o).
Proof. destruct o; [apply preserves_ret | apply preserves_raise]. Qed.

Lemma preserves_lift {A} (q : Path) (o : Outcome A) : preserves q (lift o).
Proof. destruct o; [apply preserves_ret | apply preserves_raise]. Qed.

Lemma preserves_mkdir (q p : Path) : q <> p -> preserves q (mkdir_exist_ok p).
Proof.
  intros Hne w r w'. unfold mkdir_exist_ok.
  destruct (fs w !! p) as [[|c]|] eqn:Ep.
  1,2: intros [= <- <-]; split; [reflexivity |]; exists []; split; [reflexivity | constructor].
  destruct (fs w !! PurePath.parent p) as [[|c]|].
  2,3: intros [= <- <-]; split; [reflexivity |]; exists []; split; [reflexivity | constructor].
  intros H. eapply preserves_commit_at; [exact H |].
  apply lookup_insert_ne. congruence.
Qed.

Lemma preserves_truncate_and_write (q p : Path) (c : Content) :
  q <> p -> preserves q (truncate_and_write p c).
Proof.
  intros Hne w r w'. unfold truncate_and_write, bind, commit.
  intros [= <- <-]; cbn; split;
    [rewrite !lookup_insert_ne by congruence; reflexivity |];
    eexists [_; _]; (split; [reflexivity |]);
    repeat constructor; rewrite !lookup_insert_ne by congruence; reflexivity.
Qed.

Lemma preserves_write_file (q p : Path) (c : Content) :
  q <> p -> preserves q (write_file p c).
Proof.
  intros Hne w r w'. unfold write_file.
  destruct (fs w !! p) as [[|c0]|] eqn:Ep.
  1: intros [= <- <-]; split; [reflexivity |]; exists []; split; [reflexivity | constructor].
  1: apply preserves_truncate_and_write; exact Hne.
  destruct (fs w !! PurePath.parent p) as [[|c0]|].
  1: apply preserves_truncate_and_write; exact Hne.
  all: intros [= <- <-]; split; [reflexivity |]; exists []; split; [reflexivity | constructor].
Qed.

Lemma preserves_mkstemp (q dir : Path) (sfx : string) (fuel : nat) :
  (forall n, q <> PurePath.joinpath dir n) ->
  preserves q (mkstemp_inner env fuel dir sfx).
Proof.
  intros Hne. induction fuel as [|fuel IH]; [apply preserves_raise |].
  intros w r w'. cbn [mkstemp_inner].
  destruct (fs w !! _) as [n|] eqn:E.
  - intros H. apply IH in H. exact H.
  - intros [= <- <-]. cbn. split.
    + apply lookup_insert_ne. apply not_eq_sym, Hne.
    + eexists [_]. split; [reflexivity |]. repeat constructor.
      apply lookup_insert_ne. apply not_eq_sym, Hne.
Qed.

Lemma preserves_os_rename (q src dst : Path) :
  q <> src -> q <> dst -> preserves q (os_rename env src dst).
Proof.
  intros Hs Hd w r w'. unfold os_rename.
  assert (Hq : forall n, (<[dst := n]> (delete src (fs w)) : FS) !! q = fs w !! q).
  { intros n. rewrite lookup_insert_ne by congruence. apply lookup_delete_ne. congruence. }
  destruct (fs w !! src) as [n|].
  2: intros [= <- <-]; split; [reflexivity |]; exists []; split; [reflexivity | constructor].
  destruct (fs w !! dst) as [[|c]|].
  - intros [= <- <-]; split; [reflexivity |]; exists []; split; [reflexivity | constructor].
  - destruct (rename_replaces env).
    + intros H. eapply preserves_commit_at; [exact H | apply Hq].
    + intros [= <- <-]; split; [reflexivity |]; exists []; split; [reflexivity | constructor].
  - intros H. eapply preserves_commit_at; [exact H | apply Hq].
Qed.

Lemma preserves_os_unlink (q p : Path) : q <> p -> preserves q (os_unlink p).
Proof.
  intros Hne w r w'. unfold os_unlink. destruct (fs w !! p).
  - intros H. eapply preserves_commit_at; [exact H |].
    apply lookup_delete_ne. congruence.
  - intros [= <- <-]; split; [reflexivity |]; exists []; split; [reflexivity | constructor].
Qed.

Lemma preserves_copy2 (q src dst : Path) :
  q <> dst -> (forall n, q <> PurePath.joinpath dst n) ->
  preserves q (copy2 src dst).
Proof.
  intros Hd Hc w r w'. unfold copy2.
  destruct (fs w !! src) as [[|c]|].
  1,3: intros [= <- <-]; split; [reflexivity |]; exists []; split; [reflexivity | constructor].
  destruct (fs w !! dst) as [[|c0]|]; apply preserves_write_file; auto.
Qed.

Lemma preserves_move (q src dst : Path) :
  q <> src -> q <> dst -> length q <= length dst ->
  preserves q (move env src dst).
Proof.
  intros Hs Hd Hlen w r w'. unfold move. cbv zeta.
  set (is_dir := match fs w !! dst with Some Dir => true | _ => false end).
  set (real_dst := if is_dir then _ else dst).
  assert (Hr : q <> real_dst).
  { subst real_dst. destruct is_dir; [| exact Hd].
    apply not_inside; [exact Hlen | discriminate]. }
  assert (Hrc : forall n, q <> PurePath.joinpath real_dst n).
  { intros n. unfold PurePath.joinpath. subst real_dst. destruct is_dir.
    - unfold PurePath.joinpath. rewrite <- app_assoc.
      apply not_inside; [exact Hlen | discriminate].
    - apply not_inside; [exact Hlen | discriminate]. }
  destruct (is_dir && _).
  - intros [= <- <-]; split; [reflexivity |]; exists []; split; [reflexivity | constructor].
  - apply preserves_try_except.
    + apply preserves_os_rename; assumption.
    + apply preserves_bind; [apply preserves_copy2; assumption |].
      intros _. apply preserves_os_unlink. exact Hs.
Qed.

End Preservation.

(** ** Strings and paths *)

Module PathFacts.
Import PurePath.

Lemma length_append (a b : string) :
  String.length (a +:+ b) = String.length a + String.length b.
Proof.
  induction a as [|c a IH]; [reflexivity |].
  change (String c a +:+ b) with (String c (a +:+ b)). cbn. f_equal. exact IH.
Qed.

Lemma append_empty_r (s : string) : s +:+ "" = s.
Proof.
  induction s as [|c s IH]; [reflexivity |].
  change (String c s +:+ "") with (String c (s +:+ "")). f_equal. exact IH.
Qed.

Lemma take_drop (i : nat) (s : string) : Str.take i s +:+ Str.drop i s = s.
Proof.
  revert i. induction s as [|c s IH]; intros [|i]; try reflexivity.
  cbn [Str.take Str.drop].
  change (String c (Str.take i s) +:+ Str.drop i s)
    with (String c (Str.take i s +:+ Str.drop i s)).
  f_equal. apply IH.
Qed.

Lemma stem_suffix (nm : string) : stem_of_name nm +:+ suffix_of_name nm = nm.
Proof.
  unfold stem_of_name, suffix_of_name.
  destruct (Str.rfind_dot nm) as [i|].
  - destruct ((0 <? i) && (i <? String.length nm - 1)).
    + apply take_drop.
    + apply append_empty_r.
  - apply append_empty_r.
Qed.

Lemma mem_valid_extensions (sfx : string) :
  Str.mem sfx valid_extensions = true -> sfx = ".csv" \/ sfx = ".xlsx".
Proof.
  unfold Str.mem, valid_extensions. cbn.
  destruct (String.eqb_spec sfx ".csv"); [auto |].
  destruct (String.eqb_spec sfx ".xlsx"); [auto | discriminate].
Qed.

Lemma parent_not_root (p : Path) : name p <> "" -> parent p = removelast p.
Proof.
  unfold parent, name.
  destruct p as [|[|a s] [|c p]]; try reflexivity.
  intros Hn. contradiction Hn. reflexivity.
Qed.

Lemma parent_joinpath (p : Path) (s : string) : s <> "" -> parent (joinpath p s) = p.
Proof.
  intros Hs. unfold joinpath. rewrite parent_not_root.
  - apply removelast_last.
  - unfold name. rewrite last_last. exact Hs.
Qed.

Section ValidTarget.

Variable file_path : Path.
Hypothesis Hvalid : Str.mem (suffix file_path) valid_extensions = true.

Lemma valid_name_nonempty : name file_path <> "".
Proof.
  intros Hn. unfold suffix in Hvalid. rewrite Hn in Hvalid. discriminate.
Qed.

Lemma valid_path_split : parent file_path ++ [name file_path] = file_path.
Proof.
  pose proof valid_name_nonempty as Hn. rewrite (parent_not_root _ Hn).
  unfold name in *.
  destruct file_path as [|c p] using rev_ind; [contradiction Hn; reflexivity |].
  rewrite removelast_last, last_last. reflexivity.
Qed.

Lemma length_parent : S (length (parent file_path)) = length file_path.
Proof.
  rewrite <- valid_path_split at 2. rewrite length_app. cbn. lia.
Qed.

Lemma length_temp_dir : length (temp_dir_of file_path) = length file_path.
Proof.
  unfold temp_dir_of, joinpath. rewrite length_app. cbn.
  pose proof length_parent. lia.
Qed.

Lemma length_backup_path : length (backup_path_of file_path) = length file_path.
Proof.
  unfold backup_path_of. rewrite length_app. cbn.
  pose proof length_parent. lia.
Qed.

Lemma target_not_temp_dir : file_path <> temp_dir_of file_path.
Proof.
  intros Heq. rewrite <- valid_path_split in Heq at 1.
  unfold temp_dir_of, joinpath in Heq. apply app_inj_tail in Heq as [_ Hn].
  unfold suffix in Hvalid. rewrite Hn in Hvalid. discriminate.
Qed.

Lemma backup_name_longer :
  String.length (backup_name_of file_path) = String.length (name file_path) + 9.
Proof.
  unfold backup_name_of, stem, suffix. rewrite !length_append.
  rewrite <- (stem_suffix (name file_path)) at 3. rewrite length_append.
  cbn. lia.
Qed.

Lemma backup_not_target : backup_path_of file_path <> file_path.
Proof.
  intros Heq. rewrite <- valid_path_split in Heq at 2.
  unfold backup_path_of in Heq. apply app_inj_tail in Heq as [_ Hn].
  pose proof backup_name_longer as Hl. rewrite Hn in Hl. lia.
Qed.

Lemma backup_not_temp_dir : backup_path_of file_path <> temp_dir_of file_path.
Proof.
  intros Heq. unfold backup_path_of, temp_dir_of, joinpath in Heq.
  apply app_inj_tail in Heq as [_ Hn]. unfold backup_name_of in Hn.
  destruct (mem_valid_extensions _ Hvalid) as [Hs|Hs]; rewrite Hs in Hn;
    apply (f_equal String.length) in Hn as Hl; rewrite !length_append in Hl;
    cbn in Hl;
    destruct (stem file_path) as [|c1 [|c2 s]]; cbn in Hl; try lia;
    cbv in Hn; discriminate Hn.
Qed.

Lemma with_name_backup :
  with_name file_path (backup_name_of file_path) = Some (backup_path_of file_path).
Proof.
  unfold with_name. destruct (String.eqb_spec (name file_path) "") as [Hn|_].
  - contradiction valid_name_nonempty.
  - reflexivity.
Qed.

End ValidTarget.

End PathFacts.

(** ** The steps of [_save_to_file] *)

Section Steps.

Variable env : Env.

Lemma preserves_bind_post {A B} (q : Path) (m : M A) (k : A -> M B) (P : A -> Prop) :
  preserves q m ->
  (forall w a w', m w = (Return a, w') -> P a) ->
  (forall a, P a -> preserves q (k a)) ->
  preserves q (bind m k).
Proof.
  intros Hm Hpost Hk w r w' Hrun. unfold bind in Hrun.
  destruct (m w) as [[a|e] w1] eqn:E.
  - destruct (Hm _ _ _ E) as [Hq1 (l1 & Hh1 & Hl1)].
    destruct (Hk a (Hpost _ _ _ E) _ _ _ Hrun) as [Hq2 (l2 & Hh2 & Hl2)].
    split; [congruence |]. exists (l2 ++ l1). split.
    + rewrite Hh2, Hh1. apply app_assoc.
    + apply Forall_app. split; [| exact Hl1].
      eapply Forall_impl; [exact Hl2 |]. cbn. intros s Hs. congruence.
  - injection Hrun as <- <-. exact (Hm _ _ _ E).
Qed.

(** *** The temporary file *)

Lemma mkstemp_Return (fuel : nat) (dir : Path) (sfx : string) w t w' :
  mkstemp_inner env fuel dir sfx w = (Return t, w') ->
  (exists n, t = PurePath.joinpath dir ("tmp" +:+ n +:+ sfx)) /\
  fs w' !! t = Some (File Blank).
Proof.
  revert w. induction fuel as [|fuel IH]; intros w; cbn [mkstemp_inner].
  - discriminate.
  - destruct (fs w !! _) as [n|] eqn:E.
    + intros H. apply IH in H. exact H.
    + intros [= <- <-]. split; [eauto |]. cbn. apply lookup_insert_eq.
Qed.

Lemma truncate_and_write_run (p : Path) (c : Content) w :
  exists w', truncate_and_write p c w = (Return tt, w') /\
             fs w' !! p = Some (File c) /\ sigint w' = sigint w.
Proof.
  unfold truncate_and_write, bind, commit. eexists. split; [reflexivity |].
  cbn. split; [apply lookup_insert_eq | reflexivity].
Qed.

Lemma write_file_Return (p : Path) (c : Content) w w' :
  write_file p c w = (Return tt, w') -> fs w' !! p = Some (File c).
Proof.
  destruct (truncate_and_write_run p c w) as (w1 & Hrun & Hc & _).
  unfold write_file. destruct (fs w !! p) as [[|c0]|]; [discriminate | |].
  - rewrite Hrun. intros [= <-]. exact Hc.
  - destruct (fs w !! PurePath.parent p) as [[|c0]|]; try discriminate.
    rewrite Hrun. intros [= <-]. exact Hc.
Qed.

Lemma write_file_on_file (p : Path) (c c0 : Content) w :
  fs w !! p = Some (File c0) ->
  exists w', write_file p c w = (Return tt, w') /\ fs w' !! p = Some (File c) /\
             sigint w' = sigint w.
Proof.
  intros Hp. unfold write_file. rewrite Hp. apply truncate_and_write_run.
Qed.

Lemma NamedTemporaryFile_Return (sfx : string) (dir : Path) w t w' :
  NamedTemporaryFile env sfx dir w = (Return t, w') ->
  (exists n, t = PurePath.joinpath dir ("tmp" +:+ n +:+ sfx)) /\
  fs w' !! t = Some (File Blank).
Proof. exact (mkstemp_Return TMP_MAX dir sfx w t w'). Qed.

Lemma preserves_NamedTemporaryFile (q dir : Path) (sfx : string) :
  (forall n, q <> PurePath.joinpath dir n) ->
  preserves q (NamedTemporaryFile env sfx dir).
Proof. exact (preserves_mkstemp env q dir sfx TMP_MAX). Qed.

Lemma write_temp_Return (self : AdvancePandas) (file_path : Path) w t w' :
  Str.mem (PurePath.suffix file_path) valid_extensions = true ->
  write_temp env self file_path w = (Return t, w') ->
  is_temp_of file_path t /\ fs w' !! t = Some (File (serialized self file_path)).
Proof.
  intros Hvalid Hrun. unfold write_temp in Hrun. cbv zeta in Hrun.
  apply bind_Return in Hrun as ([] & w1 & _ & Hrun).
  apply bind_Return in Hrun as (t0 & w2 & Htemp & Hrun).
  apply bind_Return in Hrun as ([] & w3 & Hwrite & Hrun).
  injection Hrun as <- <-.
  apply NamedTemporaryFile_Return in Htemp as [Hshape _]. split; [exact Hshape |].
  unfold serialized.
  destruct (PathFacts.mem_valid_extensions _ Hvalid) as [Hs|Hs];
    rewrite Hs in Hwrite |- *; cbn in Hwrite |- *;
    eapply write_file_Return; exact Hwrite.
Qed.

Lemma is_temp_length (file_path t : Path) :
  is_temp_of file_path t -> length t = S (length (temp_dir_of file_path)).
Proof.
  intros [n ->]. unfold PurePath.joinpath. rewrite length_app. cbn. lia.
Qed.

Lemma write_temp_Return_any (self : AdvancePandas) (file_path : Path) w t w' :
  write_temp env self file_path w = (Return t, w') -> is_temp_of file_path t.
Proof.
  intros Hrun. unfold write_temp in Hrun. cbv zeta in Hrun.
  apply bind_Return in Hrun as ([] & w1 & _ & Hrun).
  apply bind_Return in Hrun as (t0 & w2 & Htemp & Hrun).
  apply bind_Return in Hrun as ([] & w3 & Hwrite & Hrun).
  injection Hrun as <- <-.
  apply NamedTemporaryFile_Return in Htemp as [Hshape _]. exact Hshape.
Qed.

Lemma preserves_write_temp (q : Path) (self : AdvancePandas) (file_path : Path) :
  q <> temp_dir_of file_path ->
  length q <= length (temp_dir_of file_path) ->
  preserves q (write_temp env self file_path).
Proof.
  intros Hne Hlen. unfold write_temp. cbv zeta.
  apply preserves_bind; [apply preserves_mkdir; exact Hne | intros _].
  eapply (preserves_bind_post q _ _ (is_temp_of file_path)).
  - apply preserves_NamedTemporaryFile. intros n.
    apply not_inside; [exact Hlen | discriminate].
  - intros w t w' Hrun. apply NamedTemporaryFile_Return in Hrun as [Hshape _].
    exact Hshape.
  - intros t Ht.
    assert (q <> t) by (intros ->; apply is_temp_length in Ht; lia).
    apply preserves_bind; [| intros _; apply preserves_ret].
    unfold to_csv, to_excel.
    repeat case_match; first [apply preserves_write_file; assumption | apply preserves_ret].
Qed.

(** *** The Format Transplanter *)

Lemma preserves_transfer (q : Path) (reference : pathlike) (t : Path)
    (self : AdvancePandas) :
  q <> t -> preserves q (_transfer_excel_format env reference t self).
Proof.
  intros Hne. unfold _transfer_excel_format.
  apply preserves_bind; [apply preserves_load_workbook | intros workbook].
  apply preserves_bind; [apply preserves_or_raise | intros details].
  apply preserves_bind; [apply preserves_write_file; exact Hne | intros _].
  apply preserves_bind; [apply preserves_load_workbook | intros updated].
  apply preserves_bind; [apply preserves_or_raise | intros sheet].
  apply preserves_bind; [apply preserves_lift | intros formatted].
  apply preserves_write_file; exact Hne.
Qed.

Lemma or_raise_Return {A} (e : Exn) (o : option A) w a w' :
  or_raise e o w = (Return a, w') -> o = Some a /\ w' = w.
Proof. destruct o; [intros [= <- <-]; auto | discriminate]. Qed.

(** The Format Transplanter never returns: when everything before the
    loop of lines 148-151 has succeeded, the loop raises at the first cell
    of the first column, where line 151 assigns the [StyleProxy] read at
    line 137. *)
Lemma transfer_never_returns (reference : pathlike) (t : Path)
    (self : AdvancePandas) w w' :
  _transfer_excel_format env reference t self w <> (Return tt, w').
Proof.
  unfold _transfer_excel_format. intros Hrun.
  apply bind_Return in Hrun as (workbook & w1 & _ & Hrun).
  apply bind_Return in Hrun as (details & w2 & Hdetails & Hrun).
  apply bind_Return in Hrun as ([] & w3 & _ & Hrun).
  apply bind_Return in Hrun as (updated & w4 & _ & Hrun).
  apply bind_Return in Hrun as (sheet & w5 & _ & Hrun).
  apply bind_Return in Hrun as (formatted & w6 & Hloop & _).
  apply or_raise_Return in Hdetails as [Hdetails _].
  apply TransplantFacts.column_details_Some in Hdetails as [Hmax ->].
  unfold lift in Hloop.
  rewrite (TransplantFacts.apply_details_snapshot _ _ _ Hmax) in Hloop.
  discriminate Hloop.
Qed.

Lemma transfer_Return (reference : pathlike) (t : Path) (self : AdvancePandas) w w' :
  _transfer_excel_format env reference t self w = (Return tt, w') ->
  exists wb, fs w' !! t = Some (File (Spreadsheet wb)).
Proof. intros Hrun. contradiction (transfer_never_returns _ _ _ _ _ Hrun). Qed.

Lemma preserves_retain_format_step (q : Path) (self : AdvancePandas)
    (file_path t : Path) (retain_format : bool) :
  q <> t -> preserves q (retain_format_step env self file_path t retain_format).
Proof.
  intros Hne. unfold retain_format_step.
  destruct retain_format; [| apply preserves_ret].
  apply preserves_bind; [apply preserves_path_exists | intros ex].
  repeat case_match; first [apply preserves_transfer; exact Hne | apply preserves_ret].
Qed.

Lemma retain_format_step_Return (self : AdvancePandas) (file_path t : Path)
    (retain_format : bool) (c : Content) w w' :
  fs w !! t = Some (File c) ->
  retain_format_step env self file_path t retain_format w = (Return tt, w') ->
  exists c', fs w' !! t = Some (File c') /\ (retain_format = false -> c' = c).
Proof.
  intros Ht. unfold retain_format_step. destruct retain_format.
  - intros Hrun. apply bind_Return in Hrun as (ex & w1 & Hex & Hrun).
    unfold path_exists in Hex. injection Hex as _ <-.
    repeat case_match.
    all: try (unfold ret in Hrun; injection Hrun as <-; exists c;
              split; [exact Ht | discriminate]).
    all: apply transfer_Return in Hrun as [wb Hwb]; eexists;
      split; [exact Hwb | discriminate].
  - intros [= <-]. exists c. split; [exact Ht | reflexivity].
Qed.

(** *** The move onto the target *)

Lemma os_rename_Raise (src dst : Path) w e w' :
  os_rename env src dst w = (Raise e, w') -> w' = w.
Proof.
  unfold os_rename. repeat case_match; intros [=]; congruence.
Qed.

Lemma move_Return (src dst : Path) w w' :
  src <> dst -> fs w !! dst <> Some Dir ->
  move env src dst w = (Return tt, w') ->
  is_Some (fs w !! src) /\ fs w' !! dst = fs w !! src.
Proof.
  intros Hne Hdir. unfold move. cbv zeta.
  destruct (fs w !! dst) as [[|c0]|] eqn:Ed; [congruence | |]; cbn [andb];
    unfold try_except;
    destruct (os_rename env src dst w) as [[[]|e] w1] eqn:Er.
  all: try (intros [= <-]; unfold os_rename in Er; rewrite Ed in Er;
            destruct (fs w !! src) as [n|]; [| discriminate];
            split; [eauto |];
            repeat case_match; try discriminate;
            injection Er as <-; cbn; apply lookup_insert_eq).
  all: apply os_rename_Raise in Er as ->; intros Hrun;
    apply bind_Return in Hrun as ([] & w2 & Hcopy & Hunlink);
    unfold copy2 in Hcopy; rewrite Ed in Hcopy;
    destruct (fs w !! src) as [[|c]|]; try discriminate;
    (split; [eauto |]);
    apply write_file_Return in Hcopy;
    apply (preserves_os_unlink dst src ltac:(congruence)) in Hunlink as [Hq _];
    congruence.
Qed.

Lemma preserves_replace_target (q t file_path : Path) :
  q <> t -> q <> file_path -> length q <= length file_path ->
  preserves q (replace_target env t file_path).
Proof.
  intros Ht Hp Hlen. unfold replace_target.
  apply preserves_bind; [apply preserves_path_exists | intros ex].
  apply preserves_bind; [| intros _; apply preserves_move; assumption].
  destruct ex; [| apply preserves_ret].
  apply preserves_bind; [apply preserves_wait | intros _; apply preserves_ret].
Qed.

Lemma fs_after_wait (p : Path) (b : bool) w r w' :
  wait_for_file_availability env p b w = (r, w') -> fs w' = fs w.
Proof.
  unfold wait_for_file_availability.
  destruct (poll _ _ _); [| destruct b]; intros [= <- <-]; reflexivity.
Qed.

Lemma replace_target_Return (t file_path : Path) w w' :
  t <> file_path -> fs w !! file_path <> Some Dir ->
  replace_target env t file_path w = (Return tt, w') ->
  fs w' !! file_path = fs w !! t.
Proof.
  intros Hne Hdir Hrun. unfold replace_target in Hrun.
  apply bind_Return in Hrun as (ex & w1 & Hex & Hrun).
  unfold path_exists in Hex. injection Hex as <- <-.
  apply bind_Return in Hrun as ([] & w2 & Hwait & Hrun).
  assert (Hfs : fs w2 = fs w).
  { destruct (match fs w !! file_path with Some _ => true | None => false end).
    - apply bind_Return in Hwait as (b & w3 & Hwait & Hret).
      injection Hret as <-. eapply fs_after_wait. exact Hwait.
    - injection Hwait as <-. reflexivity. }
  apply move_Return in Hrun as [_ Hrun]; [| exact Hne | rewrite Hfs; exact Hdir].
  rewrite Hrun, Hfs. reflexivity.
Qed.

(** *** Lines 96-114 as a whole *)

Lemma install_Return (self : AdvancePandas) (file_path : Path)
    (retain_format : bool) w w' :
  Str.mem (PurePath.suffix file_path) valid_extensions = true ->
  fs w !! file_path <> Some Dir ->
  install env self file_path retain_format w = (Return tt, w') ->
  exists c, fs w' !! file_path = Some (File c) /\
            (retain_format = false -> c = serialized self file_path).
Proof.
  intros Hvalid Hdir Hrun. unfold install in Hrun.
  apply bind_Return in Hrun as (t & w1 & Htemp & Hrun).
  apply bind_Return in Hrun as ([] & w2 & Hretain & Hrun).
  pose proof (write_temp_Return _ _ _ _ _ Hvalid Htemp) as [Hshape Hcontent].
  pose proof (is_temp_length _ _ Hshape) as Hlen.
  rewrite (PathFacts.length_temp_dir _ Hvalid) in Hlen.
  assert (Hne : file_path <> t) by (intros ->; lia).
  destruct (retain_format_step_Return _ _ _ _ _ _ _ Hcontent Hretain) as (c & Hc & Hsame).
  assert (Hkeep : fs w2 !! file_path = fs w !! file_path).
  { apply (preserves_retain_format_step file_path) in Hretain as [-> _]; [| exact Hne].
    apply (preserves_write_temp file_path) in Htemp as [-> _]; [reflexivity | |].
    - apply PathFacts.target_not_temp_dir. exact Hvalid.
    - rewrite PathFacts.length_temp_dir by exact Hvalid. lia. }
  apply replace_target_Return in Hrun; [| congruence | rewrite Hkeep; exact Hdir].
  exists c. split; [congruence | exact Hsame].
Qed.

Lemma preserves_install (q : Path) (self : AdvancePandas) (file_path : Path)
    (retain_format : bool) :
  Str.mem (PurePath.suffix file_path) valid_extensions = true ->
  q <> temp_dir_of file_path -> q <> file_path -> length q <= length file_path ->
  preserves q (install env self file_path retain_format).
Proof.
  intros Hvalid Hd Hp Hlen. unfold install.
  pose proof (PathFacts.length_temp_dir _ Hvalid) as Hld.
  eapply (preserves_bind_post q _ _ (is_temp_of file_path)).
  - apply preserves_write_temp; [exact Hd | lia].
  - intros w t w' Hrun. eapply write_temp_Return_any. exact Hrun.
  - intros t Ht. apply is_temp_length in Ht.
    assert (q <> t) by (intros ->; lia).
    apply preserves_bind; [apply preserves_retain_format_step; assumption | intros _].
    apply preserves_replace_target; assumption.
Qed.

(** Until the move, the target is left alone. *)
Lemma preserves_before_move (self : AdvancePandas) (file_path : Path)
    (retain_format : bool) :
  Str.mem (PurePath.suffix file_path) valid_extensions = true ->
  preserves file_path
    (bind (write_temp env self file_path)
          (fun t => retain_format_step env self file_path t retain_format)).
Proof.
  intros Hvalid.
  pose proof (PathFacts.length_temp_dir _ Hvalid) as Hld.
  eapply (preserves_bind_post _ _ _ (is_temp_of file_path)).
  - apply preserves_write_temp;
      [apply PathFacts.target_not_temp_dir; exact Hvalid | lia].
  - intros w t w' Hrun. eapply write_temp_Return_any. exact Hrun.
  - intros t Ht. apply is_temp_length in Ht.
    apply preserves_retain_format_step. intros ->. lia.
Qed.

End Steps.

(** ** The backup *)

Section Backup.

Variable env : Env.

Lemma save_to_file_valid (self : AdvancePandas) (file_path : pathlike)
    (retain_format auto_open create_backup : bool) (w : World) :
  Str.mem (PurePath.suffix (to_Path file_path)) valid_extensions = true ->
  _save_to_file env self file_path retain_format auto_open create_backup w =
  try_finally
    (save_body env self (to_Path file_path) retain_format auto_open create_backup)
    (signal_signal default_int_handler ;; ret tt)
    (set_sigint ignore_keyboard_interrupt w).
Proof.
  intros Hvalid. unfold _save_to_file. cbv zeta.
  unfold bind at 1. unfold signal_signal at 1. rewrite Hvalid. reflexivity.
Qed.

(** The outcome of [_save_to_file] is the outcome of the [try] block, and
    the world differs from the one the block ends in by the handler only. *)
Lemma save_to_file_run (self : AdvancePandas) (file_path : pathlike)
    (retain_format auto_open create_backup : bool) (w : World) r w' :
  Str.mem (PurePath.suffix (to_Path file_path)) valid_extensions = true ->
  _save_to_file env self file_path retain_format auto_open create_backup w = (r, w') ->
  exists w1,
    save_body env self (to_Path file_path) retain_format auto_open create_backup
      (set_sigint ignore_keyboard_interrupt w) = (r, w1) /\
    w' = set_sigint default_int_handler w1.
Proof.
  intros Hvalid. rewrite save_to_file_valid by exact Hvalid.
  unfold try_finally.
  destruct (save_body _ _ _ _ _ _ _) as [r1 w1]. cbn.
  intros [= <- <-]. eauto.
Qed.

Lemma backup_step_off (file_path : Path) (w : World) :
  backup_step env file_path false w = (Return tt, w).
Proof. reflexivity. Qed.

(** A backup that exists and becomes available is overwritten with what
    the target holds. *)
Lemma backup_step_copies (file_path : Path) (c b : Content) (w : World) :
  Str.mem (PurePath.suffix file_path) valid_extensions = true ->
  fs w !! file_path = Some (File c) ->
  fs w !! backup_path_of file_path = Some (File b) ->
  poll (held env (backup_path_of file_path)) (clock w) (retries env) <> None ->
  exists w',
    backup_step env file_path true w = (Return tt, w') /\
    fs w' !! file_path = Some (File c) /\
    fs w' !! backup_path_of file_path = Some (File c).
Proof.
  intros Hvalid Hc Hb Hpoll. unfold backup_step.
  change (PurePath.stem file_path +:+ " - Backup" +:+ PurePath.suffix file_path)
    with (backup_name_of file_path).
  rewrite (PathFacts.with_name_backup _ Hvalid).
  unfold bind, or_raise, ret, path_exists, wait_for_file_availability.
  rewrite Hb.
  destruct (poll _ _ _) as [t|] eqn:Ep; [| congruence].
  unfold copy2. cbn [fs set_clock]. rewrite Hb, Hc.
  unfold write_file, bind. cbn [fs set_clock]. rewrite Hb.
  eexists. split; [reflexivity |]. cbn. split.
  - rewrite !lookup_insert_ne by (apply PathFacts.backup_not_target; exact Hvalid).
    exact Hc.
  - apply lookup_insert_eq.
Qed.

(** A backup that exists and does not become available is left alone: the
    step returns, and only the clock has moved. *)
Lemma backup_step_skips (file_path : Path) (w : World) :
  Str.mem (PurePath.suffix file_path) valid_extensions = true ->
  is_Some (fs w !! backup_path_of file_path) ->
  poll (held env (backup_path_of file_path)) (clock w) (retries env) = None ->
  backup_step env file_path true w
  = (Return tt, set_clock (clock w + retries env) w).
Proof.
  intros Hvalid [n Hb] Hpoll. unfold backup_step.
  change (PurePath.stem file_path +:+ " - Backup" +:+ PurePath.suffix file_path)
    with (backup_name_of file_path).
  rewrite (PathFacts.with_name_backup _ Hvalid).
  unfold bind, or_raise, ret, path_exists, wait_for_file_availability.
  rewrite Hb, Hpoll. reflexivity.
Qed.

Lemma preserves_backup_step (file_path : Path) (create_backup : bool) :
  Str.mem (PurePath.suffix file_path) valid_extensions = true ->
  preserves file_path (backup_step env file_path create_backup).
Proof.
  intros Hvalid. unfold backup_step. destruct create_backup; [| apply preserves_ret].
  change (PurePath.stem file_path +:+ " - Backup" +:+ PurePath.suffix file_path)
    with (backup_name_of file_path).
  rewrite (PathFacts.with_name_backup _ Hvalid). unfold or_raise.
  intros w r w' Hrun. unfold bind at 1 in Hrun. unfold ret at 1 in Hrun.
  revert w r w' Hrun. fold (preserves file_path
    (backup_exists <- path_exists (backup_path_of file_path) ;;
     available <- (if backup_exists
                   then wait_for_file_availability env (backup_path_of file_path) true
                   else ret false) ;;
     if available then copy2 file_path (backup_path_of file_path) else ret tt)).
  apply preserves_bind; [apply preserves_path_exists | intros ex].
  apply preserves_bind; [destruct ex; [apply preserves_wait | apply preserves_ret] |].
  intros [|]; [| apply preserves_ret].
  apply preserves_copy2.
  - apply not_eq_sym, PathFacts.backup_not_target. exact Hvalid.
  - intros n. apply not_inside; [| discriminate].
    rewrite PathFacts.length_backup_path by exact Hvalid. lia.
Qed.

Lemma preserves_open_step (q file_path : Path) (auto_open : bool) :
  preserves q (if auto_open then startfile file_path else ret tt).
Proof. destruct auto_open; [apply preserves_startfile | apply preserves_ret]. Qed.

Lemma open_step_clock (file_path : Path) (auto_open : bool) (t : nat) (w : World) :
  (if auto_open then startfile file_path else ret tt) (set_clock t w) =
  let '(r, w1) := (if auto_open then startfile file_path else ret tt) w in
  (r, set_clock t w1).
Proof.
  destruct auto_open; [| reflexivity].
  unfold startfile. cbn [fs set_clock]. destruct (fs w !! file_path); reflexivity.
Qed.

End Backup.

Section BackupFacts.

Variable env : Env.

(** C1, as amended. A save with [create_backup=True] over an existing
    target, next to which a backup file exists already and becomes
    available within the wait bound: when the save returns, the target
    holds the new content and the backup file holds a copy of that same
    new content (the copy is made from the target after the move). Without
    format retention the new content is the serialised dataset. *)
Theorem backup_is_copy_of_saved_target
    (self : AdvancePandas) (file_path : pathlike)
    (retain_format auto_open : bool) (w w' : World) :
  Str.mem (PurePath.suffix (to_Path file_path)) valid_extensions = true ->
  (exists old, fs w !! to_Path file_path = Some (File old)) ->
  (exists b, fs w !! backup_path_of (to_Path file_path) = Some (File b)) ->
  (forall t, poll (held env (backup_path_of (to_Path file_path))) t (retries env)
             <> None) ->
  _save_to_file env self file_path retain_format auto_open true w = (Return tt, w') ->
  exists new,
    fs w' !! to_Path file_path = Some (File new) /\
    fs w' !! backup_path_of (to_Path file_path) = Some (File new) /\
    (retain_format = false -> new = serialized self (to_Path file_path)).
Proof.
  intros Hvalid [old Hold] [b Hb] Hfree Hrun.
  set (path := to_Path file_path) in *.
  apply save_to_file_run in Hrun as (w1 & Hbody & ->); [| exact Hvalid].
  fold path in Hbody. unfold save_body in Hbody.
  apply bind_Return in Hbody as ([] & wa & Hinstall & Hbody).
  apply bind_Return in Hbody as ([] & wb & Hbackup & Hopen).
  assert (Hdir : fs (set_sigint ignore_keyboard_interrupt w) !! path <> Some Dir).
  { change (fs w !! path <> Some Dir). congruence. }
  destruct (install_Return env self path retain_format _ _ Hvalid Hdir Hinstall)
    as (new & Hnew & Hser).
  assert (Hbk : fs wa !! backup_path_of path = Some (File b)).
  { apply (preserves_install env (backup_path_of path)) in Hinstall as [-> _];
      [exact Hb | exact Hvalid | | |].
    - apply PathFacts.backup_not_temp_dir. exact Hvalid.
    - apply PathFacts.backup_not_target. exact Hvalid.
    - rewrite PathFacts.length_backup_path by exact Hvalid. lia. }
  destruct (backup_step_copies env path new b wa Hvalid Hnew Hbk (Hfree _))
    as (wb' & Hrun & Htarget & Hcopy).
  rewrite Hrun in Hbackup. injection Hbackup as ->.
  exists new. cbn [fs set_sigint].
  pose proof (preserves_open_step path path auto_open _ _ _ Hopen) as [-> _].
  pose proof (preserves_open_step (backup_path_of path) path auto_open _ _ _ Hopen)
    as [-> _].
  auto.
Qed.

(** C5. A save with [create_backup=True] whose backup path exists and does
    not become available within the wait bound: if the save as such
    succeeds (the same call without the backup returns), the call returns
    as well, ends in the same file system as the call without the backup,
    and the backup path holds what it held; the target, unless it was a
    directory, holds the new content. *)
Theorem locked_backup_is_skipped
    (self : AdvancePandas) (file_path : pathlike)
    (retain_format auto_open : bool) (w : World) :
  is_Some (fs w !! backup_path_of (to_Path file_path)) ->
  (forall t, poll (held env (backup_path_of (to_Path file_path))) t (retries env)
             = None) ->
  fst (_save_to_file env self file_path retain_format auto_open false w) = Return tt ->
  let '(r, w') := _save_to_file env self file_path retain_format auto_open true w in
  r = Return tt /\
  fs w' = fs (snd (_save_to_file env self file_path retain_format auto_open false w)) /\
  fs w' !! backup_path_of (to_Path file_path)
    = fs w !! backup_path_of (to_Path file_path) /\
  (fs w !! to_Path file_path <> Some Dir ->
   exists new, fs w' !! to_Path file_path = Some (File new) /\
               (retain_format = false -> new = serialized self (to_Path file_path))).
Proof.
  intros Hbk Hheld Hok.
  destruct (Str.mem (PurePath.suffix (to_Path file_path)) valid_extensions) eqn:Hvalid.
  2: { rewrite save_to_file_invalid in Hok by exact Hvalid. discriminate Hok. }
  set (path := to_Path file_path) in *.
  rewrite !save_to_file_valid in * by exact Hvalid. fold path in Hok |- *.
  unfold try_finally, save_body in *.
  set (w0 := set_sigint ignore_keyboard_interrupt w) in *.
  destruct (install env self path retain_format w0) as [[[]|e] wa] eqn:Hinstall.
  2: { rewrite (bind_Raise _ _ _ _ _ Hinstall) in Hok. cbn in Hok. discriminate Hok. }
  rewrite !(bind_step _ _ _ _ _ Hinstall) in *.
  rewrite (bind_step _ _ _ _ _ (backup_step_off env path wa)) in *.
  pose proof (preserves_install env (backup_path_of path) self path retain_format
                Hvalid
                (PathFacts.backup_not_temp_dir _ Hvalid)
                (PathFacts.backup_not_target _ Hvalid)
                ltac:(rewrite PathFacts.length_backup_path by exact Hvalid; lia)
                _ _ _ Hinstall) as [Hkeep _].
  rewrite (bind_step _ _ _ _ _
             (backup_step_skips env path wa Hvalid
                ltac:(rewrite Hkeep; exact Hbk) (Hheld _))).
  rewrite open_step_clock.
  destruct ((if auto_open then startfile path else ret tt) wa) as [r1 w1] eqn:Hopen.
  cbn in Hok |- *. subst r1.
  pose proof (preserves_open_step (backup_path_of path) path auto_open _ _ _ Hopen)
    as [Hbk1 _].
  pose proof (preserves_open_step path path auto_open _ _ _ Hopen) as [Hp1 _].
  split; [reflexivity |]. split; [reflexivity |].
  split; [rewrite Hbk1; exact Hkeep |].
  intros Hdir.
  destruct (install_Return env self path retain_format w0 wa Hvalid Hdir Hinstall)
    as (new & Hnew & Hser).
  exists new. split; [rewrite Hp1; exact Hnew | exact Hser].
Qed.

End BackupFacts.

(** ** Closed runs: the backup *)

Lemma backup_is_copy_of_saved_target_witness :
  exists new,
    fs (snd (_save_to_file Examples.posix Examples.loaded_csv (PStr "data.csv")
               false false true (Examples.world_of Examples.fs_data_backup)))
      !! to_Path (PStr "data.csv") = Some (File new) /\
    fs (snd (_save_to_file Examples.posix Examples.loaded_csv (PStr "data.csv")
               false false true (Examples.world_of Examples.fs_data_backup)))
      !! backup_path_of (to_Path (PStr "data.csv")) = Some (File new) /\
    (false = false -> new = serialized Examples.loaded_csv (to_Path (PStr "data.csv"))).
Proof.
  apply (backup_is_copy_of_saved_target Examples.posix Examples.loaded_csv
           (PStr "data.csv") false false (Examples.world_of Examples.fs_data_backup)).
  - reflexivity.
  - eexists. vm_compute. reflexivity.
  - eexists. vm_compute. reflexivity.
  - intros t. vm_compute. discriminate.
  - vm_compute. reflexivity.
Defined.

(** C1, the counterexample. [data.csv] is loaded, edited and saved over
    itself with [create_backup=True], next to a backup of an earlier run:
    the save returns, [data.csv] holds the new content, and
    [data - Backup.csv] holds the new content as well, not the content
    [data.csv] had before the save. *)
Lemma backup_does_not_hold_previous_content :
  let w := Examples.world_of Examples.fs_data_backup in
  let '(r, w') := _save_to_file Examples.posix Examples.loaded_csv (PStr "data.csv")
                    false false true w in
  r = Return tt /\
  fs w !! ["data.csv"] = Some (File (Delimited Examples.three_rows)) /\
  fs w' !! ["data.csv"] = Some (File (Delimited Examples.three_rows_edited)) /\
  fs w' !! ["data - Backup.csv"] = Some (File (Delimited Examples.three_rows_edited)) /\
  fs w' !! ["data - Backup.csv"] <> Some (File (Delimited Examples.three_rows)).
Proof.
  vm_compute. repeat split. intros [=].
Qed.

(** The same save in a directory without a backup file: the copy is made
    only onto a backup that exists (line 118), so none is created. *)
Lemma no_backup_created_when_none_exists :
  let '(r, w') := _save_to_file Examples.posix Examples.loaded_csv (PStr "data.csv")
                    false false true (Examples.world_of Examples.fs_data) in
  r = Return tt /\
  fs w' !! ["data.csv"] = Some (File (Delimited Examples.three_rows_edited)) /\
  fs w' !! ["data - Backup.csv"] = None.
Proof. vm_compute. repeat split. Qed.

Lemma locked_backup_is_skipped_witness :
  let '(r, w') := _save_to_file Examples.windows_backup_locked Examples.loaded_csv
                    (PStr "data.csv") false false true
                    (Examples.world_of Examples.fs_data_backup) in
  r = Return tt /\
  fs w' = fs (snd (_save_to_file Examples.windows_backup_locked Examples.loaded_csv
                     (PStr "data.csv") false false false
                     (Examples.world_of Examples.fs_data_backup))) /\
  fs w' !! backup_path_of (to_Path (PStr "data.csv"))
    = fs (Examples.world_of Examples.fs_data_backup)
        !! backup_path_of (to_Path (PStr "data.csv")) /\
  (fs (Examples.world_of Examples.fs_data_backup) !! to_Path (PStr "data.csv")
     <> Some Dir ->
   exists new, fs w' !! to_Path (PStr "data.csv") = Some (File new) /\
               (false = false ->
                new = serialized Examples.loaded_csv (to_Path (PStr "data.csv")))).
Proof.
  apply (locked_backup_is_skipped Examples.windows_backup_locked Examples.loaded_csv
           (PStr "data.csv") false false (Examples.world_of Examples.fs_data_backup)).
  - eexists. vm_compute. reflexivity.
  - intros t. vm_compute. reflexivity.
  - vm_compute. reflexivity.
Defined.

(** ** Format retention *)

Section Retention.

Variable env : Env.

(** The branch of lines 107-110 in terms of the reference file of the
    specification. *)
Lemma retain_format_step_by_reference (self : AdvancePandas)
    (file_path t : Path) (w : World) :
  retain_format_step env self file_path t true w =
  match reference_by_spec (fs w) self file_path with
  | Some reference =>
      if spreadsheet_extension reference
      then _transfer_excel_format env reference t self w
      else (Return tt, w)
  | None => (Return tt, w)
  end.
Proof.
  unfold retain_format_step, reference_by_spec, spreadsheet_extension.
  unfold bind, path_exists.
  destruct (fs w !! file_path) as [n|].
  - cbn [truthy]. destruct (Str.mem _ _); reflexivity.
  - destruct (truthy (source_file self)) eqn:Hs; [| reflexivity].
    destruct (source_file self) as [r|]; [| discriminate Hs].
    destruct (Str.mem _ _); reflexivity.
Qed.

Lemma reference_by_spec_ext (f f' : FS) (self : AdvancePandas) (file_path : Path) :
  f' !! file_path = f !! file_path ->
  reference_by_spec f' self file_path = reference_by_spec f self file_path.
Proof. unfold reference_by_spec. intros ->. reflexivity. Qed.

(** C6, as amended. The reference file is the target if it exists, else
    the recorded source path, else none. The Format Transplanter is invoked
    exactly when there is a reference and its path has the extension
    [.xlsx] or [.xls]; whether a file exists at a recorded source path is
    not looked at. With no reference, or one of another extension, no
    transplant is attempted: the save is the save without format
    retention. *)
Theorem retain_format_follows_reference
    (self : AdvancePandas) (file_path : pathlike)
    (auto_open create_backup : bool) (w : World) :
  (forall t w1,
     retain_format_step env self (to_Path file_path) t true w1 =
     match reference_by_spec (fs w1) self (to_Path file_path) with
     | Some reference =>
         if spreadsheet_extension reference
         then _transfer_excel_format env reference t self w1
         else (Return tt, w1)
     | None => (Return tt, w1)
     end) /\
  (match reference_by_spec (fs w) self (to_Path file_path) with
   | Some reference => spreadsheet_extension reference = false
   | None => True
   end ->
   _save_to_file env self file_path true auto_open create_backup w =
   _save_to_file env self file_path false auto_open create_backup w).
Proof.
  split; [intros t w1; apply retain_format_step_by_reference |].
  intros Href.
  destruct (Str.mem (PurePath.suffix (to_Path file_path)) valid_extensions) eqn:Hvalid.
  2: { rewrite !save_to_file_invalid by exact Hvalid. reflexivity. }
  rewrite !save_to_file_valid by exact Hvalid.
  set (path := to_Path file_path) in *.
  set (w0 := set_sigint ignore_keyboard_interrupt w).
  assert (Hinstall : install env self path true w0 = install env self path false w0).
  { unfold install.
    destruct (write_temp env self path w0) as [[t|e] w1] eqn:Htemp.
    2: { rewrite !(bind_Raise _ _ _ _ _ Htemp). reflexivity. }
    rewrite !(bind_step _ _ _ _ _ Htemp).
    assert (Hstep : retain_format_step env self path t true w1 = (Return tt, w1)).
    { rewrite retain_format_step_by_reference.
      rewrite (reference_by_spec_ext (fs w)).
      - destruct (reference_by_spec (fs w) self path) as [r|]; [| reflexivity].
        rewrite Href. reflexivity.
      - apply (preserves_write_temp env path) in Htemp as [-> _]; [reflexivity | |].
        + apply PathFacts.target_not_temp_dir. exact Hvalid.
        + rewrite PathFacts.length_temp_dir by exact Hvalid. lia. }
    rewrite (bind_step _ _ _ _ _ Hstep).
    rewrite (bind_step _ _ w1 tt w1 (eq_refl : retain_format_step env self path t false w1 = _)).
    reflexivity. }
  unfold try_finally, save_body.
  unfold bind at 1 5. rewrite Hinstall. reflexivity.
Qed.

(** *** A [.csv] target with a spreadsheet reference *)







End Retention.

(** ** Closed runs: format retention *)

Lemma retain_format_follows_reference_witness :
  _save_to_file Examples.posix Examples.loaded_csv (PStr "data.csv") true false false
    (Examples.world_of Examples.fs_data) =
  _save_to_file Examples.posix Examples.loaded_csv (PStr "data.csv") false false false
    (Examples.world_of Examples.fs_data).
Proof.
  apply (proj2 (retain_format_follows_reference Examples.posix Examples.loaded_csv
                  (PStr "data.csv") false false (Examples.world_of Examples.fs_data))).
  vm_compute. reflexivity.
Defined.

(** C6, the counterexample. The target [out.xlsx] does not exist and the
    recorded source [gone.xlsx] is not on disk: the reference chosen is
    [gone.xlsx], a transplant is attempted all the same, and the save fails
    with [FileNotFoundError] instead of going on with default formatting
    (as the same save without format retention does). *)
Lemma missing_source_reference_fails_the_save :
  let w := Examples.world_of Examples.fs_book in
  fs w !! ["out.xlsx"] = None /\
  fs w !! ["gone.xlsx"] = None /\
  reference_by_spec (fs w) Examples.loaded_gone ["out.xlsx"] = Some (PStr "gone.xlsx") /\
  fst (_save_to_file Examples.posix Examples.loaded_gone (PStr "out.xlsx")
         true false false w) = Raise (FileNotFoundError ["gone.xlsx"]) /\
  fs (snd (_save_to_file Examples.posix Examples.loaded_gone (PStr "out.xlsx")
             true false false w)) !! ["out.xlsx"] = None /\
  fst (_save_to_file Examples.posix Examples.loaded_gone (PStr "out.xlsx")
         false false false w) = Return tt.
Proof. vm_compute. repeat split. Qed.



(** ** The Format Transplanter on a readable reference *)

Section Transplanter.

Variable env : Env.

Lemma getitem_written (t : string) (df : DataFrame) :
  Sheet.getitem (Writer.workbook_of_frame t df) t = Some (Writer.sheet_of_frame t df).
Proof.
  unfold Sheet.getitem, Writer.workbook_of_frame. cbn [active others List.find title
    Writer.sheet_of_frame]. rewrite String.eqb_refl. reflexivity.
Qed.

(** C8. The snapshot half holds, the application half does not. For a
    reference workbook that loads, with an active sheet within the column
    range of the library, lines 134-140 capture one entry per column from 1
    to the column count, holding the width of the column and what reading
    the alignment of its row-1 cell gives. Applying it raises [TypeError]:
    the loop of lines 148-151 fails on the first cell of the first column,
    where line 151 assigns the [StyleProxy] read at line 137 without
    copying it. [_transfer_excel_format] so raises [TypeError], line 153
    is not reached, and the temporary file holds the workbook line 143
    wrote, with no width and no alignment of the reference in it. *)
Theorem transplant_application_raises_type_error
    (reference : pathlike) (temp_file_path : Path) (self : AdvancePandas)
    (w : World) (workbook : Workbook) (previous : Content) :
  load_workbook (to_Path reference) w = (Return workbook, w) ->
  Sheet.max_column (active workbook) <= ColumnLetter.max_col_index ->
  Str.mem (Str.lower (PurePath.splitext_ext (PurePath.name temp_file_path)))
    SUPPORTED_FORMATS = true ->
  fs w !! temp_file_path = Some (File previous) ->
  Transplant.column_details (default_width env) (active workbook)
  = Some (SnapshotSpec.snapshot (default_width env) (active workbook)) /\
  (forall updated,
     Transplant.apply_details
       (SnapshotSpec.snapshot (default_width env) (active workbook)) updated
     = Raise TypeError) /\
  exists w',
    _transfer_excel_format env reference temp_file_path self w = (Raise TypeError, w') /\
    fs w' !! temp_file_path
    = Some (File (Spreadsheet (Writer.workbook_of_frame (title (active workbook))
                                 (frame self)))).
Proof.
  intros Hload Hmax Hext Htemp.
  pose proof (TransplantFacts.column_details_snapshot (default_width env)
                (active workbook) Hmax) as Hsnapshot.
  split; [exact Hsnapshot |].
  split; [intros updated; apply TransplantFacts.apply_details_snapshot; exact Hmax |].
  destruct (write_file_on_file temp_file_path
              (Spreadsheet (Writer.workbook_of_frame (title (active workbook))
                              (frame self))) previous w Htemp)
    as (w1 & Hwrite & Hcontent & _).
  exists w1. split; [| exact Hcontent].
  unfold _transfer_excel_format.
  rewrite (bind_step _ _ _ _ _ Hload). cbv zeta.
  rewrite Hsnapshot. unfold or_raise at 1. unfold bind at 1, ret at 1.
  rewrite (bind_step _ _ _ _ _ Hwrite).
  assert (Hreload : load_workbook temp_file_path w1 =
                    (Return (Writer.workbook_of_frame (title (active workbook))
                               (frame self)), w1)).
  { unfold load_workbook. rewrite Hext, Hcontent. reflexivity. }
  rewrite (bind_step _ _ _ _ _ Hreload).
  rewrite getitem_written. unfold or_raise at 1. unfold bind at 1, ret at 1.
  apply bind_Raise. unfold lift.
  rewrite (TransplantFacts.apply_details_snapshot _ _ _ Hmax). reflexivity.
Qed.

End Transplanter.

Lemma transplant_application_raises_type_error_witness :
  Transplant.column_details (default_width Examples.posix) Examples.reference_sheet
  = Some (SnapshotSpec.snapshot (default_width Examples.posix) Examples.reference_sheet) /\
  (forall updated,
     Transplant.apply_details
       (SnapshotSpec.snapshot (default_width Examples.posix) Examples.reference_sheet)
       updated
     = Raise TypeError) /\
  exists w',
    _transfer_excel_format Examples.posix (PStr "book.xlsx") Examples.temp_book
      Examples.loaded_book (Examples.world_of Examples.fs_book_temp)
    = (Raise TypeError, w') /\
    fs w' !! Examples.temp_book
    = Some (File (Spreadsheet (Writer.workbook_of_frame "Ledger"
                                 (frame Examples.loaded_book)))).
Proof.
  apply (transplant_application_raises_type_error Examples.posix (PStr "book.xlsx")
           Examples.temp_book Examples.loaded_book
           (Examples.world_of Examples.fs_book_temp)
           {| active := Examples.reference_sheet; others := [] |}
           (Spreadsheet (Writer.workbook_of_frame "Sheet1" Examples.three_rows_edited))).
  - vm_compute. reflexivity.
  - assert (H : Sheet.max_column Examples.reference_sheet = 2) by (vm_compute; reflexivity).
    cbn [active]. rewrite H. unfold ColumnLetter.max_col_index. lia.
  - vm_compute. reflexivity.
  - vm_compute. reflexivity.
Defined.

(** C8 at the public entry. The workbook [book.xlsx] exists and a dataset
    loaded from it is saved back with format retention: the save raises
    [TypeError], [book.xlsx] holds the workbook it held, and the temporary
    file stays in [TemporaryFiles] with the unformatted sheet. The same
    save without format retention returns. *)
Lemma format_retention_fails_on_a_readable_workbook :
  let w := Examples.world_of Examples.fs_book in
  let run := _save_to_file Examples.posix Examples.loaded_book (PStr "book.xlsx")
               true false false w in
  fst run = Raise TypeError /\
  fs (snd run) !! ["book.xlsx"] = fs w !! ["book.xlsx"] /\
  fs (snd run) !! Examples.temp_book
  = Some (File (Spreadsheet (Writer.workbook_of_frame "Ledger"
                               (frame Examples.loaded_book)))) /\
  fst (_save_to_file Examples.posix Examples.loaded_book (PStr "book.xlsx")
         false false false w) = Return tt.
Proof. vm_compute. repeat split. Qed.

(** ** Atomicity of the replacement *)

Section Atomicity.

Variable env : Env.

Lemma bind_inv {A B} (m : M A) (k : A -> M B) w r w' :
  bind m k w = (r, w') ->
  (exists e, m w = (Raise e, w') /\ r = Raise e) \/
  (exists a w1, m w = (Return a, w1) /\ k a w1 = (r, w')).
Proof.
  unfold bind. destruct (m w) as [[a|e] w1].
  - intros H. right. eauto.
  - intros [= <- <-]. left. eauto.
Qed.

(** Where [os.rename] replaces an existing file, or the target does not
    exist, the move writes the file system at most once. *)
Lemma move_atomic (src dst : Path) w r w' :
  fs w !! dst <> Some Dir ->
  rename_replaces env = true \/ fs w !! dst = None ->
  move env src dst w = (r, w') ->
  (history w' = history w /\ fs w' = fs w) \/ history w' = fs w' :: history w.
Proof.
  intros Hdir Hok. unfold move. cbv zeta.
  destruct (fs w !! dst) as [[|c0]|] eqn:Ed; [congruence | |]; cbn [andb];
    unfold try_except, os_rename; rewrite Ed.
  - destruct Hok as [-> | Hnone]; [| discriminate Hnone].
    destruct (fs w !! src) as [n|] eqn:Es.
    + intros [= <- <-]. right. reflexivity.
    + unfold bind, copy2. rewrite Es. intros [= <- <-]. left. split; reflexivity.
  - destruct (fs w !! src) as [n|] eqn:Es.
    + intros [= <- <-]. right. reflexivity.
    + unfold bind, copy2. rewrite Es. intros [= <- <-]. left. split; reflexivity.
Qed.

Lemma replace_target_atomic (t file_path : Path) w r w' :
  fs w !! file_path <> Some Dir ->
  rename_replaces env = true \/ fs w !! file_path = None ->
  replace_target env t file_path w = (r, w') ->
  (history w' = history w /\ fs w' = fs w) \/ history w' = fs w' :: history w.
Proof.
  intros Hdir Hok Hrun. unfold replace_target in Hrun.
  apply bind_inv in Hrun as [(e & Hex & _) | (ex & w1 & Hex & Hrun)];
    [discriminate Hex |].
  unfold path_exists in Hex. injection Hex as _ <-.
  apply bind_inv in Hrun as [(e & Hwait & _) | ([] & w2 & Hwait & Hrun)].
  - left. destruct ex; [| discriminate Hwait].
    apply bind_inv in Hwait as [(e' & Hwait & _) | (b & w3 & _ & Hret)];
      [| discriminate Hret].
    split; [| eapply fs_after_wait; exact Hwait].
    unfold wait_for_file_availability in Hwait.
    destruct (poll _ _ _); [discriminate Hwait |]. injection Hwait as _ <-. reflexivity.
  - assert (Hsame : fs w2 = fs w /\ history w2 = history w).
    { destruct ex.
      - apply bind_inv in Hwait as [(e' & Hwait & [=]) | (b & w3 & Hwait & Hret)].
        injection Hret as <-. split; [eapply fs_after_wait; exact Hwait |].
        unfold wait_for_file_availability in Hwait.
        destruct (poll _ _ _); [| discriminate Hwait]. injection Hwait as _ <-.
        reflexivity.
      - injection Hwait as <-. split; reflexivity. }
    destruct Hsame as [Hfs Hh].
    apply move_atomic in Hrun; rewrite ?Hfs, ?Hh in *; assumption.
Qed.

(** X19. Where [os.rename] replaces an existing file (or the target is new),
    every state of the file system written during [_save_to_file] shows,
    at the target, either what it held before the call or what it holds
    after it: first the old states, then the new ones. *)
Theorem target_old_or_new_where_rename_replaces
    (self : AdvancePandas) (file_path : pathlike)
    (retain_format auto_open create_backup : bool) (w : World) r w' :
  rename_replaces env = true \/ fs w !! to_Path file_path = None ->
  fs w !! to_Path file_path <> Some Dir ->
  _save_to_file env self file_path retain_format auto_open create_backup w = (r, w') ->
  exists after before,
    history w' = after ++ before ++ history w /\
    Forall (fun s : FS => s !! to_Path file_path = fs w !! to_Path file_path) before /\
    Forall (fun s : FS => s !! to_Path file_path = fs w' !! to_Path file_path) after.
Proof.
  intros Hok Hdir Hrun.
  destruct (Str.mem (PurePath.suffix (to_Path file_path)) valid_extensions) eqn:Hvalid.
  2: { rewrite save_to_file_invalid in Hrun by exact Hvalid.
       injection Hrun as <- <-. exists [], []. repeat split; constructor. }
  apply save_to_file_run in Hrun as (w1 & Hbody & ->); [| exact Hvalid].
  set (path := to_Path file_path) in *.
  set (w0 := set_sigint ignore_keyboard_interrupt w) in *.
  cbn [fs history set_sigint].
  change (fs w !! path) with (fs w0 !! path) in *.
  change (history w) with (history w0).
  unfold save_body, install in Hbody.
  (* before the move *)
  assert (Hpre : forall rp wp,
            bind (write_temp env self path)
                 (fun t => retain_format_step env self path t retain_format) w0
            = (rp, wp) ->
            fs wp !! path = fs w0 !! path /\
            exists l, history wp = l ++ history w0 /\
                      Forall (fun s : FS => s !! path = fs w0 !! path) l).
  { intros rp wp H. exact (preserves_before_move env self path retain_format Hvalid _ _ _ H). }
  destruct (write_temp env self path w0) as [[t|e] wt] eqn:Htemp.
  2: { destruct (Hpre (Raise e) wt) as [Hq (l & Hl & Hall)].
       { unfold bind. rewrite Htemp. reflexivity. }
       unfold bind in Hbody. rewrite Htemp in Hbody. cbv beta iota in Hbody.
       injection Hbody as <- <-. exists [], l. cbn. repeat split; [exact Hl | exact Hall | constructor]. }
  destruct (retain_format_step env self path t retain_format wt) as [[[]|e] wr] eqn:Hretain.
  2: { destruct (Hpre (Raise e) wr) as [Hq (l & Hl & Hall)].
       { unfold bind. rewrite Htemp. exact Hretain. }
       unfold bind in Hbody. rewrite Htemp in Hbody. cbv beta iota in Hbody.
       rewrite Hretain in Hbody. cbv beta iota in Hbody.
       injection Hbody as <- <-. exists [], l. cbn. repeat split; [exact Hl | exact Hall | constructor]. }
  destruct (Hpre (Return tt) wr) as [Hq (l & Hl & Hall)].
  { unfold bind. rewrite Htemp. exact Hretain. }
  (* the move *)
  destruct (replace_target env t path wr) as [rm wm] eqn:Hmove.
  pose proof (replace_target_atomic t path wr rm wm
                ltac:(rewrite Hq; exact Hdir)
                ltac:(rewrite Hq; exact Hok) Hmove) as Hatomic.
  assert (Hrest : (bind (backup_step env path create_backup)
                     (fun _ => if auto_open then startfile path else ret tt)) wm = (r, w1)
                  \/ (exists e, rm = Raise e /\ r = Raise e /\ w1 = wm)).
  { unfold bind in Hbody |- *. rewrite Htemp in Hbody. cbv beta iota in Hbody.
    rewrite Hretain in Hbody. cbv beta iota in Hbody.
    rewrite Hmove in Hbody. cbv beta iota in Hbody.
    destruct rm as [[]|e]; [left; exact Hbody | right].
    injection Hbody as <- <-. eauto. }
  assert (Hmid : exists lm, history wm = lm ++ l ++ history w0 /\
                            Forall (fun s : FS => s !! path = fs wm !! path) lm /\
                            (lm = [] -> fs wm !! path = fs w0 !! path)).
  { destruct Hatomic as [[Hh Hf] | Hh].
    - exists []. cbn. rewrite Hh, Hl. repeat split; [constructor |].
      intros _. rewrite Hf. exact Hq.
    - exists [fs wm]. cbn. rewrite Hh, Hl. repeat split; [| discriminate].
      repeat constructor. }
  destruct Hmid as (lm & Hhm & Hlm & _).
  destruct Hrest as [Hrest | (e & -> & -> & ->)].
  2: { exists lm, l. repeat split; assumption. }
  (* after the move *)
  assert (Hpost : preserves path
            (bind (backup_step env path create_backup)
                  (fun _ => if auto_open then startfile path else ret tt))).
  { apply preserves_bind; [apply preserves_backup_step; exact Hvalid |].
    intros _. apply preserves_open_step. }
  destruct (Hpost _ _ _ Hrest) as [Hq1 (lp & Hlp & Hallp)].
  exists (lp ++ lm), l. split; [| split].
  - rewrite Hlp, Hhm. rewrite <- app_assoc. reflexivity.
  - exact Hall.
  - apply Forall_app. split.
    + eapply Forall_impl; [exact Hallp |]. cbn. intros s Hs. congruence.
    + eapply Forall_impl; [exact Hlm |]. cbn. intros s Hs. congruence.
Qed.

End Atomicity.

(** C2. On Windows [os.rename] does not replace an existing file, so
    [shutil.move] falls back to copying the temporary file over the target.
    Saving the edited [data.csv] over the existing [data.csv]: the save
    returns and the target ends with the new content, but the states the
    file system went through show, at [data.csv] and newest first: the new
    content twice, then a truncated, empty file, then the previous content.
    In one state the target is neither the previous nor the new content. *)
Theorem target_truncated_during_save_on_windows :
  let w := Examples.world_of Examples.fs_data in
  let run := _save_to_file Examples.windows Examples.loaded_csv (PStr "data.csv")
               false false false w in
  let old := Some (File (Delimited Examples.three_rows)) in
  let new := Some (File (Delimited Examples.three_rows_edited)) in
  fst run = Return tt /\
  fs w !! ["data.csv"] = old /\
  fs (snd run) !! ["data.csv"] = new /\
  (fun s : FS => s !! ["data.csv"]) <$> history (snd run)
    = [new; new; Some (File Blank); old; old; old; old] /\
  In (Some (File Blank)) ((fun s : FS => s !! ["data.csv"]) <$> history (snd run)).
Proof.
  cbv zeta.
  assert (H : (fun s : FS => s !! ["data.csv"])
              <$> history (snd (_save_to_file Examples.windows Examples.loaded_csv
                                  (PStr "data.csv") false false false
                                  (Examples.world_of Examples.fs_data)))
              = [Some (File (Delimited Examples.three_rows_edited));
                 Some (File (Delimited Examples.three_rows_edited));
                 Some (File Blank);
                 Some (File (Delimited Examples.three_rows));
                 Some (File (Delimited Examples.three_rows));
                 Some (File (Delimited Examples.three_rows));
                 Some (File (Delimited Examples.three_rows))])
    by (vm_compute; reflexivity).
  split; [vm_compute; reflexivity |].
  split; [vm_compute; reflexivity |].
  split; [vm_compute; reflexivity |].
  split; [exact H |].
  rewrite H. right. right. left. reflexivity.
Qed.

Lemma target_old_or_new_where_rename_replaces_witness :
  exists after before,
    history (snd (_save_to_file Examples.posix Examples.loaded_csv (PStr "data.csv")
                    false false false (Examples.world_of Examples.fs_data)))
    = after ++ before ++ history (Examples.world_of Examples.fs_data) /\
    Forall (fun s : FS => s !! to_Path (PStr "data.csv")
                          = fs (Examples.world_of Examples.fs_data)
                              !! to_Path (PStr "data.csv")) before /\
    Forall (fun s : FS => s !! to_Path (PStr "data.csv")
                          = fs (snd (_save_to_file Examples.posix Examples.loaded_csv
                                       (PStr "data.csv") false false false
                                       (Examples.world_of Examples.fs_data)))
                              !! to_Path (PStr "data.csv")) after.
Proof.
  apply (target_old_or_new_where_rename_replaces Examples.posix Examples.loaded_csv
           (PStr "data.csv") false false false (Examples.world_of Examples.fs_data)
           (Return tt)).
  - left. reflexivity.
  - vm_compute. discriminate.
  - vm_compute. reflexivity.
Defined.

(** ** The reader *)

Section ReaderFacts.

Variable env : Env.
Variable read_table : Workbook -> DataFrame.

Lemma read_csv_world (p : Path) w r w' : read_csv p w = (r, w') -> w' = w.
Proof. unfold read_csv. repeat case_match; intros [= <- <-]; reflexivity. Qed.

Lemma read_excel_world (p : Path) w r w' :
  read_excel read_table p w = (r, w') -> w' = w.
Proof. unfold read_excel. repeat case_match; intros [= <- <-]; reflexivity. Qed.

Lemma continue_from_run (source_file : Path) (destination_file : option pathlike)
    (continue_from_saved : bool) (w : World) :
  continue_from source_file destination_file continue_from_saved w =
  (Return
     match destination_file with
     | Some d =>
         if continue_from_saved && truthy destination_file
         then (if match fs w !! to_Path d with Some _ => true | None => false end
               then to_Path d else source_file,
               Some (PPath (to_Path d)))
         else (source_file, destination_file)
     | None => (source_file, destination_file)
     end, w).
Proof.
  unfold continue_from.
  destruct destination_file as [d|]; [| destruct continue_from_saved; reflexivity].
  destruct (continue_from_saved && truthy (Some d)); reflexivity.
Qed.

(** X1. [AdvanceExcelReader] only reads: whatever it returns or raises,
    the world after the call is the world before it (no file is written,
    no dialog shown, no handler changed). *)
Theorem reader_never_changes_the_world
    (source_file : pathlike) (destination_file : option pathlike)
    (continue_from_saved : bool) (w : World) :
  snd (AdvanceExcelReader read_table source_file destination_file
         continue_from_saved w) = w.
Proof.
  unfold AdvanceExcelReader. cbv zeta. unfold bind at 1. unfold path_exists at 1.
  destruct (negb _ && negb _); [reflexivity |].
  unfold bind at 1. rewrite continue_from_run.
  set (chosen := match destination_file with Some _ => _ | None => _ end).
  unfold bind, ret.
  destruct (String.eqb (PurePath.suffix (fst chosen)) ".csv").
  - destruct (read_csv (fst chosen) w) as [[df|e] w1] eqn:E;
      apply read_csv_world in E as ->; reflexivity.
  - destruct (read_excel read_table (fst chosen) w) as [[df|e] w1] eqn:E;
      apply read_excel_world in E as ->; reflexivity.
Qed.

(** X2. Without [continue_from_saved], a source path at which nothing
    exists makes the reader raise [FileNotFoundError] for that path, before
    anything is read. *)
Theorem reader_raises_on_missing_source
    (source_file : pathlike) (destination_file : option pathlike) (w : World) :
  fs w !! to_Path source_file = None ->
  AdvanceExcelReader read_table source_file destination_file false w
  = (Raise (FileNotFoundError (to_Path source_file)), w).
Proof.
  intros Hmissing. unfold AdvanceExcelReader. cbv zeta.
  unfold bind at 1. unfold path_exists at 1. rewrite Hmissing. reflexivity.
Qed.

(** What the file at [p] is read as (line 178). *)
Lemma reader_reads (p : Path) (w : World) (df : DataFrame) w' :
  (if String.eqb (PurePath.suffix p) ".csv" then read_csv p
   else read_excel read_table p) w = (Return df, w') ->
  fs w !! p = Some (File (Delimited df)) \/
  exists wb, fs w !! p = Some (File (Spreadsheet wb)) /\ df = read_table wb.
Proof.
  destruct (String.eqb (PurePath.suffix p) ".csv").
  - unfold read_csv. destruct (fs w !! p) as [[|[|d|wb]]|]; try discriminate.
    destruct (columns d); intros [= <- <-]. left. reflexivity.
  - unfold read_excel. destruct (fs w !! p) as [[|[|d|wb]]|]; intros [= <- <-].
    right. eauto.
Qed.

Lemma reader_Return (source : pathlike) (destination : option pathlike)
    (continue_from_saved : bool) (w : World) ds w' :
  AdvanceExcelReader read_table source destination continue_from_saved w
  = (Return ds, w') ->
  exists p d,
    continue_from (to_Path source) destination continue_from_saved w
    = (Return (p, d), w) /\
    source_file ds = Some (PPath p) /\ destination_file ds = d /\
    (fs w !! p = Some (File (Delimited (frame ds))) \/
     exists wb, fs w !! p = Some (File (Spreadsheet wb)) /\ frame ds = read_table wb).
Proof.
  unfold AdvanceExcelReader. cbv zeta. unfold bind at 1. unfold path_exists at 1.
  destruct (negb _ && negb _); [discriminate |].
  unfold bind at 1. rewrite continue_from_run.
  set (chosen := match destination with Some _ => _ | None => _ end).
  intros Hrun. apply bind_Return in Hrun as (df & w1 & Hread & Hret).
  unfold ret in Hret. injection Hret as <- <-.
  exists (fst chosen), (snd chosen).
  split; [destruct chosen; reflexivity |].
  split; [reflexivity |]. split; [reflexivity |].
  eapply reader_reads. exact Hread.
Qed.

(** X3. Continuing from a saved destination that exists: the dataset is
    read from the destination file, not from the source (which need not
    exist), and both its [source_file] and its [destination_file] are the
    destination path; the original source path is not recorded. *)
Theorem reader_resumes_from_saved_destination
    (source destination : pathlike) (w : World) ds w' :
  truthy (Some destination) = true ->
  is_Some (fs w !! to_Path destination) ->
  AdvanceExcelReader read_table source (Some destination) true w
  = (Return ds, w') ->
  source_file ds = Some (PPath (to_Path destination)) /\
  destination_file ds = Some (PPath (to_Path destination)) /\
  (fs w !! to_Path destination = Some (File (Delimited (frame ds))) \/
   exists wb, fs w !! to_Path destination = Some (File (Spreadsheet wb)) /\
              frame ds = read_table wb).
Proof.
  intros Htruthy [n Hexists] Hrun.
  apply reader_Return in Hrun as (p & d & Hchosen & Hsrc & Hdst & Hframe).
  rewrite continue_from_run, Htruthy, Hexists in Hchosen. cbn in Hchosen.
  injection Hchosen as <- <-. auto.
Qed.

(** X4. Without [continue_from_saved] the destination is recorded as it
    was given and never looked at: the dataset is read from the source
    path, which becomes its [source_file]. *)
Theorem reader_reads_source_and_records_destination
    (source : pathlike) (destination : option pathlike) (w : World) ds w' :
  AdvanceExcelReader read_table source destination false w
  = (Return ds, w') ->
  source_file ds = Some (PPath (to_Path source)) /\
  destination_file ds = destination /\
  (fs w !! to_Path source = Some (File (Delimited (frame ds))) \/
   exists wb, fs w !! to_Path source = Some (File (Spreadsheet wb)) /\
              frame ds = read_table wb).
Proof.
  intros Hrun.
  apply reader_Return in Hrun as (p & d & Hchosen & Hsrc & Hdst & Hframe).
  rewrite continue_from_run in Hchosen.
  destruct destination as [d0|]; cbn in Hchosen; injection Hchosen as <- <-; auto.
Qed.

Lemma save_goes_to_destination (self : AdvancePandas) (d : pathlike)
    (async_mode retain_format auto_open create_backup : bool) (w : World) :
  destination_file self = Some d -> truthy (Some d) = true ->
  save env self None async_mode retain_format auto_open create_backup w =
  dispatch env self d async_mode retain_format auto_open create_backup w.
Proof.
  intros Hd Ht. unfold save, resolve_file_path, dispatch. cbn [truthy negb].
  rewrite Hd, Ht. unfold bind at 1. unfold ret at 1.
  destruct async_mode; reflexivity.
Qed.

(** X5. A dataset read with a destination saves there: whether or not
    the reader was told to continue from the saved file, [save()] without
    a path goes straight to the recorded destination ([_save_to_file], or
    a worker in async mode) and shows no dialog. The destination is
    recorded as it was given, or as the [Path] of line 174 under
    [continue_from_saved]. *)
Theorem dataset_read_with_destination_saves_there
    (source destination : pathlike) (continue_from_saved : bool)
    (async_mode retain_format auto_open create_backup : bool) (w w1 w2 : World) ds :
  truthy (Some destination) = true ->
  AdvanceExcelReader read_table source (Some destination) continue_from_saved w
  = (Return ds, w1) ->
  save env ds None async_mode retain_format auto_open create_backup w2 =
  dispatch env ds
    (if continue_from_saved then PPath (to_Path destination) else destination)
    async_mode retain_format auto_open create_backup w2.
Proof.
  intros Ht Hread.
  apply reader_Return in Hread as (p & d & Hchosen & _ & Hdst & _).
  rewrite continue_from_run, Ht in Hchosen.
  destruct continue_from_saved; cbn in Hchosen; injection Hchosen as _ <-;
    apply save_goes_to_destination; first [assumption | reflexivity].
Qed.

End ReaderFacts.

(** ** Dialogs, launched files and workers *)

Section Logs.

Variable env : Env.

Lemma keeps_logs_ret {A} (a : A) : keeps_logs (ret a).
Proof. intros w r w' [= <- <-]. repeat split. Qed.

Lemma keeps_logs_raise {A} (e : Exn) : keeps_logs (@raise A e).
Proof. intros w r w' [= <- <-]. repeat split. Qed.

Lemma keeps_logs_bind {A B} (m : M A) (k : A -> M B) :
  keeps_logs m -> (forall a, keeps_logs (k a)) -> keeps_logs (bind m k).
Proof.
  intros Hm Hk w r w' Hrun. unfold bind in Hrun.
  destruct (m w) as [[a|e] w1] eqn:E.
  - destruct (Hm _ _ _ E) as (H1 & H2 & H3).
    destruct (Hk a _ _ _ Hrun) as (H4 & H5 & H6). repeat split; congruence.
  - injection Hrun as <- <-. exact (Hm _ _ _ E).
Qed.

Lemma keeps_logs_try_except {A} (m handler : M A) :
  keeps_logs m -> keeps_logs handler -> keeps_logs (try_except m handler).
Proof.
  intros Hm Hk w r w' Hrun. unfold try_except in Hrun.
  destruct (m w) as [[a|e] w1] eqn:E.
  - injection Hrun as <- <-. exact (Hm _ _ _ E).
  - destruct (Hm _ _ _ E) as (H1 & H2 & H3).
    destruct (Hk _ _ _ Hrun) as (H4 & H5 & H6). repeat split; congruence.
Qed.

Ltac logs_of_call :=
  let w := fresh "w" in
  intros w ? ?;
  repeat match goal with
         | |- context [match ?x with _ => _ end] => destruct x
         end;
  intros [= <- <-]; repeat split.

Lemma keeps_logs_commit (f : FS) : keeps_logs (commit f).
Proof. intros w r w' [= <- <-]. repeat split. Qed.

Lemma keeps_logs_signal (h : Handler) : keeps_logs (signal_signal h).
Proof. intros w r w' [= <- <-]. repeat split. Qed.

Lemma keeps_logs_path_exists (p : Path) : keeps_logs (path_exists p).
Proof. intros w r w' [= <- <-]. repeat split. Qed.

Lemma keeps_logs_wait (p : Path) (b : bool) :
  keeps_logs (wait_for_file_availability env p b).
Proof. unfold wait_for_file_availability. logs_of_call. Qed.

Lemma keeps_logs_load_workbook (p : Path) : keeps_logs (load_workbook p).
Proof. unfold load_workbook. logs_of_call. Qed.

Lemma keeps_logs_or_raise {A} (e : Exn) (o : option A) : keeps_logs (or_raise e o).
Proof. destruct o; [apply keeps_logs_ret | apply keeps_logs_raise]. Qed.

Lemma keeps_logs_lift {A} (o : Outcome A) : keeps_logs (lift o).
Proof. destruct o; [apply keeps_logs_ret | apply keeps_logs_raise]. Qed.

Lemma keeps_logs_mkdir (p : Path) : keeps_logs (mkdir_exist_ok p).
Proof. unfold mkdir_exist_ok, commit. logs_of_call. Qed.

Lemma keeps_logs_write_file (p : Path) (c : Content) : keeps_logs (write_file p c).
Proof. unfold write_file, truncate_and_write, bind, commit. logs_of_call. Qed.

Lemma keeps_logs_mkstemp (fuel : nat) (dir : Path) (sfx : string) :
  keeps_logs (mkstemp_inner env fuel dir sfx).
Proof.
  induction fuel as [|fuel IH]; [apply keeps_logs_raise |].
  intros w r w'. cbn [mkstemp_inner]. destruct (fs w !! _).
  - intros H. apply IH in H. exact H.
  - intros [= <- <-]. repeat split.
Qed.

Lemma keeps_logs_os_rename (src dst : Path) : keeps_logs (os_rename env src dst).
Proof. unfold os_rename, commit. logs_of_call. Qed.

Lemma keeps_logs_os_unlink (p : Path) : keeps_logs (os_unlink p).
Proof. unfold os_unlink, commit. logs_of_call. Qed.

Lemma keeps_logs_copy2 (src dst : Path) : keeps_logs (copy2 src dst).
Proof.
  intros w r w'. unfold copy2. cbv zeta.
  destruct (fs w !! src) as [[|c]|]; try (intros [= <- <-]; repeat split).
  apply keeps_logs_write_file.
Qed.

Lemma keeps_logs_move (src dst : Path) : keeps_logs (move env src dst).
Proof.
  intros w r w'. unfold move. cbv zeta. destruct (_ && _).
  - intros [= <- <-]. repeat split.
  - apply keeps_logs_try_except; [apply keeps_logs_os_rename |].
    apply keeps_logs_bind; [apply keeps_logs_copy2 | intros _; apply keeps_logs_os_unlink].
Qed.

Lemma keeps_logs_transfer (reference : pathlike) (t : Path) (self : AdvancePandas) :
  keeps_logs (_transfer_excel_format env reference t self).
Proof.
  unfold _transfer_excel_format.
  repeat (apply keeps_logs_bind;
          [first [apply keeps_logs_load_workbook | apply keeps_logs_or_raise
                 | apply keeps_logs_lift | apply keeps_logs_write_file]
          | intros ?]).
  apply keeps_logs_write_file.
Qed.

Lemma keeps_logs_install (self : AdvancePandas) (file_path : Path)
    (retain_format : bool) :
  keeps_logs (install env self file_path retain_format).
Proof.
  unfold install, write_temp, retain_format_step, replace_target. cbv zeta.
  apply keeps_logs_bind.
  { apply keeps_logs_bind; [apply keeps_logs_mkdir | intros _].
    apply keeps_logs_bind; [exact (keeps_logs_mkstemp TMP_MAX _ _) | intros t].
    apply keeps_logs_bind; [| intros _; apply keeps_logs_ret].
    unfold to_csv, to_excel.
    repeat case_match; first [apply keeps_logs_write_file | apply keeps_logs_ret]. }
  intros t. apply keeps_logs_bind.
  { destruct retain_format; [| apply keeps_logs_ret].
    apply keeps_logs_bind; [apply keeps_logs_path_exists | intros ex].
    repeat case_match; first [apply keeps_logs_transfer | apply keeps_logs_ret]. }
  intros _. apply keeps_logs_bind; [apply keeps_logs_path_exists | intros ex].
  apply keeps_logs_bind; [| intros _; apply keeps_logs_move].
  destruct ex; [| apply keeps_logs_ret].
  apply keeps_logs_bind; [apply keeps_logs_wait | intros _; apply keeps_logs_ret].
Qed.

Lemma keeps_logs_backup_step (file_path : Path) (create_backup : bool) :
  keeps_logs (backup_step env file_path create_backup).
Proof.
  unfold backup_step. destruct create_backup; [| apply keeps_logs_ret].
  apply keeps_logs_bind; [apply keeps_logs_or_raise | intros bk].
  apply keeps_logs_bind; [apply keeps_logs_path_exists | intros ex].
  apply keeps_logs_bind;
    [destruct ex; [apply keeps_logs_wait | apply keeps_logs_ret] |].
  intros [|]; [apply keeps_logs_copy2 | apply keeps_logs_ret].
Qed.

(** X6. [_save_to_file] hands the target to [startfile] exactly when
    [auto_open] is set and everything before has succeeded, once and as
    the last step; on any failure, and without [auto_open], nothing is
    launched. It never starts a worker. *)
Theorem auto_open_launches_the_saved_target
    (self : AdvancePandas) (file_path : pathlike)
    (retain_format auto_open create_backup : bool) (w : World) r w' :
  _save_to_file env self file_path retain_format auto_open create_backup w = (r, w') ->
  spawned w' = spawned w /\
  launched w' = match r with
                | Return _ => if auto_open then to_Path file_path :: launched w
                              else launched w
                | Raise _ => launched w
                end.
Proof.
  intros Hrun.
  destruct (Str.mem (PurePath.suffix (to_Path file_path)) valid_extensions) eqn:Hvalid.
  2: { rewrite save_to_file_invalid in Hrun by exact Hvalid.
       injection Hrun as <- <-. split; reflexivity. }
  apply save_to_file_run in Hrun as (w1 & Hbody & ->); [| exact Hvalid].
  cbn [spawned launched set_sigint].
  set (w0 := set_sigint ignore_keyboard_interrupt w) in *.
  change (spawned w) with (spawned w0).
  change (launched w) with (launched w0).
  unfold save_body in Hbody.
  assert (Hpre : keeps_logs (bind (install env self (to_Path file_path) retain_format)
                               (fun _ => backup_step env (to_Path file_path) create_backup))).
  { apply keeps_logs_bind; [apply keeps_logs_install |].
    intros _. apply keeps_logs_backup_step. }
  unfold bind in Hbody.
  destruct (install env self (to_Path file_path) retain_format w0)
    as [[[]|e] wa] eqn:Hinstall.
  2: { injection Hbody as <- <-.
       destruct (Hpre w0 (Raise e) wa) as (H1 & H2 & H3).
       { unfold bind. rewrite Hinstall. reflexivity. }
       split; assumption. }
  destruct (backup_step env (to_Path file_path) create_backup wa)
    as [[[]|e] wb] eqn:Hbackup.
  2: { injection Hbody as <- <-.
       destruct (Hpre w0 (Raise e) wb) as (H1 & H2 & H3).
       { unfold bind. rewrite Hinstall. exact Hbackup. }
       split; assumption. }
  destruct (Hpre w0 (Return tt) wb) as (H1 & H2 & H3).
  { unfold bind. rewrite Hinstall. exact Hbackup. }
  destruct auto_open.
  - unfold startfile in Hbody. destruct (fs wb !! to_Path file_path);
      injection Hbody as <- <-; cbn [spawned launched set_launched];
      split; try assumption; f_equal; assumption.
  - injection Hbody as <- <-. split; assumption.
Qed.

(** X7. In async mode [save] itself writes nothing and cannot fail on the
    file: with a path given it returns after starting one worker that
    carries the path and the three flags, whatever the extension of the
    path; the file system, its log and the SIGINT handler of the caller
    are untouched. *)
Theorem async_save_only_starts_a_worker
    (self : AdvancePandas) (file_path : pathlike)
    (retain_format auto_open create_backup : bool) (w : World) :
  truthy (Some file_path) = true ->
  let '(r, w') := save env self (Some file_path) true retain_format auto_open
                    create_backup w in
  r = Return tt /\
  spawned w' = {| job_path := Some file_path; job_retain_format := retain_format;
                  job_auto_open := auto_open; job_create_backup := create_backup |}
               :: spawned w /\
  fs w' = fs w /\ history w' = history w /\ sigint w' = sigint w /\
  launched w' = launched w /\ dialogs w' = dialogs w.
Proof.
  intros Ht. unfold save, resolve_file_path. rewrite Ht. cbn [negb].
  unfold bind, ret, Process_start. cbn. repeat split.
Qed.

End Logs.

(** ** What a save leaves alone *)

Section Frame.

Variable env : Env.

Lemma preserves_move_outside (q src dst : Path) :
  q <> src -> ~ dst `prefix_of` q -> preserves q (move env src dst).
Proof.
  intros Hs Hout w r w'. unfold move. cbv zeta.
  set (is_dir := match fs w !! dst with Some Dir => true | _ => false end).
  set (real_dst := if is_dir then _ else dst).
  assert (Hr : q <> real_dst).
  { intros ->. apply Hout. subst real_dst. destruct is_dir.
    - eexists. reflexivity.
    - exists []. symmetry. apply app_nil_r. }
  assert (Hrc : forall n, q <> PurePath.joinpath real_dst n).
  { intros n ->. apply Hout. unfold PurePath.joinpath. subst real_dst.
    destruct is_dir.
    - unfold PurePath.joinpath. rewrite <- app_assoc. eexists. reflexivity.
    - eexists. reflexivity. }
  destruct (is_dir && _).
  - intros [= <- <-]; split; [reflexivity |]; exists []; split; [reflexivity | constructor].
  - apply preserves_try_except.
    + apply preserves_os_rename; assumption.
    + apply preserves_bind; [apply preserves_copy2; assumption |].
      intros _. apply preserves_os_unlink. exact Hs.
Qed.

Lemma preserves_replace_target_outside (q t file_path : Path) :
  q <> t -> ~ file_path `prefix_of` q ->
  preserves q (replace_target env t file_path).
Proof.
  intros Ht Hout. unfold replace_target.
  apply preserves_bind; [apply preserves_path_exists | intros ex].
  apply preserves_bind; [| intros _; apply preserves_move_outside; assumption].
  destruct ex; [| apply preserves_ret].
  apply preserves_bind; [apply preserves_wait | intros _; apply preserves_ret].
Qed.

Lemma preserves_backup_step_outside (q file_path : Path) (create_backup : bool) :
  ~ backup_path_of file_path `prefix_of` q ->
  preserves q (backup_step env file_path create_backup).
Proof.
  intros Hout. unfold backup_step. destruct create_backup; [| apply preserves_ret].
  apply (preserves_bind_post q _ _ (fun bk => bk = backup_path_of file_path)).
  - apply preserves_or_raise.
  - intros w bk w'. unfold PurePath.with_name, or_raise.
    destruct (String.eqb (PurePath.name file_path) ""); [discriminate |].
    intros [= <- <-]. reflexivity.
  - intros bk ->.
    apply preserves_bind; [apply preserves_path_exists | intros ex].
    apply preserves_bind;
      [destruct ex; [apply preserves_wait | apply preserves_ret] |].
    intros [|]; [| apply preserves_ret].
    apply preserves_copy2.
    + intros ->. apply Hout. exists []. symmetry. apply app_nil_r.
    + intros n ->. apply Hout. eexists. reflexivity.
Qed.

(** The temporary file is created under a name at which nothing existed,
    and nothing else is changed by its creation. *)
Lemma mkstemp_fs (fuel : nat) (dir : Path) (sfx : string) w r w' :
  mkstemp_inner env fuel dir sfx w = (r, w') ->
  (fs w' = fs w /\ exists e, r = Raise e) \/
  (exists t, r = Return t /\ fs w !! t = None /\
             fs w' = <[t := File Blank]> (fs w) /\
             exists n, t = PurePath.joinpath dir n).
Proof.
  revert w. induction fuel as [|fuel IH]; intros w; cbn [mkstemp_inner].
  - intros [= <- <-]. left. eauto.
  - destruct (fs w !! _) as [n|] eqn:E.
    + intros H. apply IH in H. exact H.
    + intros [= <- <-]. right. eexists. split; [reflexivity |].
      split; [exact E |]. split; [reflexivity |]. eauto.
Qed.

Lemma NamedTemporaryFile_fs (sfx : string) (dir : Path) w r w' :
  NamedTemporaryFile env sfx dir w = (r, w') ->
  (fs w' = fs w /\ exists e, r = Raise e) \/
  (exists t, r = Return t /\ fs w !! t = None /\
             fs w' = <[t := File Blank]> (fs w) /\
             exists n, t = PurePath.joinpath dir n).
Proof. exact (mkstemp_fs TMP_MAX dir sfx w r w'). Qed.

Lemma mkdir_fs (p : Path) w r w' :
  mkdir_exist_ok p w = (r, w') ->
  forall q, q <> p -> fs w' !! q = fs w !! q.
Proof.
  intros Hrun q Hq. exact (proj1 (preserves_mkdir q p Hq _ _ _ Hrun)).
Qed.

Lemma preserves_serialize (q t : Path) (self : AdvancePandas) (sfx : string) :
  q <> t ->
  preserves q (if String.eqb sfx ".csv" then to_csv self t
               else if String.eqb sfx ".xlsx" then to_excel self t
               else ret tt).
Proof.
  intros Hne. unfold to_csv, to_excel.
  destruct (String.eqb sfx ".csv"); [apply preserves_write_file; exact Hne |].
  destruct (String.eqb sfx ".xlsx"); [apply preserves_write_file; exact Hne |].
  apply preserves_ret.
Qed.

(** Lines 96-105 write, besides the directory of the temporary files, the
    one temporary file they create, at a path where nothing was. *)
Lemma write_temp_fs (self : AdvancePandas) (file_path : Path) w r w' :
  write_temp env self file_path w = (r, w') ->
  exists created : option Path,
    (forall q, q <> temp_dir_of file_path -> Some q <> created ->
               fs w' !! q = fs w !! q) /\
    (forall t, created = Some t -> is_temp_of file_path t /\ fs w !! t = None) /\
    (forall t, r = Return t -> created = Some t).
Proof.
  unfold write_temp. cbv zeta. fold (temp_dir_of file_path). intros Hrun.
  apply bind_inv in Hrun as [(e & Hmk & ->) | ([] & w1 & Hmk & Hrun)].
  { exists None. split; [| split; intros; discriminate].
    intros q Hq _. eapply mkdir_fs; eassumption. }
  apply bind_inv in Hrun as [(e & Htemp & ->) | (t & w2 & Htemp & Hrun)].
  { pose proof (NamedTemporaryFile_fs _ _ _ _ _ Htemp) as [[Hfs _] | (t & [=] & _)].
    exists None. split; [| split; intros; discriminate].
    intros q Hq _. rewrite Hfs. eapply mkdir_fs; eassumption. }
  pose proof (NamedTemporaryFile_fs _ _ _ _ _ Htemp)
    as [[_ [e [=]]] | (t' & [= <-] & Hfresh & Hfs & n & Hn)].
  assert (Hshape : is_temp_of file_path t).
  { apply NamedTemporaryFile_Return in Htemp as [Hshape _]. exact Hshape. }
  assert (Hnd : t <> temp_dir_of file_path).
  { intros Heq. apply is_temp_length in Hshape. rewrite Heq in Hshape. lia. }
  exists (Some t). split; [| split].
  - intros q Hq Hqt. assert (q <> t) by congruence.
    assert (Hrest : fs w' !! q = fs w2 !! q).
    { apply bind_inv in Hrun as [(e & Hw & _) | ([] & w3 & Hw & Hret)].
      - exact (proj1 (preserves_serialize q t self _ ltac:(assumption) _ _ _ Hw)).
      - unfold ret in Hret. injection Hret as _ <-.
        exact (proj1 (preserves_serialize q t self _ ltac:(assumption) _ _ _ Hw)). }
    rewrite Hrest, Hfs, lookup_insert_ne by congruence.
    eapply mkdir_fs; eassumption.
  - intros t0 [= <-]. split; [exact Hshape |].
    rewrite <- (mkdir_fs _ _ _ _ Hmk t Hnd). exact Hfresh.
  - intros t0 Hr. apply bind_inv in Hrun as [(e & _ & ->) | ([] & w3 & _ & Hret)];
      [discriminate Hr |].
    unfold ret in Hret. injection Hret as <- _. injection Hr as <-. reflexivity.
Qed.

End Frame.

(** ** The target, the temporary files and every other path after a save *)

Section FrameTheorems.

Variable env : Env.

Lemma sibling_not_prefix (p d l : Path) :
  length p = length d -> p <> d -> length l <= 1 -> ~ p `prefix_of` (d ++ l).
Proof.
  intros Hlen Hne Hl [k Hk].
  assert (Hk' : length k = length l).
  { apply (f_equal length) in Hk. rewrite !length_app in Hk. lia. }
  destruct l as [|n [|? ?]]; [| | cbn in Hl; lia].
  - destruct k; [| discriminate Hk']. rewrite !app_nil_r in Hk. congruence.
  - destruct k as [|x [|? ?]]; try discriminate Hk'.
    apply app_inj_tail in Hk as [Hk _]. congruence.
Qed.

Lemma move_Return_src (src dst : Path) w w' :
  ~ dst `prefix_of` src ->
  move env src dst w = (Return tt, w') -> fs w' !! src = None.
Proof.
  intros Hout. unfold move. cbv zeta.
  set (is_dir := match fs w !! dst with Some Dir => true | _ => false end).
  set (real_dst := if is_dir then _ else dst).
  assert (Hr : src <> real_dst).
  { intros Heq. apply Hout. rewrite Heq. subst real_dst. destruct is_dir.
    - eexists. reflexivity.
    - exists []. symmetry. apply app_nil_r. }
  destruct (is_dir && _); [discriminate |].
  unfold try_except.
  destruct (os_rename env src real_dst w) as [[[]|e] w1] eqn:Er.
  - intros [= <-]. unfold os_rename in Er.
    destruct (fs w !! src) as [n|]; [| discriminate].
    assert (Hw1 : fs w1 = <[real_dst := n]> (delete src (fs w))).
    { repeat case_match; try discriminate; injection Er as <-; reflexivity. }
    rewrite Hw1, lookup_insert_ne by congruence. apply lookup_delete_eq.
  - intros Hrun. apply bind_Return in Hrun as ([] & w2 & _ & Hunlink).
    unfold os_unlink in Hunlink. destruct (fs w2 !! src); [| discriminate].
    injection Hunlink as <-. cbn. apply lookup_delete_eq.
Qed.

Lemma mkdir_Return (p : Path) w w' :
  mkdir_exist_ok p w = (Return tt, w') -> fs w' !! p = Some Dir.
Proof.
  unfold mkdir_exist_ok. destruct (fs w !! p) as [[|c]|] eqn:Ep.
  - intros [= <-]. exact Ep.
  - discriminate.
  - destruct (fs w !! PurePath.parent p) as [[|c]|]; try discriminate.
    intros [= <-]. cbn. apply lookup_insert_eq.
Qed.

Lemma write_temp_dir (self : AdvancePandas) (file_path : Path) w t w' :
  write_temp env self file_path w = (Return t, w') ->
  fs w' !! temp_dir_of file_path = Some Dir.
Proof.
  intros Hrun. pose proof (write_temp_Return_any env _ _ _ _ _ Hrun) as Hshape.
  unfold write_temp in Hrun. cbv zeta in Hrun. fold (temp_dir_of file_path) in Hrun.
  apply bind_Return in Hrun as ([] & w1 & Hmk & Hrun).
  apply mkdir_Return in Hmk.
  assert (Hrest : preserves (temp_dir_of file_path)
            (temp_file_path <- NamedTemporaryFile env (PurePath.suffix file_path)
                                 (temp_dir_of file_path) ;;
             (if String.eqb (PurePath.suffix file_path) ".csv"
              then to_csv self temp_file_path
              else if String.eqb (PurePath.suffix file_path) ".xlsx"
                   then to_excel self temp_file_path
                   else ret tt) ;;
             ret temp_file_path)).
  { eapply (preserves_bind_post _ _ _ (is_temp_of file_path)).
    - apply preserves_NamedTemporaryFile. intros n.
      apply not_inside; [lia | discriminate].
    - intros w0 t0 w0' H0. apply NamedTemporaryFile_Return in H0 as [H0 _]. exact H0.
    - intros t0 Ht0. apply is_temp_length in Ht0.
      apply preserves_bind; [| intros _; apply preserves_ret].
      apply preserves_serialize. intros Heq. rewrite <- Heq in Ht0. lia. }
  destruct (Hrest _ _ _ Hrun) as [-> _]. exact Hmk.
Qed.

Lemma save_body_split (self : AdvancePandas) (file_path : Path)
    (retain_format auto_open create_backup : bool) (w : World) :
  save_body env self file_path retain_format auto_open create_backup w =
  match write_temp env self file_path w with
  | (Return t, wt) =>
      after_temp env self file_path t retain_format auto_open create_backup wt
  | (Raise e, wt) => (Raise e, wt)
  end.
Proof.
  unfold save_body, install, after_temp, bind.
  destruct (write_temp env self file_path w) as [[t|e] wt]; reflexivity.
Qed.

Lemma preserves_after_temp (q : Path) (self : AdvancePandas) (file_path t : Path)
    (retain_format auto_open create_backup : bool) :
  q <> t -> ~ file_path `prefix_of` q -> ~ backup_path_of file_path `prefix_of` q ->
  preserves q (after_temp env self file_path t retain_format auto_open create_backup).
Proof.
  intros Ht Hp Hb. unfold after_temp.
  apply preserves_bind.
  - apply preserves_bind; [apply preserves_retain_format_step; exact Ht |].
    intros _. apply preserves_replace_target_outside; assumption.
  - intros _. apply preserves_bind; [apply preserves_backup_step_outside; exact Hb |].
    intros _. apply preserves_open_step.
Qed.


(** X9. A save that returns leaves no temporary file behind: the
    [TemporaryFiles] directory exists, and every name in it holds what it
    held before the call (nothing, for the name the temporary file had). *)
Theorem temporary_files_left_as_found
    (self : AdvancePandas) (file_path : pathlike)
    (retain_format auto_open create_backup : bool) (w w' : World) :
  _save_to_file env self file_path retain_format auto_open create_backup w
  = (Return tt, w') ->
  fs w' !! temp_dir_of (to_Path file_path) = Some Dir /\
  forall n, fs w' !! PurePath.joinpath (temp_dir_of (to_Path file_path)) n
            = fs w !! PurePath.joinpath (temp_dir_of (to_Path file_path)) n.
Proof.
  intros Hrun.
  destruct (Str.mem (PurePath.suffix (to_Path file_path)) valid_extensions) eqn:Hvalid.
  2: { rewrite save_to_file_invalid in Hrun by exact Hvalid. discriminate Hrun. }
  apply save_to_file_run in Hrun as (w1 & Hbody & ->); [| exact Hvalid].
  cbn [fs set_sigint]. set (path := to_Path file_path) in *.
  set (w0 := set_sigint ignore_keyboard_interrupt w) in *.
  change (fs w) with (fs w0).
  rewrite save_body_split in Hbody.
  destruct (write_temp env self path w0) as [[t|e] wt] eqn:Htemp; [| discriminate Hbody].
  destruct (write_temp_fs env _ _ _ _ _ Htemp) as (created & Hkeep & Hnew & Hret).
  rewrite (Hret t eq_refl) in *. destruct (Hnew t eq_refl) as [Hshape Hfresh].
  pose proof (PathFacts.length_temp_dir _ Hvalid) as Hld.
  pose proof (PathFacts.length_backup_path _ Hvalid) as Hlb.
  assert (Hpd : forall l, length l <= 1 -> ~ path `prefix_of` (temp_dir_of path ++ l)).
  { intros l Hl. apply sibling_not_prefix; [lia | | exact Hl].
    apply PathFacts.target_not_temp_dir. exact Hvalid. }
  assert (Hbd : forall l, length l <= 1 ->
                          ~ backup_path_of path `prefix_of` (temp_dir_of path ++ l)).
  { intros l Hl. apply sibling_not_prefix; [lia | | exact Hl].
    apply PathFacts.backup_not_temp_dir. exact Hvalid. }
  split.
  - apply (preserves_after_temp (temp_dir_of path)) in Hbody as [-> _].
    + eapply write_temp_dir. exact Htemp.
    + intros Heq. apply is_temp_length in Hshape. rewrite <- Heq in Hshape. lia.
    + rewrite <- (app_nil_r (temp_dir_of path)). apply Hpd. cbn. lia.
    + rewrite <- (app_nil_r (temp_dir_of path)). apply Hbd. cbn. lia.
  - intros n. unfold PurePath.joinpath.
    destruct (decide (temp_dir_of path ++ [n] = t)) as [Heq | Hne].
    + rewrite Heq, Hfresh.
      unfold after_temp in Hbody.
      apply bind_Return in Hbody as ([] & wm & Hmove & Hrest).
      apply bind_Return in Hmove as ([] & wr & _ & Hmove).
      unfold replace_target in Hmove.
      apply bind_Return in Hmove as (ex & wx & _ & Hmove).
      apply bind_Return in Hmove as ([] & wy & _ & Hmove).
      apply move_Return_src in Hmove.
      2: { rewrite <- Heq. apply Hpd. cbn. lia. }
      assert (Hpost : preserves t
                (backup_step env path create_backup ;;
                 (if auto_open then startfile path else ret tt))).
      { apply preserves_bind; [| intros _; apply preserves_open_step].
        apply preserves_backup_step_outside. rewrite <- Heq. apply Hbd. cbn. lia. }
      destruct (Hpost _ _ _ Hrest) as [-> _]. exact Hmove.
    + apply (preserves_after_temp (temp_dir_of path ++ [n])) in Hbody as [-> _].
      * apply Hkeep; [| congruence].
        apply not_eq_sym, not_inside; [lia | discriminate].
      * exact Hne.
      * apply Hpd. cbn. lia.
      * apply Hbd. cbn. lia.
Qed.

Lemma save_to_file_Return_target
    (self : AdvancePandas) (file_path : pathlike)
    (retain_format auto_open create_backup : bool) (w w' : World) :
  fs w !! to_Path file_path <> Some Dir ->
  _save_to_file env self file_path retain_format auto_open create_backup w
  = (Return tt, w') ->
  exists c, fs w' !! to_Path file_path = Some (File c) /\
            (retain_format = false -> c = serialized self (to_Path file_path)).
Proof.
  intros Hdir Hrun.
  destruct (Str.mem (PurePath.suffix (to_Path file_path)) valid_extensions) eqn:Hvalid.
  2: { rewrite save_to_file_invalid in Hrun by exact Hvalid. discriminate Hrun. }
  apply save_to_file_run in Hrun as (w1 & Hbody & ->); [| exact Hvalid].
  cbn [fs set_sigint]. set (path := to_Path file_path) in *.
  unfold save_body in Hbody.
  apply bind_Return in Hbody as ([] & wa & Hinstall & Hbody).
  destruct (install_Return env self path retain_format
              (set_sigint ignore_keyboard_interrupt w) wa Hvalid Hdir Hinstall)
    as (c & Hc & Hser).
  exists c. split; [| exact Hser].
  assert (Hpost : preserves path
            (backup_step env path create_backup ;;
             (if auto_open then startfile path else ret tt))).
  { apply preserves_bind; [apply preserves_backup_step; exact Hvalid |].
    intros _. apply preserves_open_step. }
  destruct (Hpost _ _ _ Hbody) as [-> _]. exact Hc.
Qed.

(** X10. A save that returns has put the dataset at the target: unless
    the target path was a directory, it holds a file afterwards, and
    without format retention that file is the dataset serialised in the
    format of the extension (delimited text for [.csv], a workbook with
    the one sheet [Sheet1] for [.xlsx]). *)
Theorem saved_target_holds_the_dataset
    (self : AdvancePandas) (file_path : pathlike)
    (retain_format auto_open create_backup : bool) (w w' : World) :
  fs w !! to_Path file_path <> Some Dir ->
  _save_to_file env self file_path retain_format auto_open create_backup w
  = (Return tt, w') ->
  exists c, fs w' !! to_Path file_path = Some (File c) /\
            (retain_format = false -> c = serialized self (to_Path file_path)).
Proof. apply save_to_file_Return_target. Qed.

End FrameTheorems.

(** ** Backups, and saves that fail *)

Section BackupAndFailures.

Variable env : Env.

Lemma backup_step_absent (file_path : Path) (w : World) :
  Str.mem (PurePath.suffix file_path) valid_extensions = true ->
  fs w !! backup_path_of file_path = None ->
  backup_step env file_path true w = (Return tt, w).
Proof.
  intros Hvalid Hb. unfold backup_step.
  change (PurePath.stem file_path +:+ " - Backup" +:+ PurePath.suffix file_path)
    with (backup_name_of file_path).
  rewrite (PathFacts.with_name_backup _ Hvalid).
  unfold bind, or_raise, ret, path_exists. rewrite Hb. reflexivity.
Qed.

(** X11. [create_backup=True] does nothing unless a backup file is there
    already: when nothing exists at the backup path, the call is the call
    without backup, outcome and world alike, and no backup is created. *)
Theorem create_backup_needs_an_existing_backup
    (self : AdvancePandas) (file_path : pathlike)
    (retain_format auto_open : bool) (w : World) :
  fs w !! backup_path_of (to_Path file_path) = None ->
  _save_to_file env self file_path retain_format auto_open true w =
  _save_to_file env self file_path retain_format auto_open false w /\
  fs (snd (_save_to_file env self file_path retain_format auto_open true w))
    !! backup_path_of (to_Path file_path) = None.
Proof.
  intros Hb.
  destruct (Str.mem (PurePath.suffix (to_Path file_path)) valid_extensions) eqn:Hvalid.
  2: { rewrite !save_to_file_invalid by exact Hvalid. split; [reflexivity | exact Hb]. }
  rewrite !save_to_file_valid by exact Hvalid.
  set (path := to_Path file_path) in *.
  set (w0 := set_sigint ignore_keyboard_interrupt w).
  assert (Hout : forall r wa, install env self path retain_format w0 = (r, wa) ->
                              fs wa !! backup_path_of path = None).
  { intros r wa Hinstall.
    apply (preserves_install env (backup_path_of path)) in Hinstall as [-> _];
      [exact Hb | exact Hvalid | | |].
    - apply PathFacts.backup_not_temp_dir. exact Hvalid.
    - apply PathFacts.backup_not_target. exact Hvalid.
    - rewrite PathFacts.length_backup_path by exact Hvalid. lia. }
  unfold try_finally, save_body.
  destruct (install env self path retain_format w0) as [[[]|e] wa] eqn:Hinstall.
  2: { rewrite !(bind_Raise _ _ _ _ _ Hinstall). cbn.
       split; [reflexivity | exact (Hout _ _ eq_refl)]. }
  rewrite !(bind_step _ _ _ _ _ Hinstall).
  rewrite (bind_step _ _ _ _ _ (backup_step_absent path wa Hvalid (Hout _ _ eq_refl))).
  rewrite (bind_step _ _ _ _ _ (backup_step_off env path wa)).
  split; [reflexivity |].
  destruct ((if auto_open then startfile path else ret tt) wa) as [r1 w1] eqn:Hopen.
  cbn.
  destruct (preserves_open_step (backup_path_of path) path auto_open _ _ _ Hopen)
    as [-> _].
  exact (Hout _ _ eq_refl).
Qed.

(** X12. Asking for a backup never changes what ends up at the target:
    with and without [create_backup], and whatever the outcome, the target
    holds the same after the call. *)
Theorem backup_request_leaves_target_alone
    (self : AdvancePandas) (file_path : pathlike)
    (retain_format auto_open : bool) (w : World) :
  fs (snd (_save_to_file env self file_path retain_format auto_open true w))
    !! to_Path file_path =
  fs (snd (_save_to_file env self file_path retain_format auto_open false w))
    !! to_Path file_path.
Proof.
  destruct (Str.mem (PurePath.suffix (to_Path file_path)) valid_extensions) eqn:Hvalid.
  2: { rewrite !save_to_file_invalid by exact Hvalid. reflexivity. }
  rewrite !save_to_file_valid by exact Hvalid.
  set (path := to_Path file_path) in *.
  set (w0 := set_sigint ignore_keyboard_interrupt w).
  unfold try_finally, save_body.
  destruct (install env self path retain_format w0) as [[[]|e] wa] eqn:Hinstall.
  2: { rewrite !(bind_Raise _ _ _ _ _ Hinstall). reflexivity. }
  rewrite !(bind_step _ _ _ _ _ Hinstall).
  rewrite (bind_step _ _ _ _ _ (backup_step_off env path wa)).
  destruct (backup_step env path true wa) as [[[]|e] wb] eqn:Hbackup.
  - rewrite (bind_step _ _ _ _ _ Hbackup).
    destruct (preserves_backup_step env path true Hvalid _ _ _ Hbackup) as [Hb _].
    destruct ((if auto_open then startfile path else ret tt) wb) as [r1 w1] eqn:H1.
    destruct ((if auto_open then startfile path else ret tt) wa) as [r2 w2] eqn:H2.
    cbn.
    destruct (preserves_open_step path path auto_open _ _ _ H1) as [-> _].
    destruct (preserves_open_step path path auto_open _ _ _ H2) as [-> _].
    exact Hb.
  - rewrite (bind_Raise _ _ _ _ _ Hbackup).
    destruct (preserves_backup_step env path true Hvalid _ _ _ Hbackup) as [Hb _].
    destruct ((if auto_open then startfile path else ret tt) wa) as [r2 w2] eqn:H2.
    cbn.
    destruct (preserves_open_step path path auto_open _ _ _ H2) as [-> _].
    exact Hb.
Qed.

Lemma parent_temp_dir (file_path : Path) :
  PurePath.parent (temp_dir_of file_path) = PurePath.parent file_path.
Proof.
  unfold temp_dir_of. apply PathFacts.parent_joinpath. discriminate.
Qed.

(** X13. A save does not create the directory of its target, and does not
    put up with a file called [TemporaryFiles]: when [TemporaryFiles] is
    not a directory and cannot be made one (a file has the name, or the
    directory of the target does not exist), the call raises
    [FileExistsError] or [FileNotFoundError] for the [TemporaryFiles]
    path, and nothing but the SIGINT handler has changed. *)
Theorem save_fails_when_temp_dir_cannot_be_made
    (self : AdvancePandas) (file_path : pathlike)
    (retain_format auto_open create_backup : bool) (w : World) :
  Str.mem (PurePath.suffix (to_Path file_path)) valid_extensions = true ->
  fs w !! temp_dir_of (to_Path file_path) <> Some Dir ->
  (fs w !! temp_dir_of (to_Path file_path) = None ->
   fs w !! PurePath.parent (to_Path file_path) <> Some Dir) ->
  _save_to_file env self file_path retain_format auto_open create_backup w =
  (Raise (match fs w !! temp_dir_of (to_Path file_path) with
          | Some _ => FileExistsError (temp_dir_of (to_Path file_path))
          | None => FileNotFoundError (temp_dir_of (to_Path file_path))
          end),
   set_sigint default_int_handler w).
Proof.
  intros Hvalid Hnodir Hparent.
  rewrite save_to_file_valid by exact Hvalid.
  set (path := to_Path file_path) in *.
  set (w0 := set_sigint ignore_keyboard_interrupt w).
  assert (Hmk : mkdir_exist_ok (temp_dir_of path) w0 =
                (Raise (match fs w !! temp_dir_of path with
                        | Some _ => FileExistsError (temp_dir_of path)
                        | None => FileNotFoundError (temp_dir_of path)
                        end), w0)).
  { unfold mkdir_exist_ok. change (fs w0) with (fs w).
    destruct (fs w !! temp_dir_of path) as [[|c]|] eqn:Ed; [congruence | reflexivity |].
    rewrite parent_temp_dir. specialize (Hparent eq_refl).
    destruct (fs w !! PurePath.parent path) as [[|c]|]; [congruence | reflexivity..]. }
  assert (Hbody : save_body env self path retain_format auto_open create_backup w0 =
                  (Raise (match fs w !! temp_dir_of path with
                          | Some _ => FileExistsError (temp_dir_of path)
                          | None => FileNotFoundError (temp_dir_of path)
                          end), w0)).
  { unfold save_body, install, write_temp. cbv zeta. fold (temp_dir_of path).
    apply bind_Raise. apply bind_Raise. apply bind_Raise. exact Hmk. }
  unfold try_finally. rewrite Hbody. destruct w; reflexivity.
Qed.

(** A reference that holds no workbook cannot be loaded. *)
Lemma load_workbook_unreadable (p : Path) (w : World) :
  (forall wb, fs w !! p <> Some (File (Spreadsheet wb))) ->
  exists e, load_workbook p w = (Raise e, w).
Proof.
  intros Hno. unfold load_workbook. destruct (negb _); [eauto |].
  destruct (fs w !! p) as [[|[|d|wb]]|]; eauto. contradiction (Hno wb eq_refl).
Qed.

(** The reference of line 108: the target when it exists, else the
    recorded source. *)
Lemma reference_of_line_108 (f : FS) (self : AdvancePandas) (file_path : Path)
    (reference : pathlike) :
  (is_Some (f !! file_path) /\ reference = PPath file_path) \/
  (f !! file_path = None /\ source_file self = Some reference /\
   truthy (Some reference) = true) ->
  reference_by_spec f self file_path = Some reference.
Proof.
  unfold reference_by_spec. intros [[[n Hn] ->] | (Hn & Hs & Ht)]; rewrite Hn.
  - reflexivity.
  - rewrite Hs, Ht. reflexivity.
Qed.

(** X14. Format retention with a reference that cannot be read: when the
    reference chosen at line 108 (the target if it exists, else the
    recorded source) has a spreadsheet extension but no workbook is at its
    path (nothing, a directory, or a file that is not a workbook), the save
    raises and the target holds what it held; format retention is not
    skipped. *)
Theorem unreadable_reference_fails_the_save
    (self : AdvancePandas) (file_path reference : pathlike)
    (auto_open create_backup : bool) (w : World) :
  Str.mem (PurePath.suffix (to_Path file_path)) valid_extensions = true ->
  (is_Some (fs w !! to_Path file_path) /\ reference = PPath (to_Path file_path)) \/
  (fs w !! to_Path file_path = None /\ source_file self = Some reference /\
   truthy (Some reference) = true) ->
  spreadsheet_extension reference = true ->
  (forall wb, fs w !! to_Path reference <> Some (File (Spreadsheet wb))) ->
  (is_Some (fs w !! to_Path reference) \/
   forall n, to_Path reference
             <> PurePath.joinpath (temp_dir_of (to_Path file_path)) n) ->
  let '(r, w') := _save_to_file env self file_path true auto_open create_backup w in
  (exists e, r = Raise e) /\ fs w' !! to_Path file_path = fs w !! to_Path file_path.
Proof.
  intros Hvalid Href Hext Hno Hplace. apply reference_of_line_108 in Href.
  rewrite save_to_file_valid by exact Hvalid.
  set (path := to_Path file_path) in *.
  set (w0 := set_sigint ignore_keyboard_interrupt w).
  unfold try_finally, save_body, install.
  destruct (bind (write_temp env self path)
              (fun t => retain_format_step env self path t true) w0)
    as [r1 w1] eqn:Hpre.
  pose proof (preserves_before_move env self path true Hvalid _ _ _ Hpre) as [Hkeep _].
  assert (Hraise : exists e, r1 = Raise e).
  { unfold bind in Hpre.
    destruct (write_temp env self path w0) as [[t|e] wt] eqn:Htemp.
    2: { injection Hpre as <- <-. eauto. }
    destruct (write_temp_fs env _ _ _ _ _ Htemp) as (created & Hsame & Hnew & Hret).
    assert (Hnd : to_Path reference <> temp_dir_of path).
    { intros Heq. unfold spreadsheet_extension in Hext. rewrite Heq in Hext.
      unfold PurePath.suffix, PurePath.name, temp_dir_of, PurePath.joinpath in Hext.
      rewrite last_last in Hext. discriminate Hext. }
    assert (Hnt : Some (to_Path reference) <> created).
    { intros Heq. destruct (Hnew _ (eq_sym Heq)) as [[n Hn] Hnone].
      destruct Hplace as [[x Hx] | Hplace]; [change (fs w0) with (fs w) in Hnone;
                                              congruence |].
      exact (Hplace _ Hn). }
    pose proof (Hsame _ Hnd Hnt) as Hrefsame. change (fs w0) with (fs w) in Hrefsame.
    rewrite retain_format_step_by_reference in Hpre.
    rewrite (reference_by_spec_ext (fs w)) in Hpre.
    2: { apply (preserves_write_temp env path) in Htemp as [-> _]; [reflexivity | |].
         - apply PathFacts.target_not_temp_dir. exact Hvalid.
         - rewrite PathFacts.length_temp_dir by exact Hvalid. lia. }
    rewrite Href, Hext in Hpre.
    destruct (load_workbook_unreadable (to_Path reference) wt) as [e He].
    { intros wb. rewrite Hrefsame. apply Hno. }
    unfold _transfer_excel_format in Hpre.
    rewrite (bind_Raise _ _ _ _ _ He) in Hpre. injection Hpre as <- <-. eauto. }
  destruct Hraise as [e ->].
  assert (Hall : forall k : unit -> M unit,
            bind (bind (write_temp env self path)
                       (fun t => bind (retain_format_step env self path t true)
                                      (fun _ => replace_target env t path))) k w0
            = (Raise e, w1)).
  { intros k. unfold bind in Hpre |- *.
    destruct (write_temp env self path w0) as [[t|e'] wt].
    - destruct (retain_format_step env self path t true wt) as [[[]|e'] wr];
        [discriminate Hpre | exact Hpre].
    - exact Hpre. }
  rewrite Hall. cbn. split; [eauto |]. exact Hkeep.
Qed.

(** X21. Format retention never completes on a spreadsheet reference.
    When the reference of line 108 (the target if it exists, else the
    recorded source) has the extension [.xlsx] or [.xls], the save with
    [retain_format] raises, whatever the reference holds: a reference that
    cannot be loaded fails at line 130, one that can at line 151. The
    target holds what it held. *)
Theorem format_retention_never_completes
    (self : AdvancePandas) (file_path reference : pathlike)
    (auto_open create_backup : bool) (w : World) :
  Str.mem (PurePath.suffix (to_Path file_path)) valid_extensions = true ->
  (is_Some (fs w !! to_Path file_path) /\ reference = PPath (to_Path file_path)) \/
  (fs w !! to_Path file_path = None /\ source_file self = Some reference /\
   truthy (Some reference) = true) ->
  spreadsheet_extension reference = true ->
  let '(r, w') := _save_to_file env self file_path true auto_open create_backup w in
  (exists e, r = Raise e) /\ fs w' !! to_Path file_path = fs w !! to_Path file_path.
Proof.
  intros Hvalid Href Hext. apply reference_of_line_108 in Href.
  rewrite save_to_file_valid by exact Hvalid.
  set (path := to_Path file_path) in *.
  set (w0 := set_sigint ignore_keyboard_interrupt w).
  unfold try_finally, save_body, install.
  destruct (bind (write_temp env self path)
              (fun t => retain_format_step env self path t true) w0)
    as [r1 w1] eqn:Hpre.
  pose proof (preserves_before_move env self path true Hvalid _ _ _ Hpre) as [Hkeep _].
  assert (Hraise : exists e, r1 = Raise e).
  { unfold bind in Hpre.
    destruct (write_temp env self path w0) as [[t|e] wt] eqn:Htemp.
    2: { injection Hpre as <- <-. eauto. }
    rewrite retain_format_step_by_reference in Hpre.
    rewrite (reference_by_spec_ext (fs w)) in Hpre.
    2: { apply (preserves_write_temp env path) in Htemp as [-> _]; [reflexivity | |].
         - apply PathFacts.target_not_temp_dir. exact Hvalid.
         - rewrite PathFacts.length_temp_dir by exact Hvalid. lia. }
    rewrite Href, Hext in Hpre.
    destruct r1 as [[]|e]; [| eauto].
    contradiction (transfer_never_returns env _ _ _ _ _ Hpre). }
  destruct Hraise as [e ->].
  assert (Hall : forall k : unit -> M unit,
            bind (bind (write_temp env self path)
                       (fun t => bind (retain_format_step env self path t true)
                                      (fun _ => replace_target env t path))) k w0
            = (Raise e, w1)).
  { intros k. unfold bind in Hpre |- *.
    destruct (write_temp env self path w0) as [[t|e'] wt].
    - destruct (retain_format_step env self path t true wt) as [[[]|e'] wr];
        [discriminate Hpre | exact Hpre].
    - exact Hpre. }
  rewrite Hall. cbn. split; [eauto |]. exact Hkeep.
Qed.

(** X15. The Format Transplanter writes the temporary file and nothing
    else: whatever its outcome, every other path, the reference included,
    holds afterwards what it held before, and did so in every state of the
    file system written on the way. *)
Theorem transplanter_writes_only_the_temporary_file
    (reference : pathlike) (t : Path) (self : AdvancePandas) (w : World) r w' (q : Path) :
  q <> t ->
  _transfer_excel_format env reference t self w = (r, w') ->
  fs w' !! q = fs w !! q /\
  exists written, history w' = written ++ history w /\
                  Forall (fun s : FS => s !! q = fs w !! q) written.
Proof.
  intros Hne Hrun. exact (preserves_transfer env q reference t self Hne _ _ _ Hrun).
Qed.

End BackupAndFailures.

(** ** Runs of the reader and of the save *)

Lemma reader_raises_on_missing_source_witness :
  AdvanceExcelReader Examples.table_of (PStr "gone.xlsx") (Some (PStr "out.csv")) false
    (Examples.world_of Examples.fs_data)
  = (Raise (FileNotFoundError (to_Path (PStr "gone.xlsx"))),
     Examples.world_of Examples.fs_data).
Proof.
  apply (reader_raises_on_missing_source Examples.table_of (PStr "gone.xlsx")
           (Some (PStr "out.csv")) (Examples.world_of Examples.fs_data)).
  vm_compute. reflexivity.
Defined.

Lemma reader_resumes_from_saved_destination_witness :
  source_file Examples.resumed_csv = Some (PPath (to_Path (PStr "data.csv"))) /\
  destination_file Examples.resumed_csv = Some (PPath (to_Path (PStr "data.csv"))) /\
  (fs (Examples.world_of Examples.fs_data) !! to_Path (PStr "data.csv")
   = Some (File (Delimited (frame Examples.resumed_csv))) \/
   exists wb, fs (Examples.world_of Examples.fs_data) !! to_Path (PStr "data.csv")
              = Some (File (Spreadsheet wb)) /\
              frame Examples.resumed_csv = Examples.table_of wb).
Proof.
  apply (reader_resumes_from_saved_destination Examples.table_of (PStr "gone.xlsx")
           (PStr "data.csv") (Examples.world_of Examples.fs_data)
           Examples.resumed_csv (Examples.world_of Examples.fs_data)).
  - reflexivity.
  - eexists. vm_compute. reflexivity.
  - vm_compute. reflexivity.
Defined.

Lemma reader_reads_source_and_records_destination_witness :
  source_file Examples.read_csv_to_out = Some (PPath (to_Path (PStr "data.csv"))) /\
  destination_file Examples.read_csv_to_out = Some (PStr "out.csv") /\
  (fs (Examples.world_of Examples.fs_data) !! to_Path (PStr "data.csv")
   = Some (File (Delimited (frame Examples.read_csv_to_out))) \/
   exists wb, fs (Examples.world_of Examples.fs_data) !! to_Path (PStr "data.csv")
              = Some (File (Spreadsheet wb)) /\
              frame Examples.read_csv_to_out = Examples.table_of wb).
Proof.
  apply (reader_reads_source_and_records_destination Examples.table_of (PStr "data.csv")
           (Some (PStr "out.csv")) (Examples.world_of Examples.fs_data)
           Examples.read_csv_to_out (Examples.world_of Examples.fs_data)).
  vm_compute. reflexivity.
Defined.

Lemma dataset_read_with_destination_saves_there_witness :
  save Examples.posix Examples.resumed_csv None false false false false
    (Examples.world_of Examples.fs_data) =
  dispatch Examples.posix Examples.resumed_csv (PPath (to_Path (PStr "data.csv")))
    false false false false (Examples.world_of Examples.fs_data).
Proof.
  apply (dataset_read_with_destination_saves_there Examples.posix Examples.table_of
           (PStr "gone.xlsx") (PStr "data.csv") true false false false false
           (Examples.world_of Examples.fs_data) (Examples.world_of Examples.fs_data)
           (Examples.world_of Examples.fs_data) Examples.resumed_csv).
  - reflexivity.
  - vm_compute. reflexivity.
Defined.

Lemma auto_open_launches_the_saved_target_witness :
  spawned (snd (_save_to_file Examples.posix Examples.loaded_csv (PStr "data.csv")
                  false true false (Examples.world_of Examples.fs_data)))
  = spawned (Examples.world_of Examples.fs_data) /\
  launched (snd (_save_to_file Examples.posix Examples.loaded_csv (PStr "data.csv")
                   false true false (Examples.world_of Examples.fs_data)))
  = to_Path (PStr "data.csv") :: launched (Examples.world_of Examples.fs_data).
Proof.
  apply (auto_open_launches_the_saved_target Examples.posix Examples.loaded_csv
           (PStr "data.csv") false true false (Examples.world_of Examples.fs_data)
           (Return tt)).
  vm_compute. reflexivity.
Defined.

Lemma async_save_only_starts_a_worker_witness :
  let '(r, w') := save Examples.windows Examples.loaded_csv (Some (PStr "notes.txt"))
                    true false false false (Examples.world_of Examples.fs_data) in
  r = Return tt /\
  spawned w' = {| job_path := Some (PStr "notes.txt"); job_retain_format := false;
                  job_auto_open := false; job_create_backup := false |}
               :: spawned (Examples.world_of Examples.fs_data) /\
  fs w' = fs (Examples.world_of Examples.fs_data) /\
  history w' = history (Examples.world_of Examples.fs_data) /\
  sigint w' = sigint (Examples.world_of Examples.fs_data) /\
  launched w' = launched (Examples.world_of Examples.fs_data) /\
  dialogs w' = dialogs (Examples.world_of Examples.fs_data).
Proof.
  apply (async_save_only_starts_a_worker Examples.windows Examples.loaded_csv
           (PStr "notes.txt") false false false (Examples.world_of Examples.fs_data)).
  reflexivity.
Defined.


Lemma temporary_files_left_as_found_witness :
  fs (snd (_save_to_file Examples.windows Examples.loaded_csv (PStr "data.csv")
             false false false (Examples.world_of Examples.fs_data)))
    !! temp_dir_of (to_Path (PStr "data.csv")) = Some Dir /\
  forall n,
    fs (snd (_save_to_file Examples.windows Examples.loaded_csv (PStr "data.csv")
               false false false (Examples.world_of Examples.fs_data)))
      !! PurePath.joinpath (temp_dir_of (to_Path (PStr "data.csv"))) n
    = fs (Examples.world_of Examples.fs_data)
        !! PurePath.joinpath (temp_dir_of (to_Path (PStr "data.csv"))) n.
Proof.
  apply (temporary_files_left_as_found Examples.windows Examples.loaded_csv
           (PStr "data.csv") false false false (Examples.world_of Examples.fs_data)).
  vm_compute. reflexivity.
Defined.

Lemma saved_target_holds_the_dataset_witness :
  exists c,
    fs (snd (_save_to_file Examples.posix Examples.loaded_book (PStr "book.xlsx")
               false false false (Examples.world_of Examples.fs_book)))
      !! to_Path (PStr "book.xlsx") = Some (File c) /\
    (false = false -> c = serialized Examples.loaded_book (to_Path (PStr "book.xlsx"))).
Proof.
  apply (saved_target_holds_the_dataset Examples.posix Examples.loaded_book
           (PStr "book.xlsx") false false false (Examples.world_of Examples.fs_book)).
  - vm_compute. discriminate.
  - vm_compute. reflexivity.
Defined.

Lemma create_backup_needs_an_existing_backup_witness :
  _save_to_file Examples.posix Examples.loaded_csv (PStr "data.csv") false false true
    (Examples.world_of Examples.fs_data) =
  _save_to_file Examples.posix Examples.loaded_csv (PStr "data.csv") false false false
    (Examples.world_of Examples.fs_data) /\
  fs (snd (_save_to_file Examples.posix Examples.loaded_csv (PStr "data.csv")
             false false true (Examples.world_of Examples.fs_data)))
    !! backup_path_of (to_Path (PStr "data.csv")) = None.
Proof.
  apply (create_backup_needs_an_existing_backup Examples.posix Examples.loaded_csv
           (PStr "data.csv") false false (Examples.world_of Examples.fs_data)).
  vm_compute. reflexivity.
Defined.

Lemma save_fails_when_temp_dir_cannot_be_made_witness :
  _save_to_file Examples.posix Examples.loaded_csv (PStr "data.csv") false false false
    (Examples.world_of Examples.fs_temp_taken) =
  (Raise (match fs (Examples.world_of Examples.fs_temp_taken)
                  !! temp_dir_of (to_Path (PStr "data.csv")) with
          | Some _ => FileExistsError (temp_dir_of (to_Path (PStr "data.csv")))
          | None => FileNotFoundError (temp_dir_of (to_Path (PStr "data.csv")))
          end),
   set_sigint default_int_handler (Examples.world_of Examples.fs_temp_taken)).
Proof.
  apply (save_fails_when_temp_dir_cannot_be_made Examples.posix Examples.loaded_csv
           (PStr "data.csv") false false false
           (Examples.world_of Examples.fs_temp_taken)).
  - reflexivity.
  - vm_compute. discriminate.
  - vm_compute. discriminate.
Defined.

Lemma unreadable_reference_fails_the_save_witness :
  let '(r, w') := _save_to_file Examples.posix Examples.loaded_book (PStr "book.xlsx")
                    true false false (Examples.world_of Examples.fs_broken_book) in
  (exists e, r = Raise e) /\
  fs w' !! to_Path (PStr "book.xlsx")
  = fs (Examples.world_of Examples.fs_broken_book) !! to_Path (PStr "book.xlsx").
Proof.
  apply (unreadable_reference_fails_the_save Examples.posix Examples.loaded_book
           (PStr "book.xlsx") (PPath ["book.xlsx"]) false false
           (Examples.world_of Examples.fs_broken_book)).
  - reflexivity.
  - left. split; [eexists; vm_compute; reflexivity | reflexivity].
  - reflexivity.
  - intros wb H. vm_compute in H. discriminate H.
  - left. eexists. vm_compute. reflexivity.
Defined.

Lemma transplanter_writes_only_the_temporary_file_witness :
  fs (snd (_transfer_excel_format Examples.posix (PStr "book.xlsx")
             ["TemporaryFiles"; "tmpk3v9x2aa.xlsx"] Examples.loaded_book
             (Examples.world_of Examples.fs_book))) !! ["book.xlsx"]
  = fs (Examples.world_of Examples.fs_book) !! ["book.xlsx"] /\
  exists written,
    history (snd (_transfer_excel_format Examples.posix (PStr "book.xlsx")
                    ["TemporaryFiles"; "tmpk3v9x2aa.xlsx"] Examples.loaded_book
                    (Examples.world_of Examples.fs_book)))
    = written ++ history (Examples.world_of Examples.fs_book) /\
    Forall (fun s : FS => s !! ["book.xlsx"]
                          = fs (Examples.world_of Examples.fs_book) !! ["book.xlsx"])
      written.
Proof.
  apply (transplanter_writes_only_the_temporary_file Examples.posix (PStr "book.xlsx")
           ["TemporaryFiles"; "tmpk3v9x2aa.xlsx"] Examples.loaded_book
           (Examples.world_of Examples.fs_book)
           (fst (_transfer_excel_format Examples.posix (PStr "book.xlsx")
                   ["TemporaryFiles"; "tmpk3v9x2aa.xlsx"] Examples.loaded_book
                   (Examples.world_of Examples.fs_book)))).
  - discriminate.
  - apply surjective_pairing.
Defined.

Lemma sigint_reset_to_default_after_try_witness :
  sigint (Examples.world_with_handler Examples.fs_data) = custom_handler 7 /\
  sigint (snd (_save_to_file Examples.posix Examples.loaded_csv (PStr "data.csv")
                 false false false (Examples.world_with_handler Examples.fs_data)))
  = default_int_handler.
Proof.
  split; [reflexivity |].
  apply (sigint_reset_to_default_after_try Examples.posix Examples.loaded_csv
           (PStr "data.csv") false false false
           (Examples.world_with_handler Examples.fs_data)).
  reflexivity.
Defined.

(** ** What a failed save leaves behind *)

Section Leftovers.

Variable env : Env.

Lemma mkdir_ok (p : Path) (w : World) :
  fs w !! p = Some Dir \/ (fs w !! p = None /\ fs w !! PurePath.parent p = Some Dir) ->
  exists w1, mkdir_exist_ok p w = (Return tt, w1) /\ rng w1 = rng w.
Proof.
  unfold mkdir_exist_ok. intros [Hd | [Hn Hp]].
  - rewrite Hd. eauto.
  - rewrite Hn, Hp. unfold commit. eexists. split; reflexivity.
Qed.

Lemma mkstemp_first (fuel : nat) (dir : Path) (sfx : string) (w : World) :
  fs w !! PurePath.joinpath dir ("tmp" +:+ candidate env (rng w) +:+ sfx) = None ->
  exists w',
    mkstemp_inner env (S fuel) dir sfx w
    = (Return (PurePath.joinpath dir ("tmp" +:+ candidate env (rng w) +:+ sfx)), w').
Proof.
  intros Hfree. cbn [mkstemp_inner]. rewrite Hfree.
  unfold bind, commit, ret. eexists. reflexivity.
Qed.

Lemma NamedTemporaryFile_first (dir : Path) (sfx : string) (w : World) :
  fs w !! PurePath.joinpath dir ("tmp" +:+ candidate env (rng w) +:+ sfx) = None ->
  exists w',
    NamedTemporaryFile env sfx dir w
    = (Return (PurePath.joinpath dir ("tmp" +:+ candidate env (rng w) +:+ sfx)), w').
Proof. exact (mkstemp_first (TMP_MAX - 1) dir sfx w). Qed.

Lemma write_file_ok (p : Path) (c c0 : Content) (w : World) :
  fs w !! p = Some (File c0) -> exists w', write_file p c w = (Return tt, w').
Proof.
  intros Hp. destruct (write_file_on_file p c c0 w Hp) as (w' & Hrun & _). eauto.
Qed.

(** Lines 96-105 succeed when the directory of the temporary files is
    there or can be made and the name drawn first is free. *)
Lemma write_temp_first (self : AdvancePandas) (file_path : Path) (w : World) :
  fs w !! temp_dir_of file_path = Some Dir \/
  (fs w !! temp_dir_of file_path = None /\
   fs w !! PurePath.parent file_path = Some Dir) ->
  fs w !! PurePath.joinpath (temp_dir_of file_path)
            ("tmp" +:+ candidate env (rng w) +:+ PurePath.suffix file_path) = None ->
  exists wt,
    write_temp env self file_path w
    = (Return (PurePath.joinpath (temp_dir_of file_path)
                 ("tmp" +:+ candidate env (rng w) +:+ PurePath.suffix file_path)), wt).
Proof.
  intros Hdir Hfree.
  set (t := PurePath.joinpath (temp_dir_of file_path)
              ("tmp" +:+ candidate env (rng w) +:+ PurePath.suffix file_path)) in *.
  destruct (mkdir_ok (temp_dir_of file_path) w) as (w1 & Hmk & Hrng).
  { rewrite parent_temp_dir. exact Hdir. }
  assert (Hnd : t <> temp_dir_of file_path).
  { intros Heq. apply (f_equal length) in Heq. subst t.
    unfold PurePath.joinpath in Heq. rewrite length_app in Heq. cbn in Heq. lia. }
  assert (Hfree1 : fs w1 !! t = None).
  { rewrite (mkdir_fs _ _ _ _ Hmk t Hnd). exact Hfree. }
  destruct (NamedTemporaryFile_first (temp_dir_of file_path)
              (PurePath.suffix file_path) w1) as (w2 & Htemp).
  { rewrite Hrng. exact Hfree1. }
  rewrite Hrng in Htemp. fold t in Htemp.
  pose proof (NamedTemporaryFile_Return env _ _ _ _ _ Htemp) as [_ Hblank].
  assert (Hwrite : exists w3,
            (if String.eqb (PurePath.suffix file_path) ".csv" then to_csv self t
             else if String.eqb (PurePath.suffix file_path) ".xlsx"
                  then to_excel self t else ret tt) w2 = (Return tt, w3)).
  { unfold to_csv, to_excel.
    destruct (String.eqb (PurePath.suffix file_path) ".csv");
      [exact (write_file_ok _ _ _ _ Hblank) |].
    destruct (String.eqb (PurePath.suffix file_path) ".xlsx");
      [exact (write_file_ok _ _ _ _ Hblank) |].
    eexists. reflexivity. }
  destruct Hwrite as (w3 & Hwrite).
  exists w3. unfold write_temp. cbv zeta. fold (temp_dir_of file_path).
  rewrite (bind_step _ _ _ _ _ Hmk), (bind_step _ _ _ _ _ Htemp),
    (bind_step _ _ _ _ _ Hwrite).
  reflexivity.
Qed.

(** X20. A save that fails in format retention does not clean up. With
    the directory of the temporary files there (or its parent, to make it
    in) and the name [tempfile] draws first free, a save whose reference
    of line 108 has a spreadsheet extension but holds no workbook raises,
    and the temporary file stays in [TemporaryFiles], holding the
    serialised dataset. *)
Theorem failed_format_retention_leaves_the_temporary_file
    (self : AdvancePandas) (file_path reference : pathlike)
    (auto_open create_backup : bool) (w : World) :
  Str.mem (PurePath.suffix (to_Path file_path)) valid_extensions = true ->
  (is_Some (fs w !! to_Path file_path) /\ reference = PPath (to_Path file_path)) \/
  (fs w !! to_Path file_path = None /\ source_file self = Some reference /\
   truthy (Some reference) = true) ->
  spreadsheet_extension reference = true ->
  (forall wb, fs w !! to_Path reference <> Some (File (Spreadsheet wb))) ->
  fs w !! temp_dir_of (to_Path file_path) = Some Dir \/
  (fs w !! temp_dir_of (to_Path file_path) = None /\
   fs w !! PurePath.parent (to_Path file_path) = Some Dir) ->
  fs w !! PurePath.joinpath (temp_dir_of (to_Path file_path))
            ("tmp" +:+ candidate env (rng w)
                   +:+ PurePath.suffix (to_Path file_path)) = None ->
  to_Path reference
  <> PurePath.joinpath (temp_dir_of (to_Path file_path))
       ("tmp" +:+ candidate env (rng w) +:+ PurePath.suffix (to_Path file_path)) ->
  let '(r, w') := _save_to_file env self file_path true auto_open create_backup w in
  (exists e, r = Raise e) /\
  fs w' !! PurePath.joinpath (temp_dir_of (to_Path file_path))
             ("tmp" +:+ candidate env (rng w)
                    +:+ PurePath.suffix (to_Path file_path))
  = Some (File (serialized self (to_Path file_path))).
Proof.
  intros Hvalid Href Hext Hno Hdir Hfree Hother.
  apply reference_of_line_108 in Href.
  rewrite save_to_file_valid by exact Hvalid.
  set (path := to_Path file_path) in *.
  set (w0 := set_sigint ignore_keyboard_interrupt w).
  set (t := PurePath.joinpath (temp_dir_of path)
              ("tmp" +:+ candidate env (rng w) +:+ PurePath.suffix path)) in *.
  destruct (write_temp_first self path w0 Hdir Hfree) as (wt & Htemp).
  change (rng w0) with (rng w) in Htemp. fold t in Htemp.
  pose proof (write_temp_Return env _ _ _ _ _ Hvalid Htemp) as [_ Hcontent].
  destruct (write_temp_fs env _ _ _ _ _ Htemp) as (created & Hsame & _ & Hret).
  assert (Hnd : to_Path reference <> temp_dir_of path).
  { intros Heq. unfold spreadsheet_extension in Hext. rewrite Heq in Hext.
    unfold PurePath.suffix, PurePath.name, temp_dir_of, PurePath.joinpath in Hext.
    rewrite last_last in Hext. discriminate Hext. }
  assert (Hrefsame : fs wt !! to_Path reference = fs w !! to_Path reference).
  { apply (Hsame (to_Path reference) Hnd). rewrite (Hret t eq_refl). congruence. }
  assert (Htarget : fs wt !! path = fs w !! path).
  { apply (preserves_write_temp env path) in Htemp as [-> _]; [reflexivity | |].
    - apply PathFacts.target_not_temp_dir. exact Hvalid.
    - rewrite PathFacts.length_temp_dir by exact Hvalid. lia. }
  destruct (load_workbook_unreadable (to_Path reference) wt) as [e He].
  { intros wb. rewrite Hrefsame. apply Hno. }
  assert (Hretain : retain_format_step env self path t true wt = (Raise e, wt)).
  { rewrite retain_format_step_by_reference.
    rewrite (reference_by_spec_ext (fs w)) by exact Htarget.
    rewrite Href, Hext. unfold _transfer_excel_format.
    apply bind_Raise. exact He. }
  assert (Hbody : save_body env self path true auto_open create_backup w0
                  = (Raise e, wt)).
  { unfold save_body, install.
    apply bind_Raise. rewrite (bind_step _ _ _ _ _ Htemp).
    apply bind_Raise. exact Hretain. }
  unfold try_finally. rewrite Hbody. cbn. split; [eauto | exact Hcontent].
Qed.

End Leftovers.

Lemma failed_format_retention_leaves_the_temporary_file_witness :
  let '(r, w') := _save_to_file Examples.posix Examples.loaded_book (PStr "book.xlsx")
                    true false false (Examples.world_of Examples.fs_broken_book) in
  (exists e, r = Raise e) /\
  fs w' !! PurePath.joinpath (temp_dir_of (to_Path (PStr "book.xlsx")))
             ("tmp" +:+ candidate Examples.posix
                          (rng (Examples.world_of Examples.fs_broken_book))
                    +:+ PurePath.suffix (to_Path (PStr "book.xlsx")))
  = Some (File (serialized Examples.loaded_book (to_Path (PStr "book.xlsx")))).
Proof.
  apply (failed_format_retention_leaves_the_temporary_file Examples.posix
           Examples.loaded_book (PStr "book.xlsx") (PPath ["book.xlsx"]) false false
           (Examples.world_of Examples.fs_broken_book)).
  - reflexivity.
  - left. split; [eexists; vm_compute; reflexivity | reflexivity].
  - reflexivity.
  - intros wb H. vm_compute in H. discriminate H.
  - right. split; vm_compute; reflexivity.
  - vm_compute. reflexivity.
  - vm_compute. discriminate.
Defined.

Lemma format_retention_never_completes_witness :
  let '(r, w') := _save_to_file Examples.windows Examples.loaded_book (PStr "out.xlsx")
                    true false false (Examples.world_of Examples.fs_book) in
  (exists e, r = Raise e) /\
  fs w' !! to_Path (PStr "out.xlsx")
  = fs (Examples.world_of Examples.fs_book) !! to_Path (PStr "out.xlsx").
Proof.
  apply (format_retention_never_completes Examples.windows Examples.loaded_book
           (PStr "out.xlsx") (PStr "book.xlsx") false false
           (Examples.world_of Examples.fs_book)).
  - reflexivity.
  - right. split; [vm_compute; reflexivity | split; reflexivity].
  - reflexivity.
Defined.
